(** * offset_tmp_subs: shifting the timestamps of TMPlayer subtitles

    A shallow embedding of [offset_tmp_subs.py] and the proofs of its
    specification.

    Modelling choices.
    - A Python [str] is a [string], a sequence of characters; a
      character is a Unicode code point.  The class [\d] of the [re]
      module, in a pattern of text compiled without [re.ASCII], is every
      decimal digit of Unicode, and [int] reads each of them by its
      decimal value; [.] is every character but the line feed.  The
      decimal digits are those of the Unicode Character Database 14.0:
      66 runs of ten code points, from the zero of each run.
    - A Python [int] is a [Z], unbounded as the language has it; [//] and
      [%] by a positive constant are [Z.div] and [Z.modulo], which floor
      the same way.
    - A raised exception is the left summand of [result]; the functions
      thread it with a small error monad.
    - [re.compile] yields a [regex]; [Pattern.match] and
      [Pattern.fullmatch] are a greedy backtracking matcher with numbered
      capturing groups, as the [re] engine is.
    - The generator [offset_subtitles] is the list of the lines it yields
      together with the exception that ends it, if one does. *)

From Stdlib Require Import ZArith NArith List Bool Lia.
From Stdlib Require Import Strings.Byte.
Import ListNotations.

(** ** Characters and strings *)

(** A character, by its code point. *)
Record char : Type := Char { code : N }.

Inductive string : Type :=
| EmptyString
| String (c : char) (s : string).

Declare Scope char_scope.
Declare Scope string_scope.
Delimit Scope char_scope with char.
Delimit Scope string_scope with string.
Bind Scope char_scope with char.
Bind Scope string_scope with string.

(** The literals: a character of ASCII as it is written, or any
    character by three decimal digits of its code; a text of ASCII. *)
Definition char_of_byte (b : byte) : char := Char (Byte.to_N b).

Definition decimal_of_byte (b : byte) : option N :=
  let n := Byte.to_N b in
  if ((48 <=? n) && (n <=? 57))%N then Some (n - 48)%N else None.

Definition char_of_bytes (bs : list byte) : option char :=
  match bs with
  | [b] => if (Byte.to_N b <? 128)%N then Some (char_of_byte b) else None
  | [a; b; c] =>
      match decimal_of_byte a, decimal_of_byte b, decimal_of_byte c with
      | Some x, Some y, Some z => Some (Char (x * 100 + y * 10 + z))
      | _, _, _ => None
      end
  | _ => None
  end.

Definition bytes_of_char (c : char) : option (list byte) :=
  if ((32 <=? code c) && (code c <? 127))%N then
    match Byte.of_N (code c) with
    | Some b => Some [b]
    | None => None
    end
  else None.

String Notation char char_of_bytes bytes_of_char : char_scope.

Fixpoint string_of_bytes (bs : list byte) : option string :=
  match bs with
  | [] => Some EmptyString
  | b :: bs' =>
      if (Byte.to_N b <? 128)%N then
        match string_of_bytes bs' with
        | Some s => Some (String (char_of_byte b) s)
        | None => None
        end
      else None
  end.

Fixpoint bytes_of_string (s : string) : option (list byte) :=
  match s with
  | EmptyString => Some []
  | String c s' =>
      if (code c <? 128)%N then
        match Byte.of_N (code c), bytes_of_string s' with
        | Some b, Some bs => Some (b :: bs)
        | _, _ => None
        end
      else None
  end.

String Notation string string_of_bytes bytes_of_string : string_scope.

Fixpoint append (s1 s2 : string) : string :=
  match s1 with
  | EmptyString => s2
  | String c s1' => String c (append s1' s2)
  end.

Notation "s1 ++ s2" := (append s1 s2) : string_scope.

Definition char_eqb (a b : char) : bool := (code a =? code b)%N.

Local Open Scope string_scope.
Local Open Scope Z_scope.

(** ** Strings *)

Module Str.

Fixpoint length (s : string) : nat :=
  match s with
  | EmptyString => O
  | String _ s' => S (length s')
  end.

Fixpoint eqb (s1 s2 : string) : bool :=
  match s1, s2 with
  | EmptyString, EmptyString => true
  | String c1 s1', String c2 s2' => char_eqb c1 c2 && eqb s1' s2'
  | _, _ => false
  end.

(** The characters of a text, in a list. *)
Fixpoint chars (s : string) : list char :=
  match s with
  | EmptyString => []
  | String c s' => c :: chars s'
  end.

Fixpoint all (p : char -> bool) (s : string) : bool :=
  match s with
  | EmptyString => true
  | String c s' => p c && all p s'
  end.

Fixpoint take (n : nat) (s : string) : string :=
  match n, s with
  | S n', String c s' => String c (take n' s')
  | _, _ => EmptyString
  end.

Fixpoint take_while (p : char -> bool) (s : string) : string :=
  match s with
  | String c s' => if p c then String c (take_while p s') else EmptyString
  | EmptyString => EmptyString
  end.

Fixpoint drop_while (p : char -> bool) (s : string) : string :=
  match s with
  | String c s' => if p c then drop_while p s' else s
  | EmptyString => EmptyString
  end.

Fixpoint zeros (n : nat) : string :=
  match n with
  | O => EmptyString
  | S n' => String "0" (zeros n')
  end.

(** [s.startswith(c)] for a one-character prefix. *)
Definition startswith (s : string) (c : char) : bool :=
  match s with
  | String d _ => char_eqb d c
  | EmptyString => false
  end.

Definition is_empty (s : string) : bool :=
  match s with
  | EmptyString => true
  | String _ _ => false
  end.

(** The part of [s] that was read when [rest] is what remains of it. *)
Definition consumed (s rest : string) : string :=
  take (length s - length rest) s.

Fixpoint count (p : char -> bool) (s : string) : nat :=
  match s with
  | EmptyString => 0
  | String c s' => (if p c then 1 else 0) + count p s'
  end.

(** [s] does not begin with a character of the class [p]. *)
Definition stops (p : char -> bool) (s : string) : bool :=
  match s with
  | String c _ => negb (p c)
  | EmptyString => true
  end.

End Str.

(** ** Character classes *)

(** The zeros of the decimal digits of Unicode: each is followed by
    the digits one to nine of its script. *)
Definition other_zero_digits : list N :=
  [1632; 1776; 1984; 2406; 2534; 2662; 2790; 2918; 3046; 3174; 3302; 3430;
   3558; 3664; 3792; 3872; 4160; 4240; 6112; 6160; 6470; 6608; 6784; 6800;
   6992; 7088; 7232; 7248; 42528; 43216; 43264; 43472; 43504; 43600; 44016;
   65296; 66720; 68912; 69734; 69872; 69942; 70096; 70384; 70736; 70864;
   71248; 71360; 71472; 71904; 72016; 72784; 73040; 73120; 92768; 92864;
   93008; 120782; 120792; 120802; 120812; 120822; 123200; 123632; 125264;
   130032]%N.

Definition zero_digits : list N := 48%N :: other_zero_digits.

(** The decimal value of a code point among the runs of the given zeros. *)
Fixpoint decimal_among (zeros : list N) (n : N) : option N :=
  match zeros with
  | [] => None
  | z :: zeros' =>
      if ((z <=? n) && (n <? z + 10))%N then Some (n - z)%N
      else decimal_among zeros' n
  end.

(** The decimal value of a character, when it is a decimal digit. *)
Definition decimal_value (c : char) : option N :=
  decimal_among zero_digits (code c).

(** The class [\d]. *)
Definition is_digit (c : char) : bool :=
  match decimal_value c with
  | Some _ => true
  | None => false
  end.

(** The digits ['0'] to ['9']. *)
Definition is_ascii_digit (c : char) : bool :=
  ((48 <=? code c) && (code c <=? 57))%N.

Definition is_ascii (c : char) : bool := (code c <? 128)%N.

Definition is_sign (c : char) : bool := char_eqb c "-" || char_eqb c "+".

Definition is_separator (c : char) : bool := char_eqb c ":" || char_eqb c "=".

Definition is_colon (c : char) : bool := char_eqb c ":".

(** [.] without [re.DOTALL]: anything but a line feed. *)
Definition is_dot (c : char) : bool := negb (char_eqb c "010").

(** ** Exceptions *)

Inductive exn : Type :=
| ValueError (arg : string)   (* carries the offending string, not the message *)
| AttributeError              (* [.groups()] on [None] *)
| TypeError.                  (* [int(None)] *)

Definition result (A : Type) : Type := (exn + A)%type.

Definition ret {A} (a : A) : result A := inr a.
Definition raise {A} (e : exn) : result A := inl e.
Definition bind {A B} (m : result A) (f : A -> result B) : result B :=
  match m with
  | inl e => inl e
  | inr a => f a
  end.

Notation "x <- m ;; k" := (bind m (fun x => k))
  (at level 61, m at next level, right associativity).

(** ** The [re] module *)

Module Re.

(** The regular expressions the program compiles.  Repetition is over a
    one-character class, which is all the patterns use. *)
Inductive regex : Type :=
| Chr (p : char -> bool)          (* one character of a class, or a literal *)
| Cat (r1 r2 : regex)              (* r1 r2 *)
| Opt (r : regex)                  (* r?  *)
| Plus (p : char -> bool)         (* c+  *)
| Star (p : char -> bool)         (* c*  *)
| Group (i : nat) (r : regex).     (* (r), the group of index i in .groups() *)

Definition groups : Type := list (option string).

Fixpoint set_group (i : nat) (v : string) (g : groups) : groups :=
  match i, g with
  | O, _ :: g' => Some v :: g'
  | S i', x :: g' => x :: set_group i' v g'
  | _, [] => []
  end.

Fixpoint ngroups (r : regex) : nat :=
  match r with
  | Chr _ | Plus _ | Star _ => 0
  | Cat r1 r2 => ngroups r1 + ngroups r2
  | Opt r' => ngroups r'
  | Group _ r' => S (ngroups r')
  end.

Section Matcher.
Variable A : Type.

(** Greedy repetition: the longest run first, then shorter ones. *)
Fixpoint star (p : char -> bool) (s : string) (k : string -> option A)
  : option A :=
  match s with
  | String c s' =>
      if p c then
        match star p s' k with
        | Some x => Some x
        | None => k s
        end
      else k s
  | EmptyString => k s
  end.

Fixpoint run (r : regex) (s : string) (g : groups)
    (k : string -> groups -> option A) : option A :=
  match r with
  | Chr p =>
      match s with
      | String c s' => if p c then k s' g else None
      | EmptyString => None
      end
  | Cat r1 r2 => run r1 s g (fun s1 g1 => run r2 s1 g1 k)
  | Opt r' =>
      match run r' s g k with
      | Some x => Some x
      | None => k s g
      end
  | Plus p =>
      match s with
      | String c s' => if p c then star p s' (fun s1 => k s1 g) else None
      | EmptyString => None
      end
  | Star p => star p s (fun s1 => k s1 g)
  | Group i r' => run r' s g (fun s1 g1 => k s1 (set_group i (Str.consumed s s1) g1))
  end.
End Matcher.

Arguments star {A} p s k.
Arguments run {A} r s g k.

(** [pattern.match(s)]: a match at the start of [s]; [None] is [None]. *)
Definition match_ (r : regex) (s : string) : option groups :=
  run r s (repeat None (ngroups r)) (fun _ g => Some g).

(** [pattern.fullmatch(s)]: the match has to reach the end of [s]. *)
Definition fullmatch (r : regex) (s : string) : option groups :=
  run r s (repeat None (ngroups r))
      (fun rest g => if Str.is_empty rest then Some g else None).

(** [m.groups()], where [m] may be [None]. *)
Definition groups_of (m : option groups) : result groups :=
  match m with
  | Some g => ret g
  | None => raise AttributeError
  end.

End Re.

Import Re.

Definition digit : regex := Chr is_digit.
Definition colon : regex := Chr is_colon.

(** The pattern [(\d+:\d\d:\d\d)([:=])(.STAR)], where [.STAR] stands for
    any run of [.], as long as can be. *)
Definition SUBTITLE_LINE_PATTERN : regex :=
  Cat (Group 0 (Cat (Plus is_digit) (Cat colon (Cat digit (Cat digit
                 (Cat colon (Cat digit digit)))))))
      (Cat (Group 1 (Chr is_separator))
           (Group 2 (Star is_dot))).

(** r'(\d+):(\d\d):(\d\d)' *)
Definition TIMESTAMP_PATTERN : regex :=
  Cat (Group 0 (Plus is_digit))
      (Cat colon (Cat (Group 1 (Cat digit digit))
                      (Cat colon (Group 2 (Cat digit digit))))).

(** r'[-+]?\d+' *)
Definition ONLY_SECONDS : regex := Cat (Opt (Chr is_sign)) (Plus is_digit).

(** r'([-+])?(\d\d):(\d\d)' *)
Definition WITH_MINUTES : regex :=
  Cat (Opt (Group 0 (Chr is_sign)))
      (Cat (Group 1 (Cat digit digit)) (Cat colon (Group 2 (Cat digit digit)))).

(** r'([-+])?(\d+):(\d\d):(\d\d)' *)
Definition WITH_HOURS : regex :=
  Cat (Opt (Group 0 (Chr is_sign)))
      (Cat (Group 1 (Plus is_digit))
           (Cat colon (Cat (Group 2 (Cat digit digit))
                           (Cat colon (Group 3 (Cat digit digit)))))).

(** ** [int] and the format specification [02d] *)

(** What [int] reads a digit as. *)
Definition digit_value (c : char) : Z :=
  match decimal_value c with
  | Some d => Z.of_N d
  | None => 0
  end.

(** The character that writes a digit. *)
Definition digit_char (d : Z) : char := Char (Z.to_N (d + 48)).

(** The number a run of decimal digits writes, most significant first. *)
Fixpoint dec_value_from (acc : Z) (ds : string) : Z :=
  match ds with
  | EmptyString => acc
  | String c ds' => dec_value_from (acc * 10 + digit_value c) ds'
  end.

Definition dec_value (ds : string) : Z := dec_value_from 0 ds.

Definition is_digits (ds : string) : bool :=
  negb (Str.is_empty ds) && Str.all is_digit ds.

Definition is_two_digits (ds : string) : bool :=
  (Str.length ds =? 2)%nat && Str.all is_digit ds.

(** The same with ['0'] to ['9'] alone for digits. *)
Definition is_ascii_digits (ds : string) : bool :=
  negb (Str.is_empty ds) && Str.all is_ascii_digit ds.

Definition is_ascii_two_digits (ds : string) : bool :=
  (Str.length ds =? 2)%nat && Str.all is_ascii_digit ds.

(** [int(s)] on an optional sign followed by decimal digits, the only
    texts the patterns let through; anything else is a [ValueError]
    here.  (Python would also strip blanks and skip underscores.) *)
Definition int (s : string) : result Z :=
  match s with
  | String c ds =>
      if char_eqb c "-" then
        if is_digits ds then ret (- dec_value ds) else raise (ValueError s)
      else if char_eqb c "+" then
        if is_digits ds then ret (dec_value ds) else raise (ValueError s)
      else
        if is_digits s then ret (dec_value s) else raise (ValueError s)
  | EmptyString => raise (ValueError s)
  end.

(** [int(m.groups()[i])]: a group that took no part in the match is [None]. *)
Definition int_group (g : groups) (i : nat) : result Z :=
  match nth i g None with
  | Some s => int s
  | None => raise TypeError
  end.

(** The decimal digits of [n >= 0], at most [fuel] of them, before [acc]. *)
Fixpoint digits_of (fuel : nat) (n : Z) (acc : string) : string :=
  match fuel with
  | O => acc
  | S fuel' =>
      let acc' := String (digit_char (n mod 10)) acc in
      if n <? 10 then acc' else digits_of fuel' (n / 10) acc'
  end.

(** [str(n)] for [n >= 0]; a number has no more decimal than binary digits. *)
Definition str_nat (n : Z) : string :=
  digits_of (S (Z.to_nat (Z.log2 n))) n EmptyString.

(** [format(z, '0{width}d')]: the sign, then zeros up to the width, then
    the digits. *)
Definition format_0d (width : nat) (z : Z) : string :=
  let sign := if z <? 0 then "-" else "" in
  let digits := str_nat (Z.abs z) in
  sign ++ Str.zeros (width - Str.length sign - Str.length digits) ++ digits.

Definition format_02d : Z -> string := format_0d 2.

(** ** The program *)

(** [match.groups()[0] == '-'] *)
Definition group_is_minus (g : groups) : bool :=
  match nth 0 g None with
  | Some s => Str.eqb s "-"
  | None => false
  end.

Definition total_seconds (offset_string : string) : result Z :=
  match fullmatch ONLY_SECONDS offset_string with
  | Some _ => int offset_string
  | None =>
  match fullmatch WITH_MINUTES offset_string with
  | Some g =>
      let sign := if group_is_minus g then -1 else 1 in
      minutes <- int_group g 1 ;;
      seconds <- int_group g 2 ;;
      ret ((minutes * 60 + seconds) * sign)
  | None =>
  match fullmatch WITH_HOURS offset_string with
  | Some g =>
      let sign := if group_is_minus g then -1 else 1 in
      hours <- int_group g 1 ;;
      minutes <- int_group g 2 ;;
      seconds <- int_group g 3 ;;
      ret ((hours * 3600 + minutes * 60 + seconds) * sign)
  | None => raise (ValueError offset_string)
  end end end.

Definition offset_timestamp (timestamp : string) (seconds : Z) : result string :=
  g <- groups_of (match_ TIMESTAMP_PATTERN timestamp) ;;
  init_hour <- int_group g 0 ;;
  init_min <- int_group g 1 ;;
  init_sec <- int_group g 2 ;;
  let total_seconds := init_hour * 60 * 60 + init_min * 60 + init_sec in
  let total_seconds := total_seconds + seconds in
  let second := total_seconds mod 60 in
  let total_minutes := total_seconds / 60 in
  let minute := total_minutes mod 60 in
  let hour := total_minutes / 60 in
  ret (format_02d hour ++ ":" ++ format_02d minute ++ ":" ++ format_02d second).

Definition offset_line (line : string) (seconds : Z) : result string :=
  g <- groups_of (match_ SUBTITLE_LINE_PATTERN line) ;;
  match g with
  | [Some timestamp; Some separator; Some content] =>
      fixed_timestamp <- offset_timestamp timestamp seconds ;;
      ret (fixed_timestamp ++ separator ++ content)
  | _ => raise TypeError
  end.

(** What a generator did when it was run to its end: the values it
    yielded, in order, and the exception that stopped it, if any. *)
Record yielded : Type := Yielded { items : list string; raised : option exn }.

Definition yield_first (x : string) (y : yielded) : yielded :=
  Yielded (x :: items y) (raised y).

Fixpoint offset_subtitles (lines : list string) (seconds : Z) : yielded :=
  match lines with
  | [] => Yielded [] None
  | line :: lines' =>
      match offset_line line seconds with
      | inl e => Yielded [] (Some e)
      | inr fixed_line =>
          if Str.startswith fixed_line "-" then offset_subtitles lines' seconds
          else yield_first fixed_line (offset_subtitles lines' seconds)
      end
  end.

(** ** The specification's vocabulary *)

Module Spec.

(** The optional sign of an offset. *)
Inductive sign : Type := Unsigned | Positive | Negative.

Definition sign_text (sg : sign) : string :=
  match sg with
  | Unsigned => ""
  | Positive => "+"
  | Negative => "-"
  end.

(** A missing sign counts as positive. *)
Definition sign_value (sg : sign) : Z :=
  match sg with
  | Negative => -1
  | _ => 1
  end.

Definition decimal_digits : list char :=
  ["0"; "1"; "2"; "3"; "4"; "5"; "6"; "7"; "8"; "9"]%char.

(** One or more digits. *)
Definition digits (s : string) : Prop :=
  s <> "" /\ Forall (fun c => In c decimal_digits) (Str.chars s).

(** Exactly two digits. *)
Definition two_digits (s : string) : Prop :=
  digits s /\ Str.length s = 2%nat.

(** The number a decimal numeral denotes, by the weight of each place. *)
Fixpoint decimal (s : string) : Z :=
  match s with
  | EmptyString => 0
  | String c s' => digit_value c * 10 ^ Z.of_nat (Str.length s') + decimal s'
  end.

(** The three grammars of an offset, each with the value it gives. *)
Inductive offset : string -> Z -> Prop :=
| seconds_only sg ss :
    digits ss ->
    offset (sign_text sg ++ ss) (sign_value sg * decimal ss)
| minutes_seconds sg mm ss :
    two_digits mm -> two_digits ss ->
    offset (sign_text sg ++ mm ++ ":" ++ ss)
           (sign_value sg * (decimal mm * 60 + decimal ss))
| hours_minutes_seconds sg hh mm ss :
    digits hh -> two_digits mm -> two_digits ss ->
    offset (sign_text sg ++ hh ++ ":" ++ mm ++ ":" ++ ss)
           (sign_value sg * (decimal hh * 3600 + decimal mm * 60 + decimal ss)).

(** A text some grammar accepts, as a whole. *)
Definition accepted (s : string) : Prop := exists v, offset s v.

Definition separator (c : char) : Prop := c = ":"%char \/ c = "="%char.

(** A line that begins with a timestamp H+:MM:SS and a separator. *)
Definition well_formed (line : string) : Prop :=
  exists hh mm ss sep content,
    digits hh /\ two_digits mm /\ two_digits ss /\ separator sep /\
    line = hh ++ ":" ++ mm ++ ":" ++ ss ++ String sep content.

(** Flattened seconds of the digit groups of a timestamp. *)
Definition flattened (hh mm ss : string) : Z :=
  decimal hh * 3600 + decimal mm * 60 + decimal ss.

(** A timestamp as the data model has it, and its rendering. *)
Record timestamp : Type := Timestamp { hour : Z; minute : Z; second : Z }.

Definition valid (t : timestamp) : Prop :=
  0 <= hour t /\ 0 <= minute t <= 59 /\ 0 <= second t <= 59.

Definition seconds_of (t : timestamp) : Z :=
  hour t * 3600 + minute t * 60 + second t.

Definition render (t : timestamp) : string :=
  format_02d (hour t) ++ ":" ++ format_02d (minute t) ++ ":" ++ format_02d (second t).

(** The timestamp of a number of seconds, by flooring division. *)
Definition of_seconds (total : Z) : timestamp :=
  Timestamp (total / 3600) ((total / 60) mod 60) (total mod 60).

(** A subtitle line by its parts: the digit groups of the timestamp, the
    separator and the content. *)
Record line : Type :=
  Line { hh : string; mm : string; ss : string; sep : char; content : string }.

Definition line_ok (l : line) : bool :=
  is_digits (hh l) && is_two_digits (mm l) && is_two_digits (ss l) &&
  is_separator (sep l).

Definition text (l : line) : string :=
  hh l ++ ":" ++ mm l ++ ":" ++ ss l ++ String (sep l) (content l).

(** Flattened seconds of the line's timestamp plus the offset. *)
Definition total (l : line) (offset : Z) : Z :=
  flattened (hh l) (mm l) (ss l) + offset.

(** The content up to, and without, its first line feed. *)
Definition first_line (s : string) : string := Str.take_while is_dot s.

Definition single_line (s : string) : bool := Str.all is_dot s.

(** An hour group as [02d] writes it: two digits, or more with no
    leading zero. *)
Definition canonical_hour (h : string) : bool :=
  (Str.length h =? 2)%nat ||
  ((2 <? Str.length h)%nat && negb (Str.startswith h "0")).

(** A line as the program itself writes it, in the digits ['0'] to
    ['9']. *)
Definition canonical (l : line) : bool :=
  line_ok l && canonical_hour (hh l) &&
  (decimal (mm l) <=? 59) && (decimal (ss l) <=? 59) &&
  single_line (content l) &&
  Str.all is_ascii_digit (hh l ++ mm l ++ ss l).

End Spec.

(** ** What the patterns take

    The grammars and the shape of a line once more, with a digit being
    any decimal digit of Unicode, as [\d] has it. *)

Module Pat.

Inductive offset : string -> Z -> Prop :=
| seconds_only sg ss :
    is_digits ss = true ->
    offset (Spec.sign_text sg ++ ss) (Spec.sign_value sg * Spec.decimal ss)
| minutes_seconds sg mm ss :
    is_two_digits mm = true -> is_two_digits ss = true ->
    offset (Spec.sign_text sg ++ mm ++ ":" ++ ss)
           (Spec.sign_value sg * (Spec.decimal mm * 60 + Spec.decimal ss))
| hours_minutes_seconds sg hh mm ss :
    is_digits hh = true -> is_two_digits mm = true -> is_two_digits ss = true ->
    offset (Spec.sign_text sg ++ hh ++ ":" ++ mm ++ ":" ++ ss)
           (Spec.sign_value sg *
            (Spec.decimal hh * 3600 + Spec.decimal mm * 60 + Spec.decimal ss)).

Definition accepted (s : string) : Prop := exists v, offset s v.

Definition well_formed (line : string) : Prop :=
  exists l, Spec.line_ok l = true /\ line = Spec.text l.

End Pat.

(** A text of ASCII. *)
Definition is_ascii_text (s : string) : bool := Str.all is_ascii s.

(** The numeral 123 and the line 00:00:10:x in the digits of Arabic. *)
Definition arabic_123 : string :=
  String (Char 1633) (String (Char 1634) (String (Char 1635) "")).

Definition arabic_line : string :=
  String (Char 1632) (String (Char 1632) (String ":"
    (String (Char 1632) (String (Char 1632) (String ":"
      (String (Char 1633) (String (Char 1632) ":x"))))))).

(** What [offset_line] returns for a line given by its parts. *)
Definition shifted (l : Spec.line) (seconds : Z) : string :=
  Spec.render (Spec.of_seconds (Spec.total l seconds)) ++
  String (Spec.sep l) (Spec.first_line (Spec.content l)).

(** The filter the specification recommends in place of the test on
    the first character: the new total is carried along with the line
    and the lines of a negative total are left out. *)
Fixpoint offset_subtitles_by_total (ls : list Spec.line) (seconds : Z) : yielded :=
  match ls with
  | [] => Yielded [] None
  | l :: ls' =>
      match offset_line (Spec.text l) seconds with
      | inl e => Yielded [] (Some e)
      | inr fixed_line =>
          if Spec.total l seconds <? 0 then offset_subtitles_by_total ls' seconds
          else yield_first fixed_line (offset_subtitles_by_total ls' seconds)
      end
  end.

(** The line of a rendered timestamp, by its parts. *)
Definition rendered_line (t : Spec.timestamp) (sep : char) (content : string)
  : Spec.line :=
  Spec.Line (format_02d (Spec.hour t)) (format_02d (Spec.minute t))
            (format_02d (Spec.second t)) sep content.

(** The line feed. *)
Definition LF : string := String "010" "".

(** What [.groups()] holds for the optional sign group. *)
Definition sign_group (sg : Spec.sign) : option string :=
  match sg with
  | Spec.Unsigned => None
  | Spec.Positive => Some "+"
  | Spec.Negative => Some "-"
  end.

(** The groups after the optional sign group. *)
Definition with_sign (sg : Spec.sign) (g : groups) : groups :=
  match sign_group sg with
  | Some t => set_group 0 t g
  | None => g
  end.

(** The end of the text, which [fullmatch] asks for after the pattern. *)
Definition at_end (rest : string) (g : groups) : option groups :=
  if Str.is_empty rest then Some g else None.

(** ** The command line

    [main] runs in a world of files and a standard output.  A file is
    the text that reading it in text mode gives, its line ends being
    line feeds; opening fails on a missing file to read and, in mode
    ['x'], on a file that is there already.  What else an operating
    system may refuse is not in the model. *)

Definition PROG_NAME : string := "offset_tmp_subs".

Inductive os_error : Type :=
| FileNotFoundError (name : string)
| FileExistsError (name : string).

(** How a run of [main] ends. *)
Inductive outcome : Type :=
| Returned
| SystemExit (code : Z)
| Uncaught (e : exn)
| UncaughtOS (e : os_error).

Record world : Type := World { files : string -> option string; stdout : string }.

(** [print(text)] *)
Definition print (text : string) (w : world) : world :=
  World (files w) (stdout w ++ text ++ LF).

Definition print_usage (w : world) : world :=
  let w := print ("usage: " ++ PROG_NAME ++ " OFFSET SUBTITLE_FILE OUTPUT_FILE") w in
  let w := print "Delay or hasten subtitles in MTP format by OFFSET number of seconds." w in
  let w := print "OFFSET can be a signed number of seconds or a time string similar" w in
  print "to: -01:30, +02:00, or 01:23:45." w.

(** [list(file)]: the lines of a text, each with the line feed that ends
    it; the last one may have none. *)
Fixpoint readlines (s : string) : list string :=
  match s with
  | EmptyString => []
  | String c s' =>
      if char_eqb c "010" then String c "" :: readlines s'
      else match readlines s' with
           | [] => [String c ""]
           | l :: ls => String c l :: ls
           end
  end.

(** [open(name, 'x')] on a name that is free: an empty file. *)
Definition create (name : string) (w : world) : world :=
  World (fun n => if Str.eqb n name then Some "" else files w n) (stdout w).

(** [print(text, file=f)] for the open file [name]. *)
Definition print_to (name text : string) (w : world) : world :=
  World (fun n => if Str.eqb n name
                  then option_map (fun t => t ++ text ++ LF) (files w n)
                  else files w n)
        (stdout w).

(** The loop over what the generator yields. *)
Fixpoint print_all (name : string) (items : list string) (w : world) : world :=
  match items with
  | [] => w
  | line :: items' => print_all name items' (print_to name line w)
  end.

Definition main (prog_name : string) (args : list string) (w : world)
  : world * outcome :=
  if negb (List.length args =? 3)%nat then
    let w := print (PROG_NAME ++ ": Wrong number of arguments." ++ " " ++
                    "Required 3, but found " ++
                    str_nat (Z.of_nat (List.length args))) w in
    let w := print_usage w in
    (w, SystemExit 1)
  else
    let offset_string := nth 0 args "" in
    let subtitle_fname := nth 1 args "" in
    let output_fname := nth 2 args "" in
    match total_seconds offset_string with
    | inl e => (w, Uncaught e)
    | inr offset =>
        match files w subtitle_fname with
        | None => (w, UncaughtOS (FileNotFoundError subtitle_fname))
        | Some subtitle_text =>
            let subtitle_file_lines := readlines subtitle_text in
            match files w output_fname with
            | Some _ => (w, UncaughtOS (FileExistsError output_fname))
            | None =>
                let y := offset_subtitles subtitle_file_lines offset in
                let w := print_all output_fname (items y) (create output_fname w) in
                match raised y with
                | Some e => (w, Uncaught e)
                | None => (w, Returned)
                end
            end
        end
    end.

(** A world with no file but [name], and nothing printed. *)
Definition one_file (name text : string) : world :=
  World (fun n => if Str.eqb n name then Some text else None) "".

(** The text of lines that each end in a line feed. *)
Fixpoint unlines (ls : list string) : string :=
  match ls with
  | [] => ""
  | l :: ls' => l ++ LF ++ unlines ls'
  end.

(** A line with the line feed that ends it in a file. *)
Definition ended (l : string) : string := l ++ LF.

(** * Properties *)

(** ** Strings *)

Lemma char_eqb_eq (a b : char) : char_eqb a b = true <-> a = b.
Proof.
  destruct a as [m], b as [n]. unfold char_eqb. cbn [code].
  rewrite N.eqb_eq. split; [now intros -> | now intros [= ->]].
Qed.

Lemma char_eqb_refl (a : char) : char_eqb a a = true.
Proof. now apply char_eqb_eq. Qed.

Lemma char_eqb_spec (a b : char) : reflect (a = b) (char_eqb a b).
Proof.
  destruct (char_eqb a b) eqn:E; constructor.
  - now apply char_eqb_eq.
  - intros H. apply char_eqb_eq in H. congruence.
Qed.

Lemma str_eqb_eq (a b : string) : Str.eqb a b = true <-> a = b.
Proof.
  revert b. induction a as [|c a IH]; intros [|d b]; cbn [Str.eqb];
    try (split; [discriminate | discriminate]); [split; reflexivity|].
  rewrite andb_true_iff, char_eqb_eq, IH.
  split; [now intros [-> ->] | now intros [= -> ->]].
Qed.

Lemma str_eqb_refl (a : string) : Str.eqb a a = true.
Proof. now apply str_eqb_eq. Qed.

Lemma str_eqb_spec (a b : string) : reflect (a = b) (Str.eqb a b).
Proof.
  destruct (Str.eqb a b) eqn:E; constructor.
  - now apply str_eqb_eq.
  - intros H. apply str_eqb_eq in H. congruence.
Qed.

Lemma str_eqb_neq (a b : string) : Str.eqb a b = false <-> a <> b.
Proof. destruct (str_eqb_spec a b); split; congruence. Qed.

Section StringFacts.

Lemma append_nil_r (s : string) : s ++ "" = s.
Proof. induction s as [|c s IH]; simpl; congruence. Qed.

Lemma append_assoc (a b c : string) : (a ++ b) ++ c = a ++ b ++ c.
Proof. induction a as [|x a IH]; simpl; congruence. Qed.

Lemma length_append (a b : string) :
  Str.length (a ++ b) = (Str.length a + Str.length b)%nat.
Proof. induction a as [|x a IH]; simpl; congruence. Qed.

Lemma take_append (a b : string) : Str.take (Str.length a) (a ++ b) = a.
Proof. induction a as [|x a IH]; simpl; [destruct b|]; congruence. Qed.

Lemma consumed_append (a b : string) : Str.consumed (a ++ b) b = a.
Proof.
  unfold Str.consumed. rewrite length_append.
  replace (Str.length a + Str.length b - Str.length b)%nat
    with (Str.length a) by lia.
  apply take_append.
Qed.

Variable p : char -> bool.

Lemma all_append (a b : string) :
  Str.all p (a ++ b) = Str.all p a && Str.all p b.
Proof.
  induction a as [|x a IH]; simpl; [reflexivity|].
  rewrite IH. apply andb_assoc.
Qed.

Lemma take_drop_while (s : string) :
  Str.take_while p s ++ Str.drop_while p s = s.
Proof.
  induction s as [|c s IH]; simpl; [reflexivity|].
  destruct (p c); simpl; congruence.
Qed.

Lemma all_take_while (s : string) : Str.all p (Str.take_while p s) = true.
Proof.
  induction s as [|c s IH]; simpl; [reflexivity|].
  destruct (p c) eqn:E; simpl; [rewrite E|]; auto.
Qed.

Lemma stops_drop_while (s : string) : Str.stops p (Str.drop_while p s) = true.
Proof.
  induction s as [|c s IH]; simpl; [reflexivity|].
  destruct (p c) eqn:E; simpl; [assumption | now rewrite E].
Qed.

Lemma drop_while_stops (s : string) : Str.stops p s = true -> Str.drop_while p s = s.
Proof.
  destruct s as [|c s]; simpl; [reflexivity|].
  destruct (p c); simpl; [discriminate | reflexivity].
Qed.

Lemma drop_while_append (a b : string) :
  Str.all p a = true -> Str.stops p b = true -> Str.drop_while p (a ++ b) = b.
Proof.
  induction a as [|x a IH]; simpl; intros Ha Hb.
  - now apply drop_while_stops.
  - apply andb_true_iff in Ha as [Hx Ha]. rewrite Hx. auto.
Qed.

Lemma take_while_append (a b : string) :
  Str.all p a = true -> Str.stops p b = true -> Str.take_while p (a ++ b) = a.
Proof.
  induction a as [|x a IH]; simpl; intros Ha Hb.
  - destruct b as [|c b]; simpl in *; [reflexivity|].
    destruct (p c); [discriminate | reflexivity].
  - apply andb_true_iff in Ha as [Hx Ha]. rewrite Hx. f_equal. auto.
Qed.

Lemma is_empty_drop_while (s : string) :
  Str.is_empty (Str.drop_while p s) = Str.all p s.
Proof.
  induction s as [|c s IH]; simpl; [reflexivity|].
  destruct (p c); simpl; auto.
Qed.

End StringFacts.

(** ** The matcher *)

Section StarFacts.
Variable A : Type.
Variable p : char -> bool.
Variable k : string -> option A.

(** Greedy: when what follows accepts the longest run, that is the match. *)
Lemma star_longest (s : string) (x : A) :
  k (Str.drop_while p s) = Some x -> star p s k = Some x.
Proof.
  induction s as [|c s IH]; simpl; [auto|].
  destruct (p c); [|auto].
  intros H. now rewrite (IH H).
Qed.

(** When what follows rejects every text that begins in [p], giving
    characters back cannot help: only the longest run is left. *)
Lemma star_only_longest (s : string) :
  (forall c t, p c = true -> k (String c t) = None) ->
  star p s k = k (Str.drop_while p s).
Proof.
  intros Hk. induction s as [|c s IH]; simpl; [reflexivity|].
  destruct (p c) eqn:E; [|reflexivity].
  rewrite IH. destruct (k (Str.drop_while p s)); [reflexivity|].
  now apply Hk.
Qed.
End StarFacts.

(** ** Digits and numerals *)

Lemma decimal_among_range (zeros : list N) (n d : N) :
  decimal_among zeros n = Some d -> (d < 10)%N.
Proof.
  induction zeros as [|z zeros IH]; cbn [decimal_among]; [discriminate|].
  destruct ((z <=? n) && (n <? z + 10))%N eqn:E; [|exact IH].
  apply andb_true_iff in E as [L U]. apply N.leb_le in L. apply N.ltb_lt in U.
  intros [= <-]. lia.
Qed.

Lemma decimal_among_below (zeros : list N) (n : N) :
  Forall (fun z => (n < z)%N) zeros -> decimal_among zeros n = None.
Proof.
  induction 1 as [|z zeros Hz _ IH]; cbn [decimal_among]; [reflexivity|].
  destruct (z <=? n)%N eqn:L; [apply N.leb_le in L; lia | exact IH].
Qed.

Lemma other_zeros_above :
  Forall (fun z => (128 <= z)%N) other_zero_digits.
Proof.
  apply Forall_forall. intros z H.
  assert (E : forallb (fun z => (128 <=? z)%N) other_zero_digits = true)
    by reflexivity.
  rewrite forallb_forall in E. apply N.leb_le. now apply E.
Qed.

Lemma decimal_value_ascii (c : char) :
  is_ascii c = true ->
  decimal_value c = if is_ascii_digit c then Some (code c - 48)%N else None.
Proof.
  unfold is_ascii, is_ascii_digit, decimal_value, zero_digits. intros A.
  apply N.ltb_lt in A. cbn [decimal_among].
  replace (code c <? 48 + 10)%N with (code c <=? 57)%N
    by (destruct (code c <=? 57)%N eqn:E1, (code c <? 48 + 10)%N eqn:E2;
        try reflexivity;
        [apply N.leb_le in E1; apply N.ltb_ge in E2
        | apply N.leb_gt in E1; apply N.ltb_lt in E2]; lia).
  destruct ((48 <=? code c) && (code c <=? 57))%N; [reflexivity|].
  apply decimal_among_below.
  eapply Forall_impl; [|exact other_zeros_above]. cbv beta. intros z Hz. lia.
Qed.

(** Among the characters of ASCII the digits are ['0'] to ['9']. *)
Lemma is_digit_ascii (c : char) :
  is_ascii c = true -> is_digit c = is_ascii_digit c.
Proof.
  intros A. unfold is_digit. rewrite (decimal_value_ascii c A).
  now destruct (is_ascii_digit c).
Qed.

Lemma ascii_digit_ascii (c : char) : is_ascii_digit c = true -> is_ascii c = true.
Proof.
  unfold is_ascii_digit, is_ascii. intros H. apply andb_true_iff in H as [_ U].
  apply N.leb_le in U. apply N.ltb_lt. lia.
Qed.

Lemma ascii_digit_digit (c : char) : is_ascii_digit c = true -> is_digit c = true.
Proof. intros H. now rewrite (is_digit_ascii c (ascii_digit_ascii c H)). Qed.

Lemma ascii_digit_value (c : char) :
  is_ascii_digit c = true -> digit_value c = Z.of_N (code c) - 48.
Proof.
  intros H. unfold digit_value.
  rewrite (decimal_value_ascii c (ascii_digit_ascii c H)), H.
  unfold is_ascii_digit in H. apply andb_true_iff in H as [L _].
  apply N.leb_le in L. lia.
Qed.

Lemma is_ascii_digit_spec (c : char) :
  is_ascii_digit c = true <-> In c Spec.decimal_digits.
Proof.
  split.
  - destruct c as [n]. unfold is_ascii_digit. cbn [code]. intros H.
    apply andb_true_iff in H as [L U]. apply N.leb_le in L, U.
    assert (C : (n = 48 \/ n = 49 \/ n = 50 \/ n = 51 \/ n = 52 \/ n = 53 \/
                 n = 54 \/ n = 55 \/ n = 56 \/ n = 57)%N) by lia.
    unfold Spec.decimal_digits.
    repeat (destruct C as [C|C]; [subst n; cbn; tauto|]). subst n; cbn; tauto.
  - unfold Spec.decimal_digits. intros H. cbn [In] in H.
    repeat (destruct H as [H|H]; [subst c; reflexivity|]). contradiction.
Qed.

(** Case analysis on a digit of ASCII: one goal per digit. *)
Ltac digit_cases H :=
  apply is_ascii_digit_spec in H; cbn [In Spec.decimal_digits] in H;
  repeat (destruct H as [H|H]; [subst|]); [..|contradiction].

Lemma digit_not_colon (c : char) : is_digit c = true -> is_colon c = false.
Proof.
  intros H. unfold is_colon. destruct (char_eqb_spec c ":") as [->|N]; [|reflexivity].
  vm_compute in H. discriminate H.
Qed.

Lemma digit_not_minus (c : char) : is_digit c = true -> char_eqb c "-" = false.
Proof.
  intros H. destruct (char_eqb_spec c "-") as [->|N]; [|reflexivity].
  vm_compute in H. discriminate H.
Qed.

Lemma digit_not_plus (c : char) : is_digit c = true -> char_eqb c "+" = false.
Proof.
  intros H. destruct (char_eqb_spec c "+") as [->|N]; [|reflexivity].
  vm_compute in H. discriminate H.
Qed.

Lemma digit_not_sign (c : char) : is_digit c = true -> is_sign c = false.
Proof.
  intros H. unfold is_sign. now rewrite (digit_not_minus c H), (digit_not_plus c H).
Qed.

Lemma digit_value_range (c : char) : is_digit c = true -> 0 <= digit_value c <= 9.
Proof.
  unfold is_digit, digit_value, decimal_value.
  destruct (decimal_among zero_digits (code c)) as [d|] eqn:E; [|discriminate].
  intros _. apply decimal_among_range in E. lia.
Qed.

Lemma digit_char_value (c : char) :
  is_ascii_digit c = true -> digit_char (digit_value c) = c.
Proof. intros H. digit_cases H; reflexivity. Qed.

Lemma digit_value_char (d : Z) : 0 <= d <= 9 -> digit_value (digit_char d) = d.
Proof.
  intros H.
  assert (C : d = 0 \/ d = 1 \/ d = 2 \/ d = 3 \/ d = 4 \/ d = 5 \/ d = 6 \/
              d = 7 \/ d = 8 \/ d = 9) by lia.
  repeat (destruct C as [C|C]; [subst; reflexivity|]). subst; reflexivity.
Qed.

Lemma is_ascii_digit_char (d : Z) : 0 <= d <= 9 -> is_ascii_digit (digit_char d) = true.
Proof.
  intros H.
  assert (C : d = 0 \/ d = 1 \/ d = 2 \/ d = 3 \/ d = 4 \/ d = 5 \/ d = 6 \/
              d = 7 \/ d = 8 \/ d = 9) by lia.
  repeat (destruct C as [C|C]; [subst; reflexivity|]). subst; reflexivity.
Qed.

Lemma is_digit_char (d : Z) : 0 <= d <= 9 -> is_digit (digit_char d) = true.
Proof. intros H. now apply ascii_digit_digit, is_ascii_digit_char. Qed.

Lemma is_digits_cons (c : char) (s : string) :
  is_digits (String c s) = is_digit c && Str.all is_digit s.
Proof. reflexivity. Qed.

Lemma is_digits_all (s : string) : is_digits s = true -> Str.all is_digit s = true.
Proof. unfold is_digits. intros H. now apply andb_true_iff in H. Qed.

Lemma all_ascii_digit_spec (s : string) :
  Str.all is_ascii_digit s = true <->
  Forall (fun c => In c Spec.decimal_digits) (Str.chars s).
Proof.
  induction s as [|c s IH]; cbn [Str.all Str.chars].
  - split; [constructor | reflexivity].
  - rewrite andb_true_iff, is_ascii_digit_spec, IH. split.
    + intros [H1 H2]. now constructor.
    + intros H. inversion H; subst. now split.
Qed.

(** The digits of the specification are the digits of ASCII. *)
Lemma is_digits_spec (s : string) : is_ascii_digits s = true <-> Spec.digits s.
Proof.
  unfold is_ascii_digits, Spec.digits. rewrite andb_true_iff, all_ascii_digit_spec.
  destruct s; simpl; intuition congruence.
Qed.

Lemma is_two_digits_spec (s : string) :
  is_ascii_two_digits s = true <-> Spec.two_digits s.
Proof.
  unfold Spec.two_digits, is_ascii_two_digits. rewrite <- is_digits_spec.
  unfold is_ascii_digits. rewrite !andb_true_iff, Nat.eqb_eq.
  destruct s; cbn [Str.is_empty Str.length negb]; intuition congruence.
Qed.

Lemma all_ascii_digit_digit (s : string) :
  Str.all is_ascii_digit s = true -> Str.all is_digit s = true.
Proof.
  induction s as [|c s IH]; cbn [Str.all]; [reflexivity|]. intros H.
  apply andb_true_iff in H as [Hc Hs]. now rewrite (ascii_digit_digit c Hc), (IH Hs).
Qed.

Lemma ascii_digits_digits (s : string) :
  is_ascii_digits s = true -> is_digits s = true.
Proof.
  unfold is_ascii_digits, is_digits. intros H. apply andb_true_iff in H as [E A].
  now rewrite E, (all_ascii_digit_digit s A).
Qed.

Lemma ascii_two_digits_digits (s : string) :
  is_ascii_two_digits s = true -> is_two_digits s = true.
Proof.
  unfold is_ascii_two_digits, is_two_digits. intros H. apply andb_true_iff in H as [E A].
  now rewrite E, (all_ascii_digit_digit s A).
Qed.

(** The digits of the specification are among those the patterns take. *)
Lemma digits_any (s : string) : Spec.digits s -> is_digits s = true.
Proof. intros H. now apply ascii_digits_digits, is_digits_spec. Qed.

Lemma two_digits_any (s : string) : Spec.two_digits s -> is_two_digits s = true.
Proof. intros H. now apply ascii_two_digits_digits, is_two_digits_spec. Qed.

Lemma dec_value_from_decimal (s : string) (acc : Z) :
  dec_value_from acc s = acc * 10 ^ Z.of_nat (Str.length s) + Spec.decimal s.
Proof.
  revert acc. induction s as [|c s IH]; intros acc; cbn [dec_value_from Spec.decimal Str.length].
  - simpl. lia.
  - rewrite IH, Nat2Z.inj_succ, Z.pow_succ_r by lia. ring.
Qed.

(** [int] reads a numeral by its place values. *)
Lemma dec_value_decimal (s : string) : dec_value s = Spec.decimal s.
Proof. unfold dec_value. rewrite dec_value_from_decimal. lia. Qed.

Lemma decimal_nonneg (s : string) : Str.all is_digit s = true -> 0 <= Spec.decimal s.
Proof.
  induction s as [|c s IH]; cbn [Str.all Spec.decimal]; [lia|].
  intros H. apply andb_true_iff in H as [Hc Hs].
  pose proof (digit_value_range c Hc). specialize (IH Hs).
  assert (0 <= 10 ^ Z.of_nat (Str.length s)) by (apply Z.pow_nonneg; lia).
  nia.
Qed.

Lemma decimal_two (a b : char) :
  Spec.decimal (String a (String b "")) = digit_value a * 10 + digit_value b.
Proof. cbn [Spec.decimal Str.length]. simpl. lia. Qed.

Lemma int_digits (s : string) :
  is_digits s = true -> int s = ret (Spec.decimal s).
Proof.
  intros H. destruct s as [|c s]; [discriminate H|].
  unfold int. rewrite H. rewrite is_digits_cons in H.
  apply andb_true_iff in H as [Hc _].
  rewrite (digit_not_minus c Hc), (digit_not_plus c Hc).
  now rewrite dec_value_decimal.
Qed.

Lemma int_signed (sg : Spec.sign) (s : string) :
  is_digits s = true ->
  int (Spec.sign_text sg ++ s) = ret (Spec.sign_value sg * Spec.decimal s).
Proof.
  intros H. destruct sg; cbn [Spec.sign_text Spec.sign_value append].
  - rewrite (int_digits s H). apply f_equal. lia.
  - unfold int. cbn [char_eqb Bool.eqb]. rewrite H, dec_value_decimal. apply f_equal. lia.
  - unfold int. cbn [char_eqb Bool.eqb]. rewrite H, dec_value_decimal. apply f_equal. lia.
Qed.

(** ** The patterns *)

Arguments is_digit : simpl never.
Arguments is_colon : simpl never.
Arguments is_sign : simpl never.
Arguments is_separator : simpl never.
Arguments is_dot : simpl never.
Arguments Str.consumed : simpl never.

Lemma fullmatch_at_end (r : regex) (s : string) :
  fullmatch r s = run r s (repeat None (ngroups r)) at_end.
Proof. reflexivity. Qed.

Lemma consumed_1 (a : char) (rest : string) :
  Str.consumed (String a rest) rest = String a "".
Proof. apply (consumed_append (String a "") rest). Qed.

Lemma consumed_2 (a b : char) (rest : string) :
  Str.consumed (String a (String b rest)) rest = String a (String b "").
Proof. apply (consumed_append (String a (String b "")) rest). Qed.

Lemma consumed_cons (c : char) (a rest : string) :
  Str.consumed (String c (a ++ rest)) rest = String c a.
Proof. apply (consumed_append (String c a) rest). Qed.

Section RunFacts.
Variable A : Type.
Variable k : string -> groups -> option A.
Variables (s : string) (g : groups).

Lemma run_Cat (r1 r2 : regex) :
  run (Cat r1 r2) s g k = run r1 s g (fun s1 g1 => run r2 s1 g1 k).
Proof. reflexivity. Qed.

Lemma run_Opt (r : regex) :
  run (Opt r) s g k =
    match run r s g k with
    | Some x => Some x
    | None => k s g
    end.
Proof. reflexivity. Qed.

Lemma run_Group (i : nat) (r : regex) :
  run (Group i r) s g k =
    run r s g (fun s1 g1 => k s1 (set_group i (Str.consumed s s1) g1)).
Proof. reflexivity. Qed.

Lemma run_Chr (p : char -> bool) (c : char) :
  run (Chr p) (String c s) g k = if p c then k s g else None.
Proof. reflexivity. Qed.

Lemma run_Chr_end (p : char -> bool) : run (Chr p) "" g k = None.
Proof. reflexivity. Qed.

Lemma run_Star (p : char -> bool) :
  run (Star p) s g k = star p s (fun s1 => k s1 g).
Proof. reflexivity. Qed.
End RunFacts.

(** Split a conjunction into its parts, and nothing else. *)
Ltac splits := repeat match goal with |- _ /\ _ => split end.

(** One step of the matcher on the pattern in the goal. *)
Ltac run_step :=
  first [ rewrite run_Cat | rewrite run_Opt | rewrite run_Group
        | rewrite run_Chr | rewrite run_Chr_end ]; cbv beta.

Section PlusFacts.
Variable A : Type.
Variable p : char -> bool.
Variable k : string -> groups -> option A.

(** [c+] before something that rejects every text beginning in [c]:
    the run of [c] is read whole. *)
Lemma run_plus_blocked (s : string) (g : groups) :
  (forall c t, p c = true -> k (String c t) g = None) ->
  run (Plus p) s g k =
    if Str.stops p s then None else k (Str.drop_while p s) g.
Proof.
  intros Hk. destruct s as [|c s]; cbn [run Str.stops Str.drop_while]; [reflexivity|].
  destruct (p c); cbn [negb]; [|reflexivity].
  now apply star_only_longest.
Qed.
End PlusFacts.

(** What is read of a text up to a mark is what precedes the mark. *)
Lemma unique_run (p : char -> bool) (a b a' b' : string) :
  Str.all p a = true -> Str.stops p b = true ->
  Str.all p a' = true -> Str.stops p b' = true ->
  a ++ b = a' ++ b' -> a = a' /\ b = b'.
Proof.
  intros Ha Hb Ha' Hb' E. split.
  - rewrite <- (take_while_append p a b Ha Hb), E. now apply take_while_append.
  - rewrite <- (drop_while_append p a b Ha Hb), E. now apply drop_while_append.
Qed.

(** *** [ONLY SECONDS] *)

Lemma plus_digit_at_end (s : string) (g : groups) :
  run (Plus is_digit) s g at_end = if is_digits s then Some g else None.
Proof.
  rewrite run_plus_blocked by reflexivity.
  unfold at_end, is_digits. rewrite is_empty_drop_while.
  destruct s as [|c s]; [reflexivity|].
  cbn [Str.stops Str.is_empty Str.all negb andb].
  destruct (is_digit c); reflexivity.
Qed.

Lemma only_seconds_intro (sg : Spec.sign) (ds : string) :
  is_digits ds = true ->
  fullmatch ONLY_SECONDS (Spec.sign_text sg ++ ds) = Some [].
Proof.
  intros H. rewrite fullmatch_at_end. unfold ONLY_SECONDS.
  cbn [ngroups repeat Nat.add]. do 2 run_step.
  destruct sg; cbn [Spec.sign_text append].
  - destruct ds as [|c ds]; [discriminate|].
    pose proof H as H'. rewrite is_digits_cons in H'.
    apply andb_true_iff in H' as [Hc _].
    run_step. rewrite (digit_not_sign c Hc). now rewrite plus_digit_at_end, H.
  - run_step. change (is_sign "+") with true. cbv iota.
    now rewrite plus_digit_at_end, H.
  - run_step. change (is_sign "-") with true. cbv iota.
    now rewrite plus_digit_at_end, H.
Qed.

Lemma sign_cases (c : char) :
  is_sign c = true -> c = "+"%char \/ c = "-"%char.
Proof.
  unfold is_sign. intros H. apply orb_true_iff in H as [H|H];
    apply char_eqb_eq in H; auto.
Qed.

Lemma only_seconds_elim (s : string) (g : groups) :
  fullmatch ONLY_SECONDS s = Some g ->
  exists sg ds, is_digits ds = true /\ s = Spec.sign_text sg ++ ds.
Proof.
  rewrite fullmatch_at_end. unfold ONLY_SECONDS.
  cbn [ngroups repeat Nat.add]. do 2 run_step. intros H.
  assert (D : is_digits s = true \/
              exists c ds, s = String c ds /\ is_sign c = true /\ is_digits ds = true).
  { destruct s as [|c ds].
    - rewrite run_Chr_end, plus_digit_at_end in H. discriminate.
    - rewrite run_Chr in H. destruct (is_sign c) eqn:Hc.
      + rewrite !plus_digit_at_end in H.
        destruct (is_digits ds) eqn:Hd; [right; now exists c, ds|].
        destruct (is_digits (String c ds)) eqn:Hs; [now left | discriminate].
      + rewrite plus_digit_at_end in H.
        destruct (is_digits (String c ds)) eqn:Hs; [now left | discriminate]. }
  destruct D as [D | (c & ds & -> & Hc & Hd)].
  - now exists Spec.Unsigned, s.
  - destruct (sign_cases c Hc) as [-> | ->].
    + now exists Spec.Positive, ds.
    + now exists Spec.Negative, ds.
Qed.

(** *** Pieces of the patterns

    Each lemma reads one piece of a pattern: the matcher finds a match
    through the piece exactly when the text splits as the piece says and
    what follows the piece matches the rest. *)

Section Pieces.
Variable A : Type.
Variable k : string -> groups -> option A.

Lemma star_some (p : char -> bool) (k1 : string -> option A) (s : string) (x : A) :
  star p s k1 = Some x ->
  exists a rest, s = a ++ rest /\ Str.all p a = true /\ k1 rest = Some x.
Proof.
  induction s as [|c s IH]; cbn [star]; intros H.
  - now exists "", "".
  - destruct (p c) eqn:Hc; [|now exists "", (String c s)].
    destruct (star p s k1) as [y|].
    + destruct (IH H) as (a & rest & -> & Ha & Hk).
      exists (String c a), rest. cbn [Str.all append]. rewrite Hc, Ha.
      repeat split. congruence.
    + now exists "", (String c s).
Qed.

Lemma run_colon (s : string) (g : groups) (x : A) :
  run colon s g k = Some x <->
  exists rest, s = String ":" rest /\ k rest g = Some x.
Proof.
  unfold colon. destruct s as [|c s]; run_step.
  - split; [discriminate | intros (rest & E & _); discriminate].
  - unfold is_colon. destruct (char_eqb_spec c ":") as [->|N].
    + split; [intros H; now exists s | intros (rest & E & H); congruence].
    + split; [discriminate | intros (rest & E & _); congruence].
Qed.

Lemma run_two_digits (i : nat) (s : string) (g : groups) (x : A) :
  run (Group i (Cat digit digit)) s g k = Some x <->
  exists a b rest,
    s = String a (String b rest) /\ is_digit a = true /\ is_digit b = true /\
    k rest (set_group i (String a (String b "")) g) = Some x.
Proof.
  unfold digit. run_step. run_step.
  destruct s as [|a [|b rest]].
  - run_step. split; [discriminate | intros (? & ? & ? & E & _); discriminate].
  - run_step. destruct (is_digit a); [run_step|];
      (split; [discriminate | intros (? & ? & ? & E & _); discriminate]).
  - run_step. destruct (is_digit a) eqn:Ha.
    + run_step. destruct (is_digit b) eqn:Hb.
      * rewrite consumed_2. split.
        -- intros H. now exists a, b, rest.
        -- intros (a' & b' & rest' & E & _ & _ & H). now inversion E; subst.
      * split; [discriminate|].
        intros (a' & b' & rest' & E & _ & Hb' & _). inversion E; subst. congruence.
    + split; [discriminate|].
      intros (a' & b' & rest' & E & Ha' & _). inversion E; subst. congruence.
Qed.

Lemma run_digits_elim (i : nat) (s : string) (g : groups) (x : A) :
  run (Group i (Plus is_digit)) s g k = Some x ->
  exists hh rest,
    s = hh ++ rest /\ is_digits hh = true /\ k rest (set_group i hh g) = Some x.
Proof.
  run_step. destruct s as [|c s]; cbn [run]; [discriminate|].
  destruct (is_digit c) eqn:Hc; [|discriminate].
  intros H. apply star_some in H as (a & rest & -> & Ha & H).
  exists (String c a), rest. rewrite is_digits_cons, Hc, Ha. repeat split.
  now rewrite consumed_cons in H.
Qed.

Lemma run_digits_intro (i : nat) (hh rest : string) (g : groups) (x : A) :
  is_digits hh = true -> Str.stops is_digit rest = true ->
  k rest (set_group i hh g) = Some x ->
  run (Group i (Plus is_digit)) (hh ++ rest) g k = Some x.
Proof.
  intros Hh Hr Hk. run_step. destruct hh as [|c hh]; [discriminate|].
  pose proof Hh as Hh'. rewrite is_digits_cons in Hh'.
  apply andb_true_iff in Hh' as [Hc Ha].
  cbn [append run]. rewrite Hc. apply star_longest.
  rewrite (drop_while_append is_digit hh rest Ha Hr).
  now rewrite consumed_cons.
Qed.

Lemma run_sign_elim (s : string) (g : groups) (x : A) :
  run (Opt (Group 0 (Chr is_sign))) s g k = Some x ->
  exists sg rest, s = Spec.sign_text sg ++ rest /\ k rest (with_sign sg g) = Some x.
Proof.
  run_step. run_step. intros H.
  assert (D : k s g = Some x \/
              exists c rest, s = String c rest /\ is_sign c = true /\
                k rest (set_group 0 (String c "") g) = Some x).
  { destruct s as [|c rest].
    - rewrite run_Chr_end in H. now left.
    - rewrite run_Chr in H. destruct (is_sign c) eqn:Hc; [|now left].
      rewrite consumed_1 in H.
      destruct (k rest (set_group 0 (String c "") g)) as [y|] eqn:Hk; [|now left].
      right. exists c, rest. repeat split; congruence. }
  destruct D as [D | (c & rest & -> & Hc & D)].
  - now exists Spec.Unsigned, s.
  - destruct (sign_cases c Hc) as [-> | ->].
    + now exists Spec.Positive, rest.
    + now exists Spec.Negative, rest.
Qed.

Lemma run_sign_intro (sg : Spec.sign) (rest : string) (g : groups) (x : A) :
  Str.stops is_sign rest = true ->
  k rest (with_sign sg g) = Some x ->
  run (Opt (Group 0 (Chr is_sign))) (Spec.sign_text sg ++ rest) g k = Some x.
Proof.
  intros Hr Hk. run_step. run_step.
  destruct sg; cbn [Spec.sign_text append]; unfold with_sign in Hk; cbn [sign_group] in Hk.
  - destruct rest as [|c rest]; [now rewrite run_Chr_end|].
    rewrite run_Chr. cbn [Str.stops] in Hr. apply negb_true_iff in Hr. now rewrite Hr.
  - rewrite run_Chr. change (is_sign "+") with true. cbv iota.
    now rewrite consumed_1, Hk.
  - rewrite run_Chr. change (is_sign "-") with true. cbv iota.
    now rewrite consumed_1, Hk.
Qed.

End Pieces.

Lemma at_end_some (s : string) (g x : groups) :
  at_end s g = Some x <-> s = "" /\ x = g.
Proof.
  unfold at_end. destruct s; cbn [Str.is_empty]; split; intros H.
  - now inversion H.
  - destruct H as [_ ->]. reflexivity.
  - discriminate.
  - destruct H as [H _]. discriminate.
Qed.

Section MorePieces.
Variable A : Type.
Variable k : string -> groups -> option A.

Lemma run_digit (s : string) (g : groups) (x : A) :
  run digit s g k = Some x <->
  exists a rest, s = String a rest /\ is_digit a = true /\ k rest g = Some x.
Proof.
  unfold digit. destruct s as [|a rest]; run_step.
  - split; [discriminate | intros (? & ? & E & _); discriminate].
  - destruct (is_digit a) eqn:Ha; split.
    + intros H. now exists a, rest.
    + intros (a' & rest' & E & _ & H). now inversion E; subst.
    + discriminate.
    + intros (a' & rest' & E & Ha' & _). inversion E; subst. congruence.
Qed.

Lemma run_separator (s : string) (g : groups) (x : A) :
  run (Chr is_separator) s g k = Some x <->
  exists a rest, s = String a rest /\ is_separator a = true /\ k rest g = Some x.
Proof.
  destruct s as [|a rest]; run_step.
  - split; [discriminate | intros (? & ? & E & _); discriminate].
  - destruct (is_separator a) eqn:Ha; split.
    + intros H. now exists a, rest.
    + intros (a' & rest' & E & _ & H). now inversion E; subst.
    + discriminate.
    + intros (a' & rest' & E & Ha' & _). inversion E; subst. congruence.
Qed.

Lemma run_plus_elim (s : string) (g : groups) (x : A) :
  run (Plus is_digit) s g k = Some x ->
  exists hh rest, s = hh ++ rest /\ is_digits hh = true /\ k rest g = Some x.
Proof.
  destruct s as [|c s]; cbn [run]; [discriminate|].
  destruct (is_digit c) eqn:Hc; [|discriminate].
  intros H. apply star_some in H as (a & rest & -> & Ha & H).
  exists (String c a), rest. now rewrite is_digits_cons, Hc, Ha.
Qed.

Lemma run_plus_intro (hh rest : string) (g : groups) (x : A) :
  is_digits hh = true -> Str.stops is_digit rest = true ->
  k rest g = Some x ->
  run (Plus is_digit) (hh ++ rest) g k = Some x.
Proof.
  intros Hh Hr Hk. destruct hh as [|c hh]; [discriminate|].
  rewrite is_digits_cons in Hh. apply andb_true_iff in Hh as [Hc Ha].
  cbn [append run]. rewrite Hc. apply star_longest.
  now rewrite (drop_while_append is_digit hh rest Ha Hr).
Qed.

End MorePieces.

Lemma is_two_digits_inv (s : string) :
  is_two_digits s = true <->
  exists a b, is_digit a = true /\ is_digit b = true /\ s = String a (String b "").
Proof.
  unfold is_two_digits. split.
  - intros H. apply andb_true_iff in H as [L H].
    destruct s as [|a [|b [|c s]]]; try discriminate L.
    cbn [Str.all] in H. apply andb_true_iff in H as [Ha H].
    apply andb_true_iff in H as [Hb _]. now exists a, b.
  - intros (a & b & Ha & Hb & ->). cbn [Str.length Str.all]. now rewrite Ha, Hb.
Qed.

Lemma is_two_digits_digits (s : string) : is_two_digits s = true -> is_digits s = true.
Proof.
  intros H. apply is_two_digits_inv in H as (a & b & Ha & Hb & ->).
  rewrite is_digits_cons. cbn [Str.all]. now rewrite Ha, Hb.
Qed.

Lemma is_separator_spec (c : char) : is_separator c = true <-> Spec.separator c.
Proof.
  unfold is_separator, Spec.separator. now rewrite orb_true_iff, !char_eqb_eq.
Qed.

(** *** [WITH MINUTES] *)

Lemma with_minutes_intro (sg : Spec.sign) (mm ss : string) :
  is_two_digits mm = true -> is_two_digits ss = true ->
  fullmatch WITH_MINUTES (Spec.sign_text sg ++ mm ++ ":" ++ ss) =
    Some [sign_group sg; Some mm; Some ss].
Proof.
  intros Hm Hs.
  apply is_two_digits_inv in Hm as (m1 & m2 & Hm1 & Hm2 & ->).
  apply is_two_digits_inv in Hs as (s1 & s2 & Hs1 & Hs2 & ->).
  rewrite fullmatch_at_end.
  change (repeat None (ngroups WITH_MINUTES)) with [@None string; None; None].
  unfold WITH_MINUTES. rewrite run_Cat. apply run_sign_intro.
  { cbn [append Str.stops]. now rewrite (digit_not_sign m1 Hm1). }
  rewrite run_Cat. apply run_two_digits. exists m1, m2. eexists.
  splits; [reflexivity | assumption | assumption |].
  rewrite run_Cat. apply run_colon. eexists. split; [reflexivity|].
  apply run_two_digits. exists s1, s2, "".
  splits; [reflexivity | assumption | assumption |].
  apply at_end_some. split; [reflexivity|]. destruct sg; reflexivity.
Qed.

Lemma with_minutes_elim (s : string) (g : groups) :
  fullmatch WITH_MINUTES s = Some g ->
  exists sg mm ss,
    is_two_digits mm = true /\ is_two_digits ss = true /\
    s = Spec.sign_text sg ++ mm ++ ":" ++ ss.
Proof.
  rewrite fullmatch_at_end. unfold WITH_MINUTES. rewrite run_Cat. intros H.
  apply run_sign_elim in H as (sg & rest & -> & H).
  rewrite run_Cat in H. apply run_two_digits in H as (m1 & m2 & r1 & -> & Hm1 & Hm2 & H).
  rewrite run_Cat in H. apply run_colon in H as (r2 & -> & H).
  apply run_two_digits in H as (s1 & s2 & r3 & -> & Hs1 & Hs2 & H).
  apply at_end_some in H as [-> _].
  exists sg, (String m1 (String m2 "")), (String s1 (String s2 "")).
  splits; [apply is_two_digits_inv; eauto .. | reflexivity].
Qed.

(** *** [WITH HOURS] *)

Lemma with_hours_intro (sg : Spec.sign) (hh mm ss : string) :
  is_digits hh = true -> is_two_digits mm = true -> is_two_digits ss = true ->
  fullmatch WITH_HOURS (Spec.sign_text sg ++ hh ++ ":" ++ mm ++ ":" ++ ss) =
    Some [sign_group sg; Some hh; Some mm; Some ss].
Proof.
  intros Hh Hm Hs.
  apply is_two_digits_inv in Hm as (m1 & m2 & Hm1 & Hm2 & ->).
  apply is_two_digits_inv in Hs as (s1 & s2 & Hs1 & Hs2 & ->).
  rewrite fullmatch_at_end.
  change (repeat None (ngroups WITH_HOURS)) with [@None string; None; None; None].
  unfold WITH_HOURS. rewrite run_Cat. apply run_sign_intro.
  { destruct hh as [|c hh]; [discriminate|]. rewrite is_digits_cons in Hh.
    apply andb_true_iff in Hh as [Hc _].
    cbn [append Str.stops]. now rewrite (digit_not_sign c Hc). }
  rewrite run_Cat. apply run_digits_intro; [assumption | reflexivity |].
  rewrite run_Cat. apply run_colon. eexists. split; [reflexivity|].
  rewrite run_Cat. apply run_two_digits. exists m1, m2. eexists.
  splits; [reflexivity | assumption | assumption |].
  rewrite run_Cat. apply run_colon. eexists. split; [reflexivity|].
  apply run_two_digits. exists s1, s2, "".
  splits; [reflexivity | assumption | assumption |].
  apply at_end_some. split; [reflexivity|]. destruct sg; reflexivity.
Qed.

Lemma with_hours_elim (s : string) (g : groups) :
  fullmatch WITH_HOURS s = Some g ->
  exists sg hh mm ss,
    is_digits hh = true /\ is_two_digits mm = true /\ is_two_digits ss = true /\
    s = Spec.sign_text sg ++ hh ++ ":" ++ mm ++ ":" ++ ss.
Proof.
  rewrite fullmatch_at_end. unfold WITH_HOURS. rewrite run_Cat. intros H.
  apply run_sign_elim in H as (sg & rest & -> & H).
  rewrite run_Cat in H. apply run_digits_elim in H as (hh & r0 & -> & Hh & H).
  rewrite run_Cat in H. apply run_colon in H as (r1 & -> & H).
  rewrite run_Cat in H. apply run_two_digits in H as (m1 & m2 & r2 & -> & Hm1 & Hm2 & H).
  rewrite run_Cat in H. apply run_colon in H as (r3 & -> & H).
  apply run_two_digits in H as (s1 & s2 & r4 & -> & Hs1 & Hs2 & H).
  apply at_end_some in H as [-> _].
  exists sg, hh, (String m1 (String m2 "")), (String s1 (String s2 "")).
  splits; [assumption | apply is_two_digits_inv; eauto .. | reflexivity].
Qed.

(** ** The offset parser *)

(** The grammars differ in the number of their colons, so at most one of
    them accepts a text. *)

Lemma count_append (p : char -> bool) (a b : string) :
  Str.count p (a ++ b) = (Str.count p a + Str.count p b)%nat.
Proof. induction a as [|c a IH]; cbn [append Str.count]; [reflexivity|]. rewrite IH. lia. Qed.

Lemma colons_digits (s : string) :
  Str.all is_digit s = true -> Str.count is_colon s = 0%nat.
Proof.
  induction s as [|c s IH]; cbn [Str.all Str.count]; [reflexivity|].
  intros H. apply andb_true_iff in H as [Hc Hs].
  now rewrite (digit_not_colon c Hc), (IH Hs).
Qed.

Lemma colons_sign (sg : Spec.sign) : Str.count is_colon (Spec.sign_text sg) = 0%nat.
Proof. destruct sg; reflexivity. Qed.

Lemma colons_seconds (sg : Spec.sign) (ds : string) :
  is_digits ds = true ->
  Str.count is_colon (Spec.sign_text sg ++ ds) = 0%nat.
Proof.
  intros H. now rewrite count_append, colons_sign, (colons_digits ds (is_digits_all ds H)).
Qed.

Lemma colons_minutes (sg : Spec.sign) (mm ss : string) :
  is_two_digits mm = true -> is_two_digits ss = true ->
  Str.count is_colon (Spec.sign_text sg ++ mm ++ ":" ++ ss) = 1%nat.
Proof.
  intros Hm Hs. apply is_two_digits_digits, is_digits_all in Hm, Hs.
  rewrite !count_append, colons_sign, (colons_digits mm Hm), (colons_digits ss Hs).
  reflexivity.
Qed.

Lemma colons_hours (sg : Spec.sign) (hh mm ss : string) :
  is_digits hh = true -> is_two_digits mm = true -> is_two_digits ss = true ->
  Str.count is_colon (Spec.sign_text sg ++ hh ++ ":" ++ mm ++ ":" ++ ss) = 2%nat.
Proof.
  intros Hh Hm Hs. apply is_digits_all in Hh.
  apply is_two_digits_digits, is_digits_all in Hm, Hs.
  rewrite !count_append, colons_sign, (colons_digits hh Hh),
    (colons_digits mm Hm), (colons_digits ss Hs).
  reflexivity.
Qed.

Lemma only_seconds_colons (s : string) (g : groups) :
  fullmatch ONLY_SECONDS s = Some g -> Str.count is_colon s = 0%nat.
Proof.
  intros H. apply only_seconds_elim in H as (sg & ds & Hd & ->).
  now apply colons_seconds.
Qed.

Lemma with_minutes_colons (s : string) (g : groups) :
  fullmatch WITH_MINUTES s = Some g -> Str.count is_colon s = 1%nat.
Proof.
  intros H. apply with_minutes_elim in H as (sg & mm & ss & Hm & Hs & ->).
  now apply colons_minutes.
Qed.

Lemma group_is_minus_sign (sg : Spec.sign) (g : groups) :
  (if group_is_minus (sign_group sg :: g) then -1 else 1) = Spec.sign_value sg.
Proof. destruct sg; reflexivity. Qed.

Lemma total_seconds_seconds (sg : Spec.sign) (ss : string) :
  is_digits ss = true ->
  total_seconds (Spec.sign_text sg ++ ss) = ret (Spec.sign_value sg * Spec.decimal ss).
Proof.
  intros H. unfold total_seconds.
  rewrite (only_seconds_intro sg ss H). now apply int_signed.
Qed.

Lemma total_seconds_minutes (sg : Spec.sign) (mm ss : string) :
  is_two_digits mm = true -> is_two_digits ss = true ->
  total_seconds (Spec.sign_text sg ++ mm ++ ":" ++ ss) =
    ret (Spec.sign_value sg * (Spec.decimal mm * 60 + Spec.decimal ss)).
Proof.
  intros Hm Hs. unfold total_seconds.
  destruct (fullmatch ONLY_SECONDS _) as [g|] eqn:E1.
  { apply only_seconds_colons in E1. rewrite (colons_minutes sg mm ss Hm Hs) in E1.
    discriminate. }
  rewrite (with_minutes_intro sg mm ss Hm Hs), group_is_minus_sign.
  unfold int_group. cbn [nth].
  rewrite (int_digits mm (is_two_digits_digits mm Hm)).
  rewrite (int_digits ss (is_two_digits_digits ss Hs)).
  cbn [bind ret]. apply f_equal. lia.
Qed.

Lemma total_seconds_hours (sg : Spec.sign) (hh mm ss : string) :
  is_digits hh = true -> is_two_digits mm = true -> is_two_digits ss = true ->
  total_seconds (Spec.sign_text sg ++ hh ++ ":" ++ mm ++ ":" ++ ss) =
    ret (Spec.sign_value sg *
         (Spec.decimal hh * 3600 + Spec.decimal mm * 60 + Spec.decimal ss)).
Proof.
  intros Hh Hm Hs. unfold total_seconds.
  destruct (fullmatch ONLY_SECONDS _) as [g|] eqn:E1.
  { apply only_seconds_colons in E1. rewrite (colons_hours sg hh mm ss Hh Hm Hs) in E1.
    discriminate. }
  destruct (fullmatch WITH_MINUTES _) as [g|] eqn:E2.
  { apply with_minutes_colons in E2. rewrite (colons_hours sg hh mm ss Hh Hm Hs) in E2.
    discriminate. }
  rewrite (with_hours_intro sg hh mm ss Hh Hm Hs), group_is_minus_sign.
  unfold int_group. cbn [nth].
  rewrite (int_digits hh Hh).
  rewrite (int_digits mm (is_two_digits_digits mm Hm)).
  rewrite (int_digits ss (is_two_digits_digits ss Hs)).
  cbn [bind ret]. apply f_equal. lia.
Qed.

Lemma total_seconds_any (s : string) (v : Z) :
  Pat.offset s v -> total_seconds s = ret v.
Proof.
  intros H. destruct H as [sg ss Hs | sg mm ss Hm Hs | sg hh mm ss Hh Hm Hs].
  - now apply total_seconds_seconds.
  - now apply total_seconds_minutes.
  - now apply total_seconds_hours.
Qed.

(** The grammars of the specification are within what the patterns take. *)
Lemma offset_any (s : string) (v : Z) : Spec.offset s v -> Pat.offset s v.
Proof.
  intros H. destruct H as [sg ss Hs | sg mm ss Hm Hs | sg hh mm ss Hh Hm Hs].
  - apply Pat.seconds_only. now apply digits_any.
  - apply Pat.minutes_seconds; now apply two_digits_any.
  - apply Pat.hours_minutes_seconds;
      [now apply digits_any | now apply two_digits_any ..].
Qed.

Lemma total_seconds_offset (s : string) (v : Z) :
  Spec.offset s v -> total_seconds s = ret v.
Proof. intros H. now apply total_seconds_any, offset_any. Qed.

(** A text that a pattern matches in full is a text the patterns take. *)
Lemma matched_accepted (s : string) :
  fullmatch ONLY_SECONDS s <> None \/ fullmatch WITH_MINUTES s <> None \/
  fullmatch WITH_HOURS s <> None ->
  Pat.accepted s.
Proof.
  intros [H | [H | H]].
  - destruct (fullmatch ONLY_SECONDS s) as [g|] eqn:E; [|congruence].
    apply only_seconds_elim in E as (sg & ds & Hd & ->).
    eexists. now apply Pat.seconds_only.
  - destruct (fullmatch WITH_MINUTES s) as [g|] eqn:E; [|congruence].
    apply with_minutes_elim in E as (sg & mm & ss & Hm & Hs & ->).
    eexists. now apply Pat.minutes_seconds.
  - destruct (fullmatch WITH_HOURS s) as [g|] eqn:E; [|congruence].
    apply with_hours_elim in E as (sg & hh & mm & ss & Hh & Hm & Hs & ->).
    eexists. now apply Pat.hours_minutes_seconds.
Qed.

Lemma total_seconds_rejects (s : string) :
  ~ Pat.accepted s -> total_seconds s = raise (ValueError s).
Proof.
  intros N. unfold total_seconds.
  destruct (fullmatch ONLY_SECONDS s) eqn:E1.
  { exfalso. apply N, matched_accepted. left. congruence. }
  destruct (fullmatch WITH_MINUTES s) eqn:E2.
  { exfalso. apply N, matched_accepted. right. left. congruence. }
  destruct (fullmatch WITH_HOURS s) eqn:E3.
  { exfalso. apply N, matched_accepted. right. right. congruence. }
  reflexivity.
Qed.

(** *** Texts of ASCII *)

Lemma all_ascii_digits (s : string) :
  Str.all is_ascii s = true -> Str.all is_digit s = true ->
  Str.all is_ascii_digit s = true.
Proof.
  induction s as [|c s IH]; cbn [Str.all]; [reflexivity|]. intros A D.
  apply andb_true_iff in A as [Ac As]. apply andb_true_iff in D as [Dc Ds].
  rewrite (is_digit_ascii c Ac) in Dc. now rewrite Dc, IH.
Qed.

Lemma ascii_digits (s : string) :
  is_ascii_text s = true -> is_digits s = true -> Spec.digits s.
Proof.
  intros A D. apply is_digits_spec. unfold is_digits, is_ascii_digits in *.
  apply andb_true_iff in D as [E D]. now rewrite E, all_ascii_digits.
Qed.

Lemma ascii_two_digits (s : string) :
  is_ascii_text s = true -> is_two_digits s = true -> Spec.two_digits s.
Proof.
  intros A D. apply is_two_digits_spec. unfold is_two_digits, is_ascii_two_digits in *.
  apply andb_true_iff in D as [E D]. now rewrite E, all_ascii_digits.
Qed.

Lemma all_ascii_digit_ascii (s : string) :
  Str.all is_ascii_digit s = true -> is_ascii_text s = true.
Proof.
  unfold is_ascii_text.
  induction s as [|c s IH]; cbn [Str.all]; [reflexivity|]. intros H.
  apply andb_true_iff in H as [Hc Hs]. now rewrite (ascii_digit_ascii c Hc), IH.
Qed.

Lemma spec_digits_ascii (s : string) : Spec.digits s -> is_ascii_text s = true.
Proof.
  intros H. apply is_digits_spec in H. unfold is_ascii_digits in H.
  apply andb_true_iff in H as [_ H]. now apply all_ascii_digit_ascii.
Qed.

Lemma spec_two_digits_ascii (s : string) : Spec.two_digits s -> is_ascii_text s = true.
Proof. intros [H _]. now apply spec_digits_ascii. Qed.

Lemma sign_text_ascii (sg : Spec.sign) : is_ascii_text (Spec.sign_text sg) = true.
Proof. destruct sg; reflexivity. Qed.

Lemma ascii_append (a b : string) :
  is_ascii_text (a ++ b) = true -> is_ascii_text a = true /\ is_ascii_text b = true.
Proof. unfold is_ascii_text. rewrite all_append. apply andb_true_iff. Qed.

Lemma ascii_after_colon (s : string) :
  is_ascii_text (":" ++ s) = true -> is_ascii_text s = true.
Proof. unfold is_ascii_text. cbn [append Str.all]. intros H. now apply andb_true_iff in H. Qed.

(** On a text of ASCII the patterns take what the grammars of the
    specification describe, and nothing else. *)
Lemma accepted_ascii (s : string) :
  is_ascii_text s = true -> (Pat.accepted s <-> Spec.accepted s).
Proof.
  intros A. split; intros [v H]; exists v; [|now apply offset_any].
  destruct H as [sg ss Hs | sg mm ss Hm Hs | sg hh mm ss Hh Hm Hs].
  - apply ascii_append in A as [_ A].
    apply Spec.seconds_only. now apply ascii_digits.
  - apply ascii_append in A as [_ A]. apply ascii_append in A as [Am A].
    apply ascii_after_colon in A.
    apply Spec.minutes_seconds; now apply ascii_two_digits.
  - apply ascii_append in A as [_ A]. apply ascii_append in A as [Ah A].
    apply ascii_after_colon in A. apply ascii_append in A as [Am A].
    apply ascii_after_colon in A.
    apply Spec.hours_minutes_seconds;
      [now apply ascii_digits | now apply ascii_two_digits ..].
Qed.

Lemma spec_accepted_ascii (s : string) : Spec.accepted s -> is_ascii_text s = true.
Proof.
  intros [v H].
  destruct H as [sg ss Hs | sg mm ss Hm Hs | sg hh mm ss Hh Hm Hs];
    unfold is_ascii_text; rewrite ?all_append; cbn [Str.all andb];
    rewrite ?all_append; cbn [Str.all andb];
    repeat match goal with
      | H : Spec.digits _ |- _ => apply spec_digits_ascii in H; unfold is_ascii_text in H
      | H : Spec.two_digits _ |- _ =>
          apply spec_two_digits_ascii in H; unfold is_ascii_text in H
      end;
    pose proof (sign_text_ascii sg) as Sg; unfold is_ascii_text in Sg;
    repeat match goal with H : Str.all is_ascii _ = true |- _ => rewrite H; clear H end;
    reflexivity.
Qed.

(** C1. On every text of one of the three offset grammars [total_seconds]
    returns the signed number of seconds the grammar's formula gives: the
    signed integer itself, sign * (minutes * 60 + seconds), or
    sign * (hours * 3600 + minutes * 60 + seconds), a missing sign
    counting as positive; and the five documented evaluations hold. *)
Theorem total_seconds_correct :
  (forall s v, Spec.offset s v -> total_seconds s = ret v) /\
  total_seconds "02:10:39" = ret 7839 /\
  total_seconds "01:10" = ret 70 /\
  total_seconds "120" = ret 120 /\
  total_seconds "-01:02:03" = ret (-3723) /\
  total_seconds "+03:55" = ret 235.
Proof.
  split; [exact total_seconds_offset|].
  repeat split; vm_compute; reflexivity.
Qed.

Lemma total_seconds_correct_witness :
  Spec.offset "-01:02:03" (-3723) /\ total_seconds "-01:02:03" = ret (-3723).
Proof.
  assert (H : Spec.offset "-01:02:03" (-3723)).
  { apply (Spec.hours_minutes_seconds Spec.Negative "01" "02" "03").
    - apply is_digits_spec. reflexivity.
    - apply is_two_digits_spec. reflexivity.
    - apply is_two_digits_spec. reflexivity. }
  split; [exact H | exact (proj1 total_seconds_correct _ _ H)].
Defined.

(** C7, as the code has it.  [total_seconds] raises exactly on the
    texts that, taken whole, are of none of the three grammars when a
    digit is any decimal digit of Unicode, which is what the patterns
    and [int] take; on a text of a grammar so read it returns.  Blanks
    around a numeral are not tolerated.  On a text of ASCII these are
    the grammars as the specification writes them. *)
Theorem total_seconds_fails_iff (s : string) :
  ((exists e, total_seconds s = raise e) <-> ~ Pat.accepted s) /\
  (Pat.accepted s -> exists v, total_seconds s = ret v) /\
  (~ Pat.accepted s -> total_seconds s = raise (ValueError s)) /\
  (is_ascii_text s = true ->
   ((exists e, total_seconds s = raise e) <-> ~ Spec.accepted s)).
Proof.
  assert (F : (exists e, total_seconds s = raise e) <-> ~ Pat.accepted s).
  { split.
    - intros [e He] [v Hv]. apply total_seconds_any in Hv.
      unfold raise, ret in *. congruence.
    - intros N. exists (ValueError s). now apply total_seconds_rejects. }
  splits.
  - exact F.
  - intros [v Hv]. exists v. now apply total_seconds_any.
  - apply total_seconds_rejects.
  - intros A. rewrite F. now rewrite (accepted_ascii s A).
Qed.

Lemma total_seconds_fails_iff_witness :
  ~ Spec.accepted " 120" /\ total_seconds " 120" = raise (ValueError " 120") /\
  ~ Spec.accepted "120 " /\ ~ Spec.accepted "1:2:3" /\
  (exists v, total_seconds "+03:55" = ret v).
Proof.
  assert (N : forall s e, is_ascii_text s = true -> total_seconds s = raise e ->
                          ~ Spec.accepted s).
  { intros s e A H.
    apply (proj1 (proj2 (proj2 (proj2 (total_seconds_fails_iff s))) A)).
    now exists e. }
  assert (P : forall s e, total_seconds s = raise e -> ~ Pat.accepted s).
  { intros s e H. apply (proj1 (total_seconds_fails_iff s)). now exists e. }
  split; [exact (N " 120" (ValueError " 120") eq_refl eq_refl)|].
  split; [exact (proj1 (proj2 (proj2 (total_seconds_fails_iff " 120")))
                   (P " 120" (ValueError " 120") eq_refl))|].
  split; [exact (N "120 " (ValueError "120 ") eq_refl eq_refl)|].
  split; [exact (N "1:2:3" (ValueError "1:2:3") eq_refl eq_refl)|].
  apply (proj1 (proj2 (total_seconds_fails_iff "+03:55"))).
  exists 235. apply (Pat.minutes_seconds Spec.Positive "03" "55"); reflexivity.
Defined.

(** C7, as the specification words it, fails on a numeral in digits
    that are not of ASCII: it is of none of the three grammars as they
    are written, and [total_seconds] returns its value. *)
Lemma total_seconds_fails_iff_counterexample :
  ~ Spec.accepted arabic_123 /\ total_seconds arabic_123 = ret 123.
Proof.
  split; [|reflexivity].
  intros H. apply spec_accepted_ascii in H. discriminate H.
Qed.

(** ** The subtitle patterns *)

Lemma consumed_prefix (a b rest : string) :
  Str.consumed (a ++ b ++ rest) rest = a ++ b.
Proof. rewrite <- append_assoc. apply consumed_append. Qed.

Lemma consumed_drop_while (p : char -> bool) (s : string) :
  Str.consumed s (Str.drop_while p s) = Str.take_while p s.
Proof. rewrite <- (take_drop_while p s) at 1. apply consumed_append. Qed.

Lemma timestamp_intro (hh mm ss tail : string) :
  is_digits hh = true -> is_two_digits mm = true -> is_two_digits ss = true ->
  match_ TIMESTAMP_PATTERN (hh ++ ":" ++ mm ++ ":" ++ ss ++ tail) =
    Some [Some hh; Some mm; Some ss].
Proof.
  intros Hh Hm Hs.
  apply is_two_digits_inv in Hm as (m1 & m2 & Hm1 & Hm2 & ->).
  apply is_two_digits_inv in Hs as (s1 & s2 & Hs1 & Hs2 & ->).
  unfold match_.
  change (repeat None (ngroups TIMESTAMP_PATTERN)) with [@None string; None; None].
  unfold TIMESTAMP_PATTERN.
  rewrite run_Cat. apply run_digits_intro; [assumption | reflexivity |].
  rewrite run_Cat. apply run_colon. eexists. split; [reflexivity|].
  rewrite run_Cat. apply run_two_digits. exists m1, m2. eexists.
  splits; [reflexivity | assumption | assumption |].
  rewrite run_Cat. apply run_colon. eexists. split; [reflexivity|].
  apply run_two_digits. exists s1, s2, tail.
  splits; [reflexivity | assumption | assumption |].
  reflexivity.
Qed.

Lemma subtitle_line_intro (hh mm ss : string) (sep : char) (content : string) :
  is_digits hh = true -> is_two_digits mm = true -> is_two_digits ss = true ->
  is_separator sep = true ->
  match_ SUBTITLE_LINE_PATTERN (hh ++ ":" ++ mm ++ ":" ++ ss ++ String sep content) =
    Some [Some (hh ++ ":" ++ mm ++ ":" ++ ss); Some (String sep "");
          Some (Str.take_while is_dot content)].
Proof.
  intros Hh Hm Hs Hsep.
  apply is_two_digits_inv in Hm as (m1 & m2 & Hm1 & Hm2 & ->).
  apply is_two_digits_inv in Hs as (s1 & s2 & Hs1 & Hs2 & ->).
  unfold match_.
  change (repeat None (ngroups SUBTITLE_LINE_PATTERN)) with [@None string; None; None].
  unfold SUBTITLE_LINE_PATTERN.
  rewrite run_Cat, run_Group, run_Cat.
  apply run_plus_intro; [assumption | reflexivity |].
  rewrite run_Cat. apply run_colon. eexists. split; [reflexivity|].
  rewrite run_Cat. apply run_digit. exists m1. eexists.
  splits; [reflexivity | assumption |].
  rewrite run_Cat. apply run_digit. exists m2. eexists.
  splits; [reflexivity | assumption |].
  rewrite run_Cat. apply run_colon. eexists. split; [reflexivity|].
  rewrite run_Cat. apply run_digit. exists s1. eexists.
  splits; [reflexivity | assumption |].
  apply run_digit. exists s2. eexists.
  splits; [reflexivity | assumption |].
  rewrite run_Cat, run_Group. apply run_separator. exists sep, content.
  splits; [reflexivity | assumption |].
  rewrite run_Group, run_Star. apply star_longest.
  rewrite consumed_drop_while, consumed_1.
  assert (E : Str.consumed
                (hh ++ ":" ++ String m1 (String m2 "") ++ ":" ++
                 String s1 (String s2 "") ++ String sep content)
                (String sep content) =
              hh ++ ":" ++ String m1 (String m2 "") ++ ":" ++ String s1 (String s2 ""))
    by apply (consumed_prefix hh
                (String ":" (String m1 (String m2 (String ":" (String s1 (String s2 ""))))))
                (String sep content)).
  rewrite E. reflexivity.
Qed.

Lemma subtitle_line_elim (line : string) (g : groups) :
  match_ SUBTITLE_LINE_PATTERN line = Some g ->
  exists hh mm ss sep content,
    is_digits hh = true /\ is_two_digits mm = true /\ is_two_digits ss = true /\
    is_separator sep = true /\
    line = hh ++ ":" ++ mm ++ ":" ++ ss ++ String sep content.
Proof.
  unfold match_, SUBTITLE_LINE_PATTERN. intros H.
  rewrite run_Cat, run_Group, run_Cat in H.
  apply run_plus_elim in H as (hh & r0 & -> & Hh & H).
  rewrite run_Cat in H. apply run_colon in H as (r1 & -> & H).
  rewrite run_Cat in H. apply run_digit in H as (m1 & r2 & -> & Hm1 & H).
  rewrite run_Cat in H. apply run_digit in H as (m2 & r3 & -> & Hm2 & H).
  rewrite run_Cat in H. apply run_colon in H as (r4 & -> & H).
  rewrite run_Cat in H. apply run_digit in H as (s1 & r5 & -> & Hs1 & H).
  apply run_digit in H as (s2 & r6 & -> & Hs2 & H).
  rewrite run_Cat, run_Group in H.
  apply run_separator in H as (sep & content & -> & Hsep & _).
  exists hh, (String m1 (String m2 "")), (String s1 (String s2 "")), sep, content.
  splits; [assumption | apply is_two_digits_inv; eauto .. | assumption | reflexivity].
Qed.

Lemma line_ok_intro (hh mm ss : string) (sep : char) (content : string) :
  is_digits hh = true -> is_two_digits mm = true -> is_two_digits ss = true ->
  is_separator sep = true ->
  Spec.line_ok (Spec.Line hh mm ss sep content) = true.
Proof.
  intros Hh Hm Hs Hsep. unfold Spec.line_ok.
  cbn [Spec.hh Spec.mm Spec.ss Spec.sep]. now rewrite Hh, Hm, Hs, Hsep.
Qed.

(** The match of a line decides whether it has the shape of a line. *)
Lemma subtitle_line_match_iff (line : string) :
  match_ SUBTITLE_LINE_PATTERN line <> None <-> Pat.well_formed line.
Proof.
  split.
  - intros H. destruct (match_ SUBTITLE_LINE_PATTERN line) as [g|] eqn:E; [|congruence].
    apply subtitle_line_elim in E as (hh & mm & ss & sep & content & Hh & Hm & Hs & Hsep & ->).
    exists (Spec.Line hh mm ss sep content).
    split; [now apply line_ok_intro | reflexivity].
  - intros ([hh mm ss sep content] & K & ->). unfold Spec.line_ok in K.
    cbn [Spec.hh Spec.mm Spec.ss Spec.sep] in K.
    apply andb_true_iff in K as [K Hsep]. apply andb_true_iff in K as [K Hs].
    apply andb_true_iff in K as [Hh Hm]. unfold Spec.text.
    cbn [Spec.hh Spec.mm Spec.ss Spec.sep Spec.content].
    now rewrite (subtitle_line_intro hh mm ss sep content Hh Hm Hs Hsep).
Qed.

(** A well-formed line of the specification has the shape of a line. *)
Lemma well_formed_any (line : string) : Spec.well_formed line -> Pat.well_formed line.
Proof.
  intros (hh & mm & ss & sep & content & Hh & Hm & Hs & Hsep & ->).
  exists (Spec.Line hh mm ss sep content). split; [|reflexivity].
  apply line_ok_intro;
    [now apply digits_any | now apply two_digits_any ..
    | now apply is_separator_spec].
Qed.

(** A line of ASCII that has the shape of a line is well formed. *)
Lemma well_formed_ascii (line : string) :
  is_ascii_text line = true -> Pat.well_formed line -> Spec.well_formed line.
Proof.
  intros A ([hh mm ss sep content] & K & ->). unfold Spec.line_ok in K.
  cbn [Spec.hh Spec.mm Spec.ss Spec.sep] in K.
  apply andb_true_iff in K as [K Hsep]. apply andb_true_iff in K as [K Hs].
  apply andb_true_iff in K as [Hh Hm]. unfold Spec.text in A.
  cbn [Spec.hh Spec.mm Spec.ss Spec.sep Spec.content] in A.
  apply ascii_append in A as [Ah A]. apply ascii_after_colon in A.
  apply ascii_append in A as [Am A]. apply ascii_after_colon in A.
  apply ascii_append in A as [As _].
  exists hh, mm, ss, sep, content.
  splits; [now apply ascii_digits | now apply ascii_two_digits ..
          | now apply is_separator_spec | reflexivity].
Qed.

Lemma well_formed_by_match (line : string) :
  is_ascii_text line = true -> match_ SUBTITLE_LINE_PATTERN line <> None ->
  Spec.well_formed line.
Proof. intros A M. now apply well_formed_ascii, subtitle_line_match_iff. Qed.

Lemma well_formed_match (line : string) :
  Spec.well_formed line -> match_ SUBTITLE_LINE_PATTERN line <> None.
Proof. intros W. now apply subtitle_line_match_iff, well_formed_any. Qed.

(** ** Writing numbers: [str] and the format [02d] *)

Lemma decimal_append (a b : string) :
  Spec.decimal (a ++ b) =
    Spec.decimal a * 10 ^ Z.of_nat (Str.length b) + Spec.decimal b.
Proof.
  induction a as [|c a IH]; cbn [append Spec.decimal]; [lia|].
  rewrite IH, length_append, Nat2Z.inj_add, Z.pow_add_r by lia. ring.
Qed.

Lemma decimal_snoc (a : string) (c : char) :
  Spec.decimal (a ++ String c "") = Spec.decimal a * 10 + digit_value c.
Proof.
  rewrite decimal_append. cbn [Spec.decimal Str.length]. simpl Z.of_nat.
  change (10 ^ 1) with 10. change (10 ^ 0) with 1. lia.
Qed.

Lemma decimal_zeros (n : nat) : Spec.decimal (Str.zeros n) = 0.
Proof.
  induction n as [|n IH]; cbn [Str.zeros Spec.decimal]; [reflexivity|].
  rewrite IH. change (digit_value "0") with 0. lia.
Qed.

Lemma all_digit_zeros (n : nat) : Str.all is_digit (Str.zeros n) = true.
Proof. induction n as [|n IH]; cbn [Str.zeros Str.all]; [reflexivity|]. now rewrite IH. Qed.

Lemma length_zeros (n : nat) : Str.length (Str.zeros n) = n.
Proof. induction n as [|n IH]; cbn [Str.zeros Str.length]; congruence. Qed.

Lemma digits_of_acc (fuel : nat) (n : Z) (acc : string) :
  digits_of fuel n acc = digits_of fuel n "" ++ acc.
Proof.
  revert n acc. induction fuel as [|fuel IH]; intros n acc; cbn [digits_of]; [reflexivity|].
  destruct (n <? 10); [reflexivity|].
  rewrite (IH (n / 10) (String _ acc)), (IH (n / 10) (String _ "")).
  now rewrite append_assoc.
Qed.

(** Any fuel that covers the binary size of [n] gives the same digits. *)
Lemma digits_of_fuel (f1 f2 : nat) (n : Z) (acc : string) :
  0 <= n < 2 ^ Z.of_nat (S f1) -> n < 2 ^ Z.of_nat (S f2) ->
  digits_of (S f1) n acc = digits_of (S f2) n acc.
Proof.
  revert f2 n acc. induction f1 as [|f1 IH]; intros f2 n acc H1 H2.
  - cbn [digits_of]. change (2 ^ Z.of_nat 1) with 2 in H1.
    destruct (n <? 10) eqn:E; [reflexivity|]. apply Z.ltb_ge in E. lia.
  - cbn [digits_of]. destruct (n <? 10) eqn:E; [reflexivity|]. apply Z.ltb_ge in E.
    rewrite Nat2Z.inj_succ, Z.pow_succ_r in H1, H2 by lia.
    destruct f2 as [|f2].
    { change (2 ^ Z.of_nat 0) with 1 in H2. lia. }
    change (digits_of (S f1) (n / 10) (String (digit_char (n mod 10)) acc) =
            digits_of (S f2) (n / 10) (String (digit_char (n mod 10)) acc)).
    assert (0 <= n / 10) by (apply Z.div_pos; lia).
    assert (n / 10 < 2 ^ Z.of_nat (S f1)) by (apply Z.div_lt_upper_bound; lia).
    assert (n / 10 < 2 ^ Z.of_nat (S f2)) by (apply Z.div_lt_upper_bound; lia).
    apply IH; lia.
Qed.

Lemma str_nat_fuel (n : Z) :
  0 <= n -> n < 2 ^ Z.of_nat (S (Z.to_nat (Z.log2 n))).
Proof.
  intros Hn. rewrite Nat2Z.inj_succ, Z2Nat.id by apply Z.log2_nonneg.
  destruct (Z.eq_dec n 0) as [->|N]; [reflexivity|].
  pose proof (Z.log2_spec n). lia.
Qed.

Lemma str_nat_small (n : Z) :
  0 <= n < 10 -> str_nat n = String (digit_char n) "".
Proof.
  intros H. unfold str_nat. cbn [digits_of].
  destruct (n <? 10) eqn:E; [|apply Z.ltb_ge in E; lia].
  now rewrite Z.mod_small by lia.
Qed.

Lemma str_nat_step (n : Z) :
  10 <= n -> str_nat n = str_nat (n / 10) ++ String (digit_char (n mod 10)) "".
Proof.
  intros H. unfold str_nat at 1. cbn [digits_of].
  destruct (n <? 10) eqn:E; [apply Z.ltb_lt in E; lia|].
  rewrite digits_of_acc. f_equal. unfold str_nat.
  pose proof (str_nat_fuel n ltac:(lia)) as F.
  rewrite Nat2Z.inj_succ, Z.pow_succ_r in F by lia.
  assert (0 <= n / 10) by (apply Z.div_pos; lia).
  assert (n / 10 < 2 ^ Z.of_nat (Z.to_nat (Z.log2 n)))
    by (apply Z.div_lt_upper_bound; lia).
  destruct (Z.to_nat (Z.log2 n)) as [|f] eqn:Ef.
  { change (2 ^ Z.of_nat 0) with 1 in F. lia. }
  apply digits_of_fuel; [lia|]. apply str_nat_fuel. lia.
Qed.

(** Induction on a number by its decimal digits. *)
Lemma decimal_ind (P : Z -> Prop) :
  (forall n, 0 <= n < 10 -> P n) ->
  (forall n, 10 <= n -> P (n / 10) -> P n) ->
  forall n, 0 <= n -> P n.
Proof.
  intros Hsmall Hstep n Hn. pattern n. apply Zlt_0_ind; [|assumption].
  intros x IH Hx. destruct (Z_lt_le_dec x 10) as [L|L].
  - apply Hsmall. lia.
  - apply Hstep; [assumption|]. apply IH. split.
    + apply Z.div_pos; lia.
    + apply Z.div_lt; lia.
Qed.

Lemma decimal_str_nat (n : Z) : 0 <= n -> Spec.decimal (str_nat n) = n.
Proof.
  intros Hn. pattern n. apply decimal_ind; [| |assumption]; clear n Hn.
  - intros n H. rewrite str_nat_small by assumption.
    cbn [Spec.decimal Str.length]. rewrite digit_value_char by lia.
    change (10 ^ Z.of_nat 0) with 1. lia.
  - intros n H IH. rewrite str_nat_step, decimal_snoc, IH by assumption.
    rewrite digit_value_char by (pose proof (Z.mod_pos_bound n 10); lia).
    pose proof (Z.div_mod n 10). lia.
Qed.

Lemma is_digits_str_nat (n : Z) : 0 <= n -> is_digits (str_nat n) = true.
Proof.
  intros Hn. pattern n. apply decimal_ind; [| |assumption]; clear n Hn.
  - intros n H. rewrite str_nat_small by assumption.
    rewrite is_digits_cons, is_digit_char by lia. reflexivity.
  - intros n H IH. rewrite str_nat_step by assumption.
    unfold is_digits in *. apply andb_true_iff in IH as [IH1 IH2].
    rewrite all_append, IH2. cbn [Str.all].
    rewrite is_digit_char by (pose proof (Z.mod_pos_bound n 10); lia).
    destruct (str_nat (n / 10)); [discriminate IH1 | reflexivity].
Qed.

Lemma length_str_nat (n : Z) :
  0 <= n ->
  (n < 10 -> Str.length (str_nat n) = 1%nat) /\
  (10 <= n < 100 -> Str.length (str_nat n) = 2%nat) /\
  (10 <= n -> (2 <= Str.length (str_nat n))%nat).
Proof.
  intros Hn.
  assert (P : (1 <= Str.length (str_nat n))%nat).
  { pose proof (is_digits_str_nat n Hn) as D.
    destruct (str_nat n); [discriminate D | cbn; lia]. }
  splits.
  - intros L. now rewrite str_nat_small by lia.
  - intros L. rewrite str_nat_step, length_append by lia.
    rewrite str_nat_small.
    + reflexivity.
    + split; [apply Z.div_pos; lia | apply Z.div_lt_upper_bound; lia].
  - intros L. rewrite str_nat_step, length_append by lia.
    assert (0 <= n / 10) by (apply Z.div_pos; lia).
    pose proof (is_digits_str_nat (n / 10) ltac:(assumption)) as D.
    destruct (str_nat (n / 10)); [discriminate D | cbn; lia].
Qed.

Lemma format_02d_nonneg (z : Z) :
  0 <= z ->
  format_02d z = Str.zeros (2 - Str.length (str_nat z)) ++ str_nat z.
Proof.
  intros H. unfold format_02d, format_0d.
  destruct (z <? 0) eqn:E; [apply Z.ltb_lt in E; lia|].
  rewrite Z.abs_eq by assumption. reflexivity.
Qed.

Lemma format_02d_neg (z : Z) :
  z < 0 -> format_02d z = String "-" (str_nat (- z)).
Proof.
  intros H. unfold format_02d, format_0d.
  destruct (z <? 0) eqn:E; [|apply Z.ltb_ge in E; lia].
  rewrite Z.abs_neq by lia.
  pose proof (is_digits_str_nat (- z) ltac:(lia)) as D.
  destruct (str_nat (- z)) as [|c t]; [discriminate D|].
  reflexivity.
Qed.

Lemma decimal_format_02d (z : Z) : 0 <= z -> Spec.decimal (format_02d z) = z.
Proof.
  intros H. rewrite format_02d_nonneg, decimal_append, decimal_zeros by assumption.
  rewrite decimal_str_nat by assumption. lia.
Qed.

Lemma is_digits_format_02d (z : Z) : 0 <= z -> is_digits (format_02d z) = true.
Proof.
  intros H. rewrite format_02d_nonneg by assumption.
  pose proof (is_digits_str_nat z H) as D. unfold is_digits in *.
  apply andb_true_iff in D as [D1 D2].
  rewrite all_append, all_digit_zeros, D2.
  destruct (str_nat z); [discriminate D1|].
  destruct (Str.zeros _); reflexivity.
Qed.

Lemma is_two_digits_format_02d (z : Z) :
  0 <= z < 100 -> is_two_digits (format_02d z) = true.
Proof.
  intros H. pose proof (is_digits_format_02d z ltac:(lia)) as D.
  unfold is_two_digits. rewrite (is_digits_all _ D), andb_true_r.
  rewrite format_02d_nonneg, length_append, length_zeros by lia.
  destruct (length_str_nat z ltac:(lia)) as (L1 & L2 & _).
  destruct (Z_lt_le_dec z 10) as [L|L].
  - now rewrite L1.
  - now rewrite L2 by lia.
Qed.

Lemma all_ascii_digit_zeros (n : nat) :
  Str.all is_ascii_digit (Str.zeros n) = true.
Proof. induction n as [|n IH]; cbn [Str.zeros Str.all]; [reflexivity|]. now rewrite IH. Qed.

(** Numbers are written in the digits ['0'] to ['9']. *)
Lemma all_ascii_digit_str_nat (n : Z) :
  0 <= n -> Str.all is_ascii_digit (str_nat n) = true.
Proof.
  intros Hn. pattern n. apply decimal_ind; [| |assumption]; clear n Hn.
  - intros n H. rewrite str_nat_small by assumption. cbn [Str.all].
    rewrite is_ascii_digit_char by lia. reflexivity.
  - intros n H IH. rewrite str_nat_step by assumption.
    rewrite all_append, IH. cbn [Str.all].
    rewrite is_ascii_digit_char by (pose proof (Z.mod_pos_bound n 10); lia).
    reflexivity.
Qed.

Lemma all_ascii_digit_format_02d (z : Z) :
  0 <= z -> Str.all is_ascii_digit (format_02d z) = true.
Proof.
  intros H. rewrite format_02d_nonneg by assumption.
  now rewrite all_append, all_ascii_digit_zeros, all_ascii_digit_str_nat.
Qed.

(** The rendering shows a minus sign first exactly for a negative number. *)
Lemma startswith_format_02d (z : Z) (t : string) :
  Str.startswith (format_02d z ++ t) "-" = (z <? 0).
Proof.
  destruct (z <? 0) eqn:E.
  - apply Z.ltb_lt in E. now rewrite format_02d_neg.
  - apply Z.ltb_ge in E. pose proof (is_digits_format_02d z E) as D.
    destruct (format_02d z) as [|c u]; [discriminate D|].
    rewrite is_digits_cons in D. apply andb_true_iff in D as [Dc _].
    cbn [append Str.startswith]. now apply digit_not_minus.
Qed.

(** ** One timestamp, one line *)

Lemma two_stage_division (total : Z) : total / 60 / 60 = total / 3600.
Proof. rewrite Z.div_div by lia. reflexivity. Qed.

Lemma offset_timestamp_shaped (hh mm ss tail : string) (seconds : Z) :
  is_digits hh = true -> is_two_digits mm = true -> is_two_digits ss = true ->
  offset_timestamp (hh ++ ":" ++ mm ++ ":" ++ ss ++ tail) seconds =
    ret (Spec.render (Spec.of_seconds (Spec.flattened hh mm ss + seconds))).
Proof.
  intros Hh Hm Hs. unfold offset_timestamp.
  rewrite (timestamp_intro hh mm ss tail Hh Hm Hs).
  cbn [groups_of bind ret]. unfold int_group. cbn [nth].
  rewrite (int_digits hh Hh).
  rewrite (int_digits mm (is_two_digits_digits mm Hm)).
  rewrite (int_digits ss (is_two_digits_digits ss Hs)).
  cbn [bind ret]. unfold Spec.render, Spec.of_seconds, Spec.flattened.
  cbn [Spec.hour Spec.minute Spec.second].
  rewrite two_stage_division.
  replace (Spec.decimal hh * 60 * 60) with (Spec.decimal hh * 3600) by ring.
  reflexivity.
Qed.

Lemma line_ok_parts (l : Spec.line) :
  Spec.line_ok l = true ->
  is_digits (Spec.hh l) = true /\ is_two_digits (Spec.mm l) = true /\
  is_two_digits (Spec.ss l) = true /\ is_separator (Spec.sep l) = true.
Proof.
  unfold Spec.line_ok. intros H.
  apply andb_true_iff in H as [H H4]. apply andb_true_iff in H as [H H3].
  apply andb_true_iff in H as [H1 H2]. auto.
Qed.

Lemma offset_line_shaped (l : Spec.line) (seconds : Z) :
  Spec.line_ok l = true ->
  offset_line (Spec.text l) seconds = ret (shifted l seconds).
Proof.
  intros H. apply line_ok_parts in H as (Hh & Hm & Hs & Hsep).
  destruct l as [hh mm ss sep content]. cbn [Spec.hh Spec.mm Spec.ss Spec.sep] in *.
  unfold offset_line, Spec.text. cbn [Spec.hh Spec.mm Spec.ss Spec.sep Spec.content].
  rewrite (subtitle_line_intro hh mm ss sep content Hh Hm Hs Hsep).
  cbn [groups_of bind ret].
  pose proof (offset_timestamp_shaped hh mm ss "" seconds Hh Hm Hs) as E.
  rewrite append_nil_r in E. rewrite E. reflexivity.
Qed.

Lemma offset_line_well_formed (line : string) (seconds : Z) :
  Pat.well_formed line ->
  exists l, Spec.line_ok l = true /\ line = Spec.text l /\
            offset_line line seconds = ret (shifted l seconds).
Proof.
  intros (l & K & ->). exists l.
  splits; [assumption | reflexivity | now apply offset_line_shaped].
Qed.

Lemma text_well_formed (l : Spec.line) :
  Spec.line_ok l = true -> Pat.well_formed (Spec.text l).
Proof. intros H. now exists l. Qed.

(** A well-formed line has one timestamp, one separator, one content. *)
Lemma text_injective (l l' : Spec.line) :
  Spec.line_ok l = true -> Spec.line_ok l' = true ->
  Spec.text l = Spec.text l' -> l = l'.
Proof.
  intros K K' E.
  apply line_ok_parts in K as (Hh & Hm & Hs & _).
  apply line_ok_parts in K' as (Hh' & Hm' & Hs' & _).
  destruct l as [h m s p c], l' as [h' m' s' p' c'].
  unfold Spec.text in E. cbn [Spec.hh Spec.mm Spec.ss Spec.sep Spec.content] in *.
  apply (unique_run is_digit) in E as [-> E];
    [ | now apply is_digits_all | reflexivity | now apply is_digits_all | reflexivity ].
  apply is_two_digits_inv in Hm as (a & b & _ & _ & ->).
  apply is_two_digits_inv in Hs as (d & e & _ & _ & ->).
  apply is_two_digits_inv in Hm' as (a' & b' & _ & _ & ->).
  apply is_two_digits_inv in Hs' as (d' & e' & _ & _ & ->).
  cbn [append] in E. now injection E as -> -> -> -> -> ->.
Qed.

(** C3. For a well-formed timestamp and any offset, with total the
    flattened seconds plus the offset, [offset_timestamp] renders
    hour = total div 3600, minute = (total div 60) mod 60 and
    second = total mod 60, by flooring division; the two-stage division
    of the code gives total div 3600; a total of -1 gives 59, 59 and -1. *)
Theorem offset_timestamp_components (hh mm ss tail : string) (seconds : Z) :
  is_digits hh = true -> is_two_digits mm = true -> is_two_digits ss = true ->
  let total := Spec.flattened hh mm ss + seconds in
  offset_timestamp (hh ++ ":" ++ mm ++ ":" ++ ss ++ tail) seconds =
    ret (format_02d (total / 3600) ++ ":" ++
         format_02d ((total / 60) mod 60) ++ ":" ++
         format_02d (total mod 60)) /\
  total / 60 / 60 = total / 3600 /\
  (total = -1 ->
   total mod 60 = 59 /\ (total / 60) mod 60 = 59 /\ total / 3600 = -1).
Proof.
  intros Hh Hm Hs total. splits.
  - apply (offset_timestamp_shaped hh mm ss tail seconds Hh Hm Hs).
  - apply two_stage_division.
  - intros ->. splits; reflexivity.
Qed.

Lemma offset_timestamp_components_witness :
  offset_timestamp "00:00:00" (-1) = ret "-1:59:59" /\
  offset_timestamp "00:30:00" (-11) = ret "00:29:49" /\
  offset_timestamp "1:55:30" 7665 = ret "04:03:15".
Proof.
  splits.
  - exact (proj1 (offset_timestamp_components "00" "00" "00" "" (-1)
                    eq_refl eq_refl eq_refl)).
  - exact (proj1 (offset_timestamp_components "00" "30" "00" "" (-11)
                    eq_refl eq_refl eq_refl)).
  - exact (proj1 (offset_timestamp_components "1" "55" "30" "" 7665
                    eq_refl eq_refl eq_refl)).
Defined.

Lemma negative_hour_iff (total : Z) : total / 3600 < 0 <-> total < 0.
Proof.
  split; intros H.
  - destruct (Z_lt_le_dec total 0) as [L|L]; [assumption|].
    pose proof (Z.div_pos total 3600 L). lia.
  - apply Z.div_lt_upper_bound; lia.
Qed.

Lemma startswith_shifted (l : Spec.line) (seconds : Z) :
  Str.startswith (shifted l seconds) "-" = (Spec.total l seconds <? 0).
Proof.
  unfold shifted, Spec.render, Spec.of_seconds. cbn [Spec.hour].
  rewrite append_assoc, startswith_format_02d.
  destruct (Spec.total l seconds <? 0) eqn:E.
  - apply Z.ltb_lt. apply negative_hour_iff. now apply Z.ltb_lt.
  - apply Z.ltb_ge. apply Z.ltb_ge in E. apply Z.div_pos; lia.
Qed.

Lemma offset_subtitles_total (ls : list Spec.line) (seconds : Z) :
  forallb Spec.line_ok ls = true ->
  offset_subtitles (map Spec.text ls) seconds = offset_subtitles_by_total ls seconds.
Proof.
  induction ls as [|l ls IH]; cbn [forallb map offset_subtitles offset_subtitles_by_total];
    [reflexivity|].
  intros H. apply andb_true_iff in H as [Hl Hls].
  rewrite (offset_line_shaped l seconds Hl). unfold ret.
  rewrite startswith_shifted, (IH Hls). reflexivity.
Qed.

(** C4. The line [offset_line] returns for a well-formed line begins
    with a minus sign exactly when the flattened seconds plus the offset
    are negative; so the test on the first character in
    [offset_subtitles] filters as the test on the new total does. *)
Theorem offset_line_minus_iff :
  (forall (l : Spec.line) (seconds : Z),
     Spec.line_ok l = true ->
     exists fixed_line,
       offset_line (Spec.text l) seconds = ret fixed_line /\
       (Str.startswith fixed_line "-" = true <-> Spec.total l seconds < 0)) /\
  (forall (ls : list Spec.line) (seconds : Z),
     forallb Spec.line_ok ls = true ->
     offset_subtitles (map Spec.text ls) seconds =
       offset_subtitles_by_total ls seconds).
Proof.
  split.
  - intros l seconds H. exists (shifted l seconds).
    split; [now apply offset_line_shaped|].
    rewrite startswith_shifted. apply Z.ltb_lt.
  - exact offset_subtitles_total.
Qed.

Lemma offset_line_minus_iff_witness :
  (exists fixed_line,
     offset_line "00:00:10=Translation & sync" (-20) = ret fixed_line /\
     (Str.startswith fixed_line "-" = true <-> 10 + -20 < 0)) /\
  offset_subtitles ["00:00:10=Translation & sync"; "00:00:30=Long, long time ago..."] (-20) =
    Yielded ["00:00:10=Long, long time ago..."] None.
Proof.
  split.
  - exact (proj1 offset_line_minus_iff
             (Spec.Line "00" "00" "10" "=" "Translation & sync") (-20) eq_refl).
  - exact (proj2 offset_line_minus_iff
             [Spec.Line "00" "00" "10" "=" "Translation & sync";
              Spec.Line "00" "00" "30" "=" "Long, long time ago..."] (-20) eq_refl).
Defined.

(** ** The sequence of lines *)

Lemma offset_subtitles_results (lines fixed : list string) (seconds : Z) :
  map (fun line => offset_line line seconds) lines = map ret fixed ->
  offset_subtitles lines seconds =
    Yielded (filter (fun f => negb (Str.startswith f "-")) fixed) None.
Proof.
  revert fixed. induction lines as [|line lines IH]; intros [|f fixed] E;
    try discriminate E; cbn [offset_subtitles filter]; [reflexivity|].
  cbn [map] in E. injection E as E1 E2. rewrite E1. unfold ret.
  rewrite (IH fixed E2). destruct (Str.startswith f "-"); reflexivity.
Qed.

Lemma offset_lines_return (lines : list string) (seconds : Z) :
  Forall Pat.well_formed lines ->
  exists fixed, map (fun line => offset_line line seconds) lines = map ret fixed.
Proof.
  induction 1 as [|line lines W _ [fixed IH]].
  - now exists [].
  - destruct (offset_line_well_formed line seconds W) as (l & _ & _ & E).
    exists (shifted l seconds :: fixed). cbn [map]. now rewrite E, IH.
Qed.

(** C2. Over well-formed lines [offset_subtitles] yields exactly the
    results of [offset_line], line by line, that do not begin with a
    minus sign, in the order of the input, none added, repeated or
    moved; the two documented lines shifted by -20 leave the second one
    alone, at 00:00:10. *)
Theorem offset_subtitles_filter :
  (forall (lines : list string) (seconds : Z),
     Forall Spec.well_formed lines ->
     exists fixed : list string,
       map (fun line => offset_line line seconds) lines = map ret fixed /\
       offset_subtitles lines seconds =
         Yielded (filter (fun f => negb (Str.startswith f "-")) fixed) None) /\
  offset_subtitles
    ["00:00:10=Translation & sync"; "00:00:30=Long, long time ago..."] (-20) =
    Yielded ["00:00:10=Long, long time ago..."] None.
Proof.
  split; [|reflexivity].
  intros lines seconds W.
  apply (Forall_impl _ well_formed_any) in W.
  destruct (offset_lines_return lines seconds W) as [fixed E].
  exists fixed. split; [assumption|]. now apply offset_subtitles_results.
Qed.

Lemma offset_subtitles_filter_witness :
  exists fixed : list string,
    map (fun line => offset_line line 5)
        ["00:26:18:I'm a liar, a hypocrite."; "00:26:25:I don't have the courage."] =
      map ret fixed /\
    offset_subtitles
      ["00:26:18:I'm a liar, a hypocrite."; "00:26:25:I don't have the courage."] 5 =
      Yielded (filter (fun f => negb (Str.startswith f "-")) fixed) None.
Proof.
  apply (proj1 offset_subtitles_filter).
  repeat (apply Forall_cons;
          [apply well_formed_by_match; [reflexivity | vm_compute; discriminate]|]).
  apply Forall_nil.
Defined.

(** C8. A line that does not begin with a timestamp H+:MM:SS followed
    at once by a separator, a digit being any decimal digit of Unicode,
    makes [offset_line] raise; it returns no string for it.  So does a
    line of ASCII that does not begin so with the digits 0 to 9. *)
Theorem offset_line_malformed (line : string) (seconds : Z) :
  (~ Pat.well_formed line ->
   offset_line line seconds = raise AttributeError /\
   forall fixed_line, offset_line line seconds <> ret fixed_line) /\
  (is_ascii_text line = true -> ~ Spec.well_formed line ->
   offset_line line seconds = raise AttributeError /\
   forall fixed_line, offset_line line seconds <> ret fixed_line).
Proof.
  assert (R : match_ SUBTITLE_LINE_PATTERN line = None ->
              offset_line line seconds = raise AttributeError /\
              forall fixed_line, offset_line line seconds <> ret fixed_line).
  { intros E. unfold offset_line. rewrite E. cbn [groups_of bind raise].
    split; [reflexivity | discriminate]. }
  split.
  - intros N. apply R.
    destruct (match_ SUBTITLE_LINE_PATTERN line) eqn:E; [|reflexivity].
    exfalso. apply N, subtitle_line_match_iff. congruence.
  - intros A N. apply R.
    destruct (match_ SUBTITLE_LINE_PATTERN line) eqn:E; [|reflexivity].
    exfalso. apply N, (well_formed_by_match line A). congruence.
Qed.

Lemma offset_line_malformed_witness :
  offset_line "00:00:10 no separator" 5 = raise AttributeError /\
  offset_line "0a:00:10:not a digit" 5 = raise AttributeError /\
  offset_line "00:0:10:one digit of minutes" 5 = raise AttributeError.
Proof.
  assert (N : forall line, match_ SUBTITLE_LINE_PATTERN line = None ->
                           ~ Pat.well_formed line).
  { intros line E W. apply subtitle_line_match_iff in W. contradiction. }
  splits.
  - exact (proj1 (proj1 (offset_line_malformed "00:00:10 no separator" 5)
                    (N "00:00:10 no separator" eq_refl))).
  - exact (proj1 (proj1 (offset_line_malformed "0a:00:10:not a digit" 5)
                    (N "0a:00:10:not a digit" eq_refl))).
  - exact (proj1 (proj1 (offset_line_malformed "00:0:10:one digit of minutes" 5)
                    (N "00:0:10:one digit of minutes" eq_refl))).
Defined.

(** A line whose timestamp is written in the digits of Arabic does not
    begin with the digits 0 to 9, and yet is shifted. *)
Lemma offset_line_malformed_counterexample :
  ~ Spec.well_formed arabic_line /\
  offset_line arabic_line 0 = ret "00:00:10:x".
Proof.
  split; [|reflexivity].
  intros (hh & mm & ss & sep & content & [Hne Hall] & _ & _ & _ & E).
  destruct hh as [|c hh]; [now apply Hne|].
  injection E as Ec _. subst c.
  cbn [Str.chars] in Hall. apply Forall_inv in Hall.
  cbn in Hall. intuition discriminate.
Qed.

(** C10. Two-digit minute and second groups are taken as they are,
    above 59 too: the line is not refused, the groups are flattened by
    hour * 3600 + minute * 60 + second, and the timestamp that comes
    back is the normal form of that total, so that 00:99:99 with
    offset 0 comes back as 01:40:39. *)
Theorem offset_line_normalizes :
  (forall (l : Spec.line) (seconds : Z),
     Spec.line_ok l = true ->
     exists t : Spec.timestamp,
       offset_line (Spec.text l) seconds =
         ret (Spec.render t ++ String (Spec.sep l) (Spec.first_line (Spec.content l))) /\
       Spec.seconds_of t =
         Spec.decimal (Spec.hh l) * 3600 + Spec.decimal (Spec.mm l) * 60 +
         Spec.decimal (Spec.ss l) + seconds /\
       0 <= Spec.minute t <= 59 /\ 0 <= Spec.second t <= 59) /\
  offset_line "00:99:99:text" 0 = ret "01:40:39:text".
Proof.
  split; [|reflexivity].
  intros l seconds H. exists (Spec.of_seconds (Spec.total l seconds)).
  split; [now apply offset_line_shaped|].
  unfold Spec.seconds_of, Spec.of_seconds, Spec.total, Spec.flattened.
  cbn [Spec.hour Spec.minute Spec.second].
  set (T := Spec.decimal (Spec.hh l) * 3600 + Spec.decimal (Spec.mm l) * 60 +
            Spec.decimal (Spec.ss l) + seconds).
  pose proof (Z.mod_pos_bound T 60 ltac:(lia)).
  pose proof (Z.mod_pos_bound (T / 60) 60 ltac:(lia)).
  pose proof (Z.div_mod T 60 ltac:(lia)).
  pose proof (Z.div_mod (T / 60) 60 ltac:(lia)).
  rewrite <- two_stage_division. lia.
Qed.

Lemma offset_line_normalizes_witness :
  exists t : Spec.timestamp,
    offset_line "00:99:99:text" 0 = ret (Spec.render t ++ ":text") /\
    Spec.seconds_of t = 0 * 3600 + 99 * 60 + 99 + 0 /\
    0 <= Spec.minute t <= 59 /\ 0 <= Spec.second t <= 59.
Proof.
  exact (proj1 offset_line_normalizes (Spec.Line "00" "99" "99" ":" "text") 0 eq_refl).
Defined.

(** ** Separator and content *)

Lemma take_while_all (p : char -> bool) (s : string) :
  Str.all p s = true -> Str.take_while p s = s.
Proof.
  induction s as [|c s IH]; cbn [Str.all Str.take_while]; [reflexivity|].
  intros H. apply andb_true_iff in H as [Hc Hs]. now rewrite Hc, (IH Hs).
Qed.

Lemma first_line_single (s : string) :
  Spec.single_line s = true -> Spec.first_line s = s.
Proof. apply take_while_all. Qed.

Lemma first_line_first_line (s : string) :
  Spec.first_line (Spec.first_line s) = Spec.first_line s.
Proof. apply take_while_all, all_take_while. Qed.

(** The first line of a text is what stands before its first line feed. *)
Lemma first_line_spec (s : string) :
  Spec.single_line (Spec.first_line s) = true /\
  (Spec.first_line s = s \/
   exists rest, s = Spec.first_line s ++ LF ++ rest).
Proof.
  split; [apply all_take_while|].
  unfold Spec.first_line.
  pose proof (take_drop_while is_dot s) as E.
  pose proof (stops_drop_while is_dot s) as S.
  destruct (Str.drop_while is_dot s) as [|c rest].
  - left. now rewrite append_nil_r in E.
  - right. exists rest. cbn [Str.stops] in S. apply negb_true_iff in S.
    unfold is_dot in S. apply negb_false_iff, char_eqb_eq in S. subst c.
    now symmetry.
Qed.

(** C9, as the code has it.  The line that [offset_line] returns is the
    timestamp written anew, the separator of the input as it was, and
    the content of the input up to its first line feed, which is left
    out with all that follows it; a content without a line feed is
    returned whole, byte for byte. *)
Theorem offset_line_frame (l : Spec.line) (seconds : Z) :
  Spec.line_ok l = true ->
  offset_line (Spec.text l) seconds =
    ret (Spec.render (Spec.of_seconds (Spec.total l seconds)) ++
         String (Spec.sep l) (Spec.first_line (Spec.content l))) /\
  (Spec.single_line (Spec.content l) = true ->
   offset_line (Spec.text l) seconds =
     ret (Spec.render (Spec.of_seconds (Spec.total l seconds)) ++
          String (Spec.sep l) (Spec.content l))).
Proof.
  intros H. pose proof (offset_line_shaped l seconds H) as E. split; [exact E|].
  intros S. rewrite E. unfold shifted. now rewrite (first_line_single _ S).
Qed.

Lemma offset_line_frame_witness :
  offset_line "00:26:29=I want her, but I don't take her... for God." 555 =
    ret "00:35:44=I want her, but I don't take her... for God.".
Proof.
  exact (proj2 (offset_line_frame
                  (Spec.Line "00" "26" "29" "="
                     "I want her, but I don't take her... for God.") 555 eq_refl)
               eq_refl).
Defined.

(** C9, as the specification words it, fails on a line that still has
    its line feed, as the lines read from a file have: the line feed is
    part of what follows the separator and is not returned. *)
Lemma offset_line_frame_counterexample :
  Spec.line_ok (Spec.Line "00" "00" "10" ":" ("hi" ++ LF)) = true /\
  offset_line (Spec.text (Spec.Line "00" "00" "10" ":" ("hi" ++ LF))) 0 =
    ret "00:00:10:hi" /\
  offset_line (Spec.text (Spec.Line "00" "00" "10" ":" ("hi" ++ LF))) 0 <>
    ret (Spec.render
           (Spec.of_seconds (Spec.total (Spec.Line "00" "00" "10" ":" ("hi" ++ LF)) 0)) ++
         String ":" ("hi" ++ LF)).
Proof. splits; [reflexivity | reflexivity | vm_compute; discriminate]. Qed.

(** ** Timestamps and their rendering *)

Lemma seconds_of_of_seconds (total : Z) :
  Spec.seconds_of (Spec.of_seconds total) = total.
Proof.
  unfold Spec.seconds_of, Spec.of_seconds. cbn [Spec.hour Spec.minute Spec.second].
  rewrite <- two_stage_division.
  pose proof (Z.div_mod total 60 ltac:(lia)).
  pose proof (Z.div_mod (total / 60) 60 ltac:(lia)). lia.
Qed.

Lemma valid_of_seconds (total : Z) : 0 <= total -> Spec.valid (Spec.of_seconds total).
Proof.
  intros H. unfold Spec.valid, Spec.of_seconds. cbn [Spec.hour Spec.minute Spec.second].
  pose proof (Z.mod_pos_bound total 60 ltac:(lia)).
  pose proof (Z.mod_pos_bound (total / 60) 60 ltac:(lia)).
  pose proof (Z.div_pos total 3600 H ltac:(lia)). lia.
Qed.

Lemma of_seconds_seconds_of (t : Spec.timestamp) :
  Spec.valid t -> Spec.of_seconds (Spec.seconds_of t) = t.
Proof.
  destruct t as [h m s]. unfold Spec.valid, Spec.seconds_of, Spec.of_seconds.
  cbn [Spec.hour Spec.minute Spec.second]. intros (Hh & Hm & Hs).
  assert (E1 : (h * 3600 + m * 60 + s) mod 60 = s).
  { symmetry. apply (Z.mod_unique _ 60 (h * 60 + m)); lia. }
  assert (E2 : (h * 3600 + m * 60 + s) / 60 = h * 60 + m).
  { symmetry. apply (Z.div_unique _ 60 _ s); lia. }
  assert (E3 : (h * 60 + m) mod 60 = m).
  { symmetry. apply (Z.mod_unique _ 60 h); lia. }
  assert (E4 : (h * 3600 + m * 60 + s) / 3600 = h).
  { symmetry. apply (Z.div_unique _ 3600 _ (m * 60 + s)); lia. }
  now rewrite E1, E2, E3, E4.
Qed.

Lemma rendered_line_text (t : Spec.timestamp) (sep : char) (content : string) :
  Spec.text (rendered_line t sep content) = Spec.render t ++ String sep content.
Proof.
  unfold Spec.text, rendered_line, Spec.render.
  cbn [Spec.hh Spec.mm Spec.ss Spec.sep Spec.content].
  now rewrite !append_assoc.
Qed.

Lemma rendered_line_ok (t : Spec.timestamp) (sep : char) (content : string) :
  Spec.valid t -> is_separator sep = true ->
  Spec.line_ok (rendered_line t sep content) = true.
Proof.
  intros (Hh & Hm & Hs) Hsep. unfold Spec.line_ok, rendered_line.
  cbn [Spec.hh Spec.mm Spec.ss Spec.sep].
  rewrite is_digits_format_02d, !is_two_digits_format_02d, Hsep by lia.
  reflexivity.
Qed.

Lemma rendered_line_total (t : Spec.timestamp) (sep : char) (content : string)
    (seconds : Z) :
  Spec.valid t ->
  Spec.total (rendered_line t sep content) seconds = Spec.seconds_of t + seconds.
Proof.
  intros (Hh & Hm & Hs). unfold Spec.total, Spec.flattened, rendered_line, Spec.seconds_of.
  cbn [Spec.hh Spec.mm Spec.ss]. now rewrite !decimal_format_02d by lia.
Qed.

Lemma offset_line_rendered (t : Spec.timestamp) (sep : char) (content : string)
    (seconds : Z) :
  Spec.valid t -> is_separator sep = true ->
  offset_line (Spec.render t ++ String sep content) seconds =
    ret (Spec.render (Spec.of_seconds (Spec.seconds_of t + seconds)) ++
         String sep (Spec.first_line content)).
Proof.
  intros V Hsep. rewrite <- rendered_line_text.
  rewrite (offset_line_shaped _ seconds (rendered_line_ok t sep content V Hsep)).
  unfold shifted. now rewrite (rendered_line_total t sep content seconds V).
Qed.

(** C5, as the code has it.  A valid timestamp shifted by an offset that
    keeps its total from falling below zero, and then shifted back,
    comes back the same, and so does the separator; of the content what
    stands before the first line feed comes back, so a content without
    a line feed comes back whole and the line is the one started from. *)
Theorem offset_line_round_trip (t : Spec.timestamp) (sep : char)
    (content : string) (seconds : Z) :
  Spec.valid t -> is_separator sep = true -> 0 <= Spec.seconds_of t + seconds ->
  exists shifted_line,
    offset_line (Spec.render t ++ String sep content) seconds = ret shifted_line /\
    offset_line shifted_line (- seconds) =
      ret (Spec.render t ++ String sep (Spec.first_line content)) /\
    (Spec.single_line content = true ->
     offset_line shifted_line (- seconds) =
       ret (Spec.render t ++ String sep content)).
Proof.
  intros V Hsep Hpos. eexists. split; [now apply offset_line_rendered|].
  assert (E : offset_line
                (Spec.render (Spec.of_seconds (Spec.seconds_of t + seconds)) ++
                 String sep (Spec.first_line content)) (- seconds) =
              ret (Spec.render t ++ String sep (Spec.first_line content))).
  { rewrite offset_line_rendered by (auto using valid_of_seconds).
    rewrite seconds_of_of_seconds, first_line_first_line.
    replace (Spec.seconds_of t + seconds + - seconds) with (Spec.seconds_of t) by lia.
    now rewrite of_seconds_seconds_of. }
  split; [exact E|].
  intros S. rewrite E. now rewrite (first_line_single content S).
Qed.

Lemma offset_line_round_trip_witness :
  exists shifted_line,
    offset_line "01:59:50=Long, long time ago" 15 = ret shifted_line /\
    offset_line shifted_line (-15) = ret "01:59:50=Long, long time ago" /\
    (Spec.single_line "Long, long time ago" = true ->
     offset_line shifted_line (-15) = ret "01:59:50=Long, long time ago").
Proof.
  refine (offset_line_round_trip (Spec.Timestamp 1 59 50) "=" "Long, long time ago" 15
            _ eq_refl _).
  - unfold Spec.valid. cbn. lia.
  - cbn. lia.
Defined.

(** C5, as the specification words it, fails on a content that has a
    line feed: the round trip returns the content without it. *)
Lemma offset_line_round_trip_counterexample :
  Spec.valid (Spec.Timestamp 0 0 10) /\
  0 <= Spec.seconds_of (Spec.Timestamp 0 0 10) + 5 /\
  offset_line (Spec.render (Spec.Timestamp 0 0 10) ++ String ":" ("hi" ++ LF)) 5 =
    ret "00:00:15:hi" /\
  offset_line "00:00:15:hi" (-5) = ret "00:00:10:hi" /\
  "00:00:10:hi" <> Spec.render (Spec.Timestamp 0 0 10) ++ String ":" ("hi" ++ LF).
Proof.
  splits; try reflexivity.
  - unfold Spec.valid. cbn. lia.
  - cbn. lia.
  - vm_compute. discriminate.
Qed.

(** ** Reading back what [02d] wrote *)

Lemma str_nat_from (ds : string) (v : Z) :
  0 < v -> Str.all is_ascii_digit ds = true ->
  str_nat (dec_value_from v ds) = str_nat v ++ ds.
Proof.
  revert v. induction ds as [|c ds IH]; intros v Hv H; cbn [dec_value_from Str.all] in *.
  - now rewrite append_nil_r.
  - apply andb_true_iff in H as [Hc Hds].
    pose proof (digit_value_range c (ascii_digit_digit c Hc)) as R.
    rewrite IH by (assumption || lia).
    rewrite (str_nat_step (v * 10 + digit_value c)) by lia.
    replace ((v * 10 + digit_value c) / 10) with v
      by (apply (Z.div_unique _ 10 _ (digit_value c)); lia).
    replace ((v * 10 + digit_value c) mod 10) with (digit_value c)
      by (apply (Z.mod_unique _ 10 v); lia).
    rewrite (digit_char_value c Hc), append_assoc. reflexivity.
Qed.

Lemma digit_value_positive (c : char) :
  is_ascii_digit c = true -> char_eqb c "0" = false -> 0 < digit_value c.
Proof. intros H N. digit_cases H; first [discriminate N | reflexivity]. Qed.

(** A numeral of the digits ['0'] to ['9'] without a leading zero is
    written back as it was. *)
Lemma str_nat_decimal (ds : string) :
  is_ascii_digits ds = true -> Str.startswith ds "0" = false ->
  str_nat (Spec.decimal ds) = ds.
Proof.
  destruct ds as [|c ds]; [discriminate|].
  change (is_ascii_digits (String c ds))
    with (is_ascii_digit c && Str.all is_ascii_digit ds).
  cbn [Str.startswith]. intros H N. apply andb_true_iff in H as [Hc Hds].
  rewrite <- dec_value_decimal. unfold dec_value. cbn [dec_value_from].
  pose proof (digit_value_positive c Hc N) as P.
  pose proof (digit_value_range c (ascii_digit_digit c Hc)) as R.
  rewrite str_nat_from by (assumption || lia).
  change (0 * 10 + digit_value c) with (digit_value c).
  rewrite str_nat_small by lia. now rewrite (digit_char_value c Hc).
Qed.

Lemma format_02d_two_digits (ds : string) :
  is_ascii_two_digits ds = true -> format_02d (Spec.decimal ds) = ds.
Proof.
  intros H. unfold is_ascii_two_digits in H. apply andb_true_iff in H as [L A].
  apply Nat.eqb_eq in L.
  destruct ds as [|a [|b [|c ds]]]; try discriminate L. cbn [Str.all] in A.
  apply andb_true_iff in A as [Ha A]. apply andb_true_iff in A as [Hb _].
  pose proof (digit_value_range a (ascii_digit_digit a Ha)) as Ra.
  pose proof (digit_value_range b (ascii_digit_digit b Hb)) as Rb.
  assert (D : is_ascii_digits (String a (String b "")) = true)
    by (unfold is_ascii_digits; cbn [Str.is_empty negb Str.all]; now rewrite Ha, Hb).
  rewrite format_02d_nonneg by (rewrite decimal_two; lia).
  destruct (char_eqb a "0") eqn:E.
  - apply char_eqb_eq in E. subst a. rewrite decimal_two.
    change (digit_value "0" * 10 + digit_value b) with (digit_value b).
    rewrite str_nat_small by lia. now rewrite (digit_char_value b Hb).
  - now rewrite (str_nat_decimal _ D E).
Qed.

Lemma format_02d_canonical_hour (h : string) :
  is_ascii_digits h = true -> Spec.canonical_hour h = true ->
  format_02d (Spec.decimal h) = h.
Proof.
  intros D C. unfold Spec.canonical_hour in C. apply orb_true_iff in C as [C|C].
  - apply format_02d_two_digits. unfold is_ascii_two_digits.
    unfold is_ascii_digits in D. apply andb_true_iff in D as [_ D].
    now rewrite C, D.
  - apply andb_true_iff in C as [L Z0]. apply Nat.ltb_lt in L.
    apply negb_true_iff in Z0.
    rewrite format_02d_nonneg
      by (apply decimal_nonneg; now apply is_digits_all, ascii_digits_digits).
    rewrite (str_nat_decimal h D Z0).
    replace (2 - Str.length h)%nat with 0%nat by lia. reflexivity.
Qed.

Lemma canonical_parts (l : Spec.line) :
  Spec.canonical l = true ->
  Spec.line_ok l = true /\ Spec.canonical_hour (Spec.hh l) = true /\
  Spec.decimal (Spec.mm l) <= 59 /\ Spec.decimal (Spec.ss l) <= 59 /\
  Spec.single_line (Spec.content l) = true.
Proof.
  unfold Spec.canonical. intros H. apply andb_true_iff in H as [H _].
  apply andb_true_iff in H as [H H5]. apply andb_true_iff in H as [H H4].
  apply andb_true_iff in H as [H H3]. apply andb_true_iff in H as [H1 H2].
  apply Z.leb_le in H3, H4. auto.
Qed.

(** A line as the program writes it has its timestamp in the digits
    ['0'] to ['9']. *)
Lemma canonical_ascii (l : Spec.line) :
  Spec.canonical l = true ->
  is_ascii_digits (Spec.hh l) = true /\ is_ascii_two_digits (Spec.mm l) = true /\
  is_ascii_two_digits (Spec.ss l) = true.
Proof.
  intros C. pose proof (canonical_parts l C) as (K & _).
  apply line_ok_parts in K as (Hh & Hm & Hs & _).
  unfold Spec.canonical in C. apply andb_true_iff in C as [_ A].
  rewrite !all_append in A. apply andb_true_iff in A as [Ah A].
  apply andb_true_iff in A as [Am As].
  unfold is_digits, is_two_digits in *.
  apply andb_true_iff in Hh as [Hh _]. apply andb_true_iff in Hm as [Hm _].
  apply andb_true_iff in Hs as [Hs _].
  unfold is_ascii_digits, is_ascii_two_digits.
  now rewrite Hh, Hm, Hs, Ah, Am, As.
Qed.

Lemma str_nat_leading (n : Z) :
  1 <= n -> Str.startswith (str_nat n) "0" = false.
Proof.
  intros Hn. assert (H0 : 0 <= n) by lia. revert Hn. pattern n.
  apply decimal_ind; [| |assumption]; clear n H0.
  - intros n H Hn. rewrite str_nat_small by assumption. cbn [Str.startswith].
    assert (C : n = 1 \/ n = 2 \/ n = 3 \/ n = 4 \/ n = 5 \/ n = 6 \/
                n = 7 \/ n = 8 \/ n = 9) by lia.
    repeat (destruct C as [C|C]; [subst; reflexivity|]). subst; reflexivity.
  - intros n H IH _. rewrite str_nat_step by assumption.
    assert (P : 1 <= n / 10) by (apply Z.div_le_lower_bound; lia).
    specialize (IH P). pose proof (is_digits_str_nat (n / 10) ltac:(lia)) as D.
    destruct (str_nat (n / 10)); [discriminate D | exact IH].
Qed.

Lemma canonical_hour_format_02d (z : Z) :
  0 <= z -> Spec.canonical_hour (format_02d z) = true.
Proof.
  intros H. unfold Spec.canonical_hour. destruct (Z_lt_le_dec z 100) as [L|L].
  - pose proof (is_two_digits_format_02d z ltac:(lia)) as T.
    unfold is_two_digits in T. apply andb_true_iff in T as [T _]. now rewrite T.
  - assert (G : (3 <= Str.length (str_nat z))%nat).
    { rewrite str_nat_step, length_append by lia. cbn [Str.length].
      assert (10 <= z / 10) by (apply Z.div_le_lower_bound; lia).
      destruct (length_str_nat (z / 10) ltac:(lia)) as (_ & _ & L2).
      specialize (L2 ltac:(assumption)). lia. }
    rewrite format_02d_nonneg by assumption.
    replace (2 - Str.length (str_nat z))%nat with 0%nat by lia.
    cbn [Str.zeros append]. rewrite str_nat_leading by lia.
    apply orb_true_iff. right. apply andb_true_iff. split; [|reflexivity].
    apply Nat.ltb_lt. lia.
Qed.

(** A line that comes back as it was given is written the way the
    program writes it. *)
Lemma offset_line_zero_only (l : Spec.line) :
  Spec.line_ok l = true -> offset_line (Spec.text l) 0 = ret (Spec.text l) ->
  Spec.canonical l = true.
Proof.
  intros K E. rewrite (offset_line_shaped l 0 K) in E. injection E as E.
  pose proof (line_ok_parts l K) as (Hh & Hm & Hs & _).
  pose proof (decimal_nonneg _ (is_digits_all _ Hh)) as Ph.
  pose proof (decimal_nonneg _ (is_digits_all _ (is_two_digits_digits _ Hm))) as Pm.
  pose proof (decimal_nonneg _ (is_digits_all _ (is_two_digits_digits _ Hs))) as Ps.
  assert (T0 : 0 <= Spec.total l 0) by (unfold Spec.total, Spec.flattened; lia).
  pose proof (valid_of_seconds _ T0) as (Vh & Vm & Vs).
  unfold shifted, Spec.render, Spec.text in E. rewrite !append_assoc in E.
  set (t := Spec.of_seconds (Spec.total l 0)) in *.
  apply (unique_run is_digit) in E as [Eh E];
    [ | apply is_digits_all, is_digits_format_02d; assumption | reflexivity
      | apply is_digits_all; assumption | reflexivity ].
  pose proof (is_two_digits_format_02d (Spec.minute t) ltac:(lia)) as Fm.
  pose proof (is_two_digits_format_02d (Spec.second t) ltac:(lia)) as Fs.
  pose proof (decimal_format_02d (Spec.minute t) ltac:(lia)) as Dm.
  pose proof (decimal_format_02d (Spec.second t) ltac:(lia)) as Ds.
  apply is_two_digits_inv in Fm as (a & b & _ & _ & Fm).
  apply is_two_digits_inv in Fs as (c & d & _ & _ & Fs).
  apply is_two_digits_inv in Hm as (a' & b' & _ & _ & Hm).
  apply is_two_digits_inv in Hs as (c' & d' & _ & _ & Hs).
  rewrite Fm, Fs, Hm, Hs in E. cbn [append] in E.
  injection E as -> -> -> -> Ec.
  unfold Spec.canonical. rewrite K, <- Eh, (canonical_hour_format_02d _ Vh).
  rewrite Hm, Hs, <- Fm, <- Fs, Dm, Ds.
  unfold Spec.single_line. rewrite <- Ec. unfold Spec.first_line.
  rewrite all_take_while.
  rewrite !all_append, !all_ascii_digit_format_02d by lia.
  cbn [andb]. rewrite !andb_true_r.
  apply andb_true_iff. split; apply Z.leb_le; lia.
Qed.

(** C6, as the code has it.  With offset 0 [offset_line] returns a
    well-formed line as it was given exactly when the line is written
    the way the program writes it: an hour group of two digits, or of
    more with no leading zero, minutes and seconds up to 59, and a
    content without a line feed. *)
Theorem offset_line_zero (l : Spec.line) :
  Spec.line_ok l = true ->
  (offset_line (Spec.text l) 0 = ret (Spec.text l) <-> Spec.canonical l = true).
Proof.
  intros K0. split; [now apply offset_line_zero_only|].
  intros C. pose proof (canonical_ascii l C) as (Ah & Am & As).
  apply canonical_parts in C as (K & Ch & Lm & Ls & S).
  rewrite (offset_line_shaped l 0 K). apply f_equal.
  pose proof (line_ok_parts l K) as (Hh & Hm & Hs & _).
  pose proof (decimal_nonneg _ (is_digits_all _ Hh)) as Ph.
  pose proof (decimal_nonneg _ (is_digits_all _ (is_two_digits_digits _ Hm))) as Pm.
  pose proof (decimal_nonneg _ (is_digits_all _ (is_two_digits_digits _ Hs))) as Ps.
  unfold shifted, Spec.total, Spec.flattened. rewrite Z.add_0_r.
  change (Spec.decimal (Spec.hh l) * 3600 + Spec.decimal (Spec.mm l) * 60 +
          Spec.decimal (Spec.ss l))
    with (Spec.seconds_of (Spec.Timestamp (Spec.decimal (Spec.hh l))
                             (Spec.decimal (Spec.mm l)) (Spec.decimal (Spec.ss l)))).
  rewrite of_seconds_seconds_of by (unfold Spec.valid; cbn; lia).
  unfold Spec.render. cbn [Spec.hour Spec.minute Spec.second].
  rewrite (format_02d_canonical_hour _ Ah Ch).
  rewrite (format_02d_two_digits _ Am), (format_02d_two_digits _ As).
  rewrite (first_line_single _ S). unfold Spec.text. now rewrite !append_assoc.
Qed.

Lemma offset_line_zero_witness :
  offset_line "00:26:18:I'm a liar, a hypocrite." 0 =
    ret "00:26:18:I'm a liar, a hypocrite." /\
  offset_line "123:05:59=x" 0 = ret "123:05:59=x" /\
  offset_line "007:05:59=x" 0 <> ret "007:05:59=x".
Proof.
  splits.
  - exact (proj2 (offset_line_zero
                    (Spec.Line "00" "26" "18" ":" "I'm a liar, a hypocrite.") eq_refl)
                 eq_refl).
  - exact (proj2 (offset_line_zero (Spec.Line "123" "05" "59" "=" "x") eq_refl) eq_refl).
  - intros E.
    pose proof (proj1 (offset_line_zero (Spec.Line "007" "05" "59" "=" "x") eq_refl) E) as C.
    discriminate C.
Defined.

(** C6, as the specification words it, fails on a well-formed line with
    an hour group of one digit: the hour comes back with two. *)
Lemma offset_line_zero_counterexample :
  Spec.well_formed "1:55:30:x" /\
  offset_line "1:55:30:x" 0 = ret "01:55:30:x" /\
  offset_line "1:55:30:x" 0 <> ret "1:55:30:x".
Proof.
  splits.
  - apply well_formed_by_match; [reflexivity | vm_compute; discriminate].
  - reflexivity.
  - vm_compute. discriminate.
Qed.

(** * Further properties of the code *)

(** ** The offset patterns *)

Lemma with_hours_colons (s : string) (g : groups) :
  fullmatch WITH_HOURS s = Some g -> Str.count is_colon s = 2%nat.
Proof.
  intros H. apply with_hours_elim in H as (sg & hh & mm & ss & Hh & Hm & Hs & ->).
  now apply colons_hours.
Qed.

(** X1.  No text is matched in full by two of the three offset patterns, so
    the order in which [total_seconds] tries them decides nothing. *)
Theorem offset_patterns_exclusive (s : string) :
  (fullmatch ONLY_SECONDS s <> None ->
   fullmatch WITH_MINUTES s = None /\ fullmatch WITH_HOURS s = None) /\
  (fullmatch WITH_MINUTES s <> None ->
   fullmatch ONLY_SECONDS s = None /\ fullmatch WITH_HOURS s = None) /\
  (fullmatch WITH_HOURS s <> None ->
   fullmatch ONLY_SECONDS s = None /\ fullmatch WITH_MINUTES s = None).
Proof.
  destruct (fullmatch ONLY_SECONDS s) as [g1|] eqn:E1;
    destruct (fullmatch WITH_MINUTES s) as [g2|] eqn:E2;
    destruct (fullmatch WITH_HOURS s) as [g3|] eqn:E3;
    try apply only_seconds_colons in E1;
    try apply with_minutes_colons in E2;
    try apply with_hours_colons in E3;
    splits; intros N; try congruence; split; congruence.
Qed.

Lemma offset_patterns_exclusive_witness :
  fullmatch ONLY_SECONDS "01:10" = None /\ fullmatch WITH_HOURS "01:10" = None.
Proof.
  apply (proj1 (proj2 (offset_patterns_exclusive "01:10"))). discriminate.
Defined.

(** What [total_seconds] returns, a grammar gives. *)
Lemma total_seconds_returns (s : string) (v : Z) :
  total_seconds s = ret v -> Pat.offset s v.
Proof.
  intros H.
  assert (A : Pat.accepted s).
  { apply matched_accepted. unfold total_seconds in H.
    destruct (fullmatch ONLY_SECONDS s); [left; discriminate|].
    destruct (fullmatch WITH_MINUTES s); [right; left; discriminate|].
    destruct (fullmatch WITH_HOURS s); [right; right; discriminate|].
    discriminate H. }
  destruct A as [v' Hv']. pose proof (total_seconds_any s v' Hv') as E.
  rewrite H in E. injection E as ->. exact Hv'.
Qed.

Lemma append_nil_l_eq (s : string) : "" ++ s = s.
Proof. reflexivity. Qed.

Lemma stops_sign_unsigned (sg : Spec.sign) (body : string) :
  Str.stops is_sign (Spec.sign_text sg ++ body) = true -> sg = Spec.Unsigned.
Proof. destruct sg; cbn; [reflexivity | discriminate ..]. Qed.

(** X2.  A minus sign before an unsigned offset negates its value, a plus
    sign leaves it. *)
Theorem total_seconds_signed (s : string) (v : Z) :
  Str.stops is_sign s = true -> total_seconds s = ret v ->
  total_seconds ("-" ++ s) = ret (- v) /\ total_seconds ("+" ++ s) = ret v.
Proof.
  intros S H. apply total_seconds_returns in H.
  assert (Neg : forall body w,
            Pat.offset (Spec.sign_text Spec.Negative ++ body) w ->
            total_seconds ("-" ++ body) = ret w)
    by (intros body w O; exact (total_seconds_any _ _ O)).
  assert (Pos : forall body w,
            Pat.offset (Spec.sign_text Spec.Positive ++ body) w ->
            total_seconds ("+" ++ body) = ret w)
    by (intros body w O; exact (total_seconds_any _ _ O)).
  destruct H as [sg ss Hs | sg mm ss Hm Hs | sg hh mm ss Hh Hm Hs];
    apply stops_sign_unsigned in S; subst sg;
    change (Spec.sign_text Spec.Unsigned) with ""; rewrite append_nil_l_eq.
  - rewrite (Neg _ _ (Pat.seconds_only Spec.Negative ss Hs)).
    rewrite (Pos _ _ (Pat.seconds_only Spec.Positive ss Hs)).
    cbn [Spec.sign_value]. split; apply f_equal; lia.
  - rewrite (Neg _ _ (Pat.minutes_seconds Spec.Negative mm ss Hm Hs)).
    rewrite (Pos _ _ (Pat.minutes_seconds Spec.Positive mm ss Hm Hs)).
    cbn [Spec.sign_value]. split; apply f_equal; lia.
  - rewrite (Neg _ _ (Pat.hours_minutes_seconds Spec.Negative hh mm ss Hh Hm Hs)).
    rewrite (Pos _ _ (Pat.hours_minutes_seconds Spec.Positive hh mm ss Hh Hm Hs)).
    cbn [Spec.sign_value]. split; apply f_equal; lia.
Qed.

Lemma total_seconds_signed_witness :
  total_seconds "-01:30" = ret (- 90) /\ total_seconds "+01:30" = ret 90.
Proof. exact (total_seconds_signed "01:30" 90 eq_refl eq_refl). Defined.

Lemma sign_body_unique (sg sg' : Spec.sign) (x y : string) :
  Str.stops is_sign x = true -> Str.stops is_sign y = true ->
  Spec.sign_text sg ++ x = Spec.sign_text sg' ++ y -> sg = sg' /\ x = y.
Proof.
  intros Sx Sy E.
  destruct sg, sg'; cbn [Spec.sign_text append] in E;
    try (split; [reflexivity | congruence]);
    try (subst x; discriminate Sx); try (subst y; discriminate Sy);
    discriminate E.
Qed.

Lemma stops_sign_digits (ds t : string) :
  is_digits ds = true -> Str.stops is_sign (ds ++ t) = true.
Proof.
  destruct ds as [|c ds]; [discriminate|]. rewrite is_digits_cons.
  intros H. apply andb_true_iff in H as [Hc _]. cbn [append Str.stops].
  now rewrite (digit_not_sign c Hc).
Qed.

(** X3.  With one colon the offset has to be MM:SS with two digits on each
    side: "1:30" or "01:5" is refused, though an hour group may have any
    number of digits. *)
Theorem total_seconds_one_colon (sg : Spec.sign) (a b : string) :
  is_digits a = true -> is_digits b = true ->
  ((exists v, total_seconds (Spec.sign_text sg ++ a ++ ":" ++ b) = ret v) <->
   is_two_digits a = true /\ is_two_digits b = true).
Proof.
  intros Ha Hb. split.
  - intros [v H]. apply total_seconds_returns in H.
    assert (C : Str.count is_colon (Spec.sign_text sg ++ a ++ ":" ++ b) = 1%nat).
    { rewrite !count_append, colons_sign,
        (colons_digits a (is_digits_all a Ha)), (colons_digits b (is_digits_all b Hb)).
      reflexivity. }
    remember (Spec.sign_text sg ++ a ++ ":" ++ b) as s eqn:Es.
    destruct H as [sg' ss Hs | sg' mm ss Hm Hs | sg' hh mm ss Hh Hm Hs].
    + rewrite (colons_seconds sg' ss Hs) in C. discriminate.
    + apply sign_body_unique in Es as [_ Es];
        [ | apply stops_sign_digits; now apply is_two_digits_digits
          | now apply stops_sign_digits ].
      apply (unique_run is_digit) in Es as [-> Es];
        [ | apply is_digits_all; now apply is_two_digits_digits | reflexivity
          | now apply is_digits_all | reflexivity ].
      injection Es as ->. now split.
    + rewrite (colons_hours sg' hh mm ss Hh Hm Hs) in C. discriminate.
  - intros [Ta Tb]. eexists. now apply total_seconds_minutes.
Qed.

Lemma total_seconds_one_colon_witness :
  total_seconds "1:30" = raise (ValueError "1:30") /\
  ~ (exists v, total_seconds "1:30" = ret v).
Proof.
  split; [reflexivity|]. intros H.
  apply (total_seconds_one_colon Spec.Unsigned "1" "30" eq_refl eq_refl) in H.
  destruct H as [H _]. discriminate H.
Defined.

(** ** More on the sequence of lines *)

Lemma offset_line_raises (line : string) (seconds : Z) :
  ~ Pat.well_formed line -> offset_line line seconds = raise AttributeError.
Proof.
  intros N. unfold offset_line.
  destruct (match_ SUBTITLE_LINE_PATTERN line) eqn:E; [|reflexivity].
  exfalso. apply N, subtitle_line_match_iff. congruence.
Qed.

Lemma offset_subtitles_after (a b : list string) (fixed : list string) (seconds : Z) :
  map (fun line => offset_line line seconds) a = map ret fixed ->
  offset_subtitles (a ++ b) seconds =
    Yielded (filter (fun f => negb (Str.startswith f "-")) fixed ++
             items (offset_subtitles b seconds))
            (raised (offset_subtitles b seconds)).
Proof.
  revert fixed. induction a as [|line a IH]; intros [|f fixed] E;
    try discriminate E; cbn [app offset_subtitles filter].
  - now destruct (offset_subtitles b seconds).
  - cbn [map] in E. injection E as E1 E2. rewrite E1. unfold ret.
    rewrite (IH fixed E2). destruct (Str.startswith f "-"); reflexivity.
Qed.

(** X4.  The lines are handled one after the other: over two lists in a row
    the generator yields what it yields over the first and then what it
    yields over the second, unless the first one raised, which ends it. *)
Theorem offset_subtitles_app (a b : list string) (seconds : Z) :
  offset_subtitles (a ++ b) seconds =
    match raised (offset_subtitles a seconds) with
    | Some e => offset_subtitles a seconds
    | None =>
        Yielded (items (offset_subtitles a seconds) ++ items (offset_subtitles b seconds))
                (raised (offset_subtitles b seconds))
    end.
Proof.
  induction a as [|line a IH]; cbn [app offset_subtitles].
  - cbn [raised items app]. now destruct (offset_subtitles b seconds).
  - destruct (offset_line line seconds) as [e|fixed_line]; [reflexivity|].
    destruct (Str.startswith fixed_line "-"); [exact IH|].
    rewrite IH. destruct (offset_subtitles a seconds) as [ia [e|]];
      unfold yield_first; reflexivity.
Qed.

(** X5.  A line that does not begin with a timestamp and a separator,
    a digit being any decimal digit of Unicode, ends the generator with
    the exception: the lines before it have been yielded, the lines
    after it are never looked at. *)
Theorem offset_subtitles_stops (good : list string) (bad : string)
    (rest : list string) (seconds : Z) :
  Forall Pat.well_formed good -> ~ Pat.well_formed bad ->
  exists fixed : list string,
    map (fun line => offset_line line seconds) good = map ret fixed /\
    offset_subtitles (good ++ bad :: rest) seconds =
      Yielded (filter (fun f => negb (Str.startswith f "-")) fixed)
              (Some AttributeError).
Proof.
  intros W N. destruct (offset_lines_return good seconds W) as [fixed E].
  exists fixed. split; [assumption|].
  rewrite (offset_subtitles_after good (bad :: rest) fixed seconds E).
  cbn [offset_subtitles]. rewrite (offset_line_raises bad seconds N).
  cbn [raise items raised]. now rewrite app_nil_r.
Qed.

Lemma offset_subtitles_stops_witness :
  exists fixed : list string,
    map (fun line => offset_line line 5) ["00:00:10=Translation & sync"] = map ret fixed /\
    offset_subtitles
      (["00:00:10=Translation & sync"] ++ "no timestamp" :: ["00:00:30=Long, long time ago"]) 5 =
      Yielded (filter (fun f => negb (Str.startswith f "-")) fixed) (Some AttributeError).
Proof.
  apply offset_subtitles_stops.
  - repeat (apply Forall_cons;
            [apply subtitle_line_match_iff; vm_compute; discriminate|]).
    apply Forall_nil.
  - intros W. apply subtitle_line_match_iff in W. apply W. reflexivity.
Defined.

Lemma total_nonneg (l : Spec.line) (seconds : Z) :
  Spec.line_ok l = true -> 0 <= seconds -> 0 <= Spec.total l seconds.
Proof.
  intros K H. apply line_ok_parts in K as (Hh & Hm & Hs & _).
  pose proof (decimal_nonneg _ (is_digits_all _ Hh)).
  pose proof (decimal_nonneg _ (is_digits_all _ (is_two_digits_digits _ Hm))).
  pose proof (decimal_nonneg _ (is_digits_all _ (is_two_digits_digits _ Hs))).
  unfold Spec.total, Spec.flattened. lia.
Qed.

(** X6.  An offset that is not negative drops no line: every well-formed
    line comes out, shifted, in its place. *)
Theorem offset_subtitles_forward (lines : list string) (seconds : Z) :
  Forall Spec.well_formed lines -> 0 <= seconds ->
  exists fixed : list string,
    map (fun line => offset_line line seconds) lines = map ret fixed /\
    offset_subtitles lines seconds = Yielded fixed None.
Proof.
  intros W H. induction W as [|line lines W _ (fixed & E & IH)].
  - now exists [].
  - destruct (offset_line_well_formed line seconds (well_formed_any line W))
      as (l & K & -> & El).
    exists (shifted l seconds :: fixed). cbn [map offset_subtitles].
    rewrite El, E. split; [reflexivity|]. unfold ret.
    rewrite startswith_shifted, IH.
    pose proof (total_nonneg l seconds K H) as P.
    destruct (Spec.total l seconds <? 0) eqn:L; [apply Z.ltb_lt in L; lia|].
    reflexivity.
Qed.

Lemma offset_subtitles_forward_witness :
  exists fixed : list string,
    map (fun line => offset_line line 5)
        ["00:26:18:I'm a liar, a hypocrite."; "00:26:25:I don't have the courage."] =
      map ret fixed /\
    offset_subtitles
      ["00:26:18:I'm a liar, a hypocrite."; "00:26:25:I don't have the courage."] 5 =
      Yielded fixed None.
Proof.
  apply offset_subtitles_forward; [|lia].
  repeat (apply Forall_cons;
          [apply well_formed_by_match; [reflexivity | vm_compute; discriminate]|]).
  apply Forall_nil.
Defined.

(** ** More on one line *)

Lemma shifted_rendered (l : Spec.line) (seconds : Z) :
  shifted l seconds =
    Spec.text (rendered_line (Spec.of_seconds (Spec.total l seconds)) (Spec.sep l)
                 (Spec.first_line (Spec.content l))).
Proof. now rewrite rendered_line_text. Qed.

(** X7.  Shifting by one offset and then by another is shifting by their
    sum, as long as the first shift does not take the line below zero. *)
Theorem offset_line_compose (l : Spec.line) (a b : Z) :
  Spec.line_ok l = true -> 0 <= Spec.total l a ->
  exists shifted_line,
    offset_line (Spec.text l) a = ret shifted_line /\
    offset_line shifted_line b = offset_line (Spec.text l) (a + b).
Proof.
  intros K P. pose proof (line_ok_parts l K) as (_ & _ & _ & Hsep).
  exists (shifted l a). split; [now apply offset_line_shaped|].
  rewrite (offset_line_shaped l (a + b) K). unfold shifted at 1.
  rewrite offset_line_rendered by (auto using valid_of_seconds).
  rewrite seconds_of_of_seconds, first_line_first_line. unfold shifted.
  replace (Spec.total l (a + b)) with (Spec.total l a + b)
    by (unfold Spec.total; lia).
  reflexivity.
Qed.

Lemma offset_line_compose_witness :
  exists shifted_line,
    offset_line "00:26:29=I want her" 555 = ret shifted_line /\
    offset_line shifted_line (-600) = offset_line "00:26:29=I want her" (555 + -600).
Proof.
  refine (offset_line_compose (Spec.Line "00" "26" "29" "=" "I want her") 555 (-600)
            eq_refl _).
  vm_compute. discriminate.
Defined.

Lemma well_formed_starts_digit (line : string) :
  Pat.well_formed line -> Str.startswith line "-" = false.
Proof.
  intros (l & K & ->). apply line_ok_parts in K as (Hh & _).
  unfold Spec.text. destruct (Spec.hh l) as [|c hh]; [discriminate|].
  rewrite is_digits_cons in Hh. apply andb_true_iff in Hh as [Hc _].
  cbn [append Str.startswith]. now apply digit_not_minus.
Qed.

(** X8.  A line shifted below zero cannot be shifted back: what
    [offset_line] returned for it begins with a minus sign, which no
    timestamp of the line pattern does, so [offset_line] raises on it
    whatever the offset. *)
Theorem offset_line_below_zero (l : Spec.line) (a b : Z) :
  Spec.line_ok l = true -> Spec.total l a < 0 ->
  exists shifted_line,
    offset_line (Spec.text l) a = ret shifted_line /\
    offset_line shifted_line b = raise AttributeError.
Proof.
  intros K N. exists (shifted l a). split; [now apply offset_line_shaped|].
  apply offset_line_raises. intros W.
  apply well_formed_starts_digit in W. rewrite startswith_shifted in W.
  apply Z.ltb_ge in W. lia.
Qed.

Lemma offset_line_below_zero_witness :
  exists shifted_line,
    offset_line "00:00:10=Translation & sync" (-20) = ret shifted_line /\
    offset_line shifted_line 20 = raise AttributeError.
Proof.
  refine (offset_line_below_zero
            (Spec.Line "00" "00" "10" "=" "Translation & sync") (-20) 20 eq_refl _).
  vm_compute. reflexivity.
Defined.

(** ** What the generator yields *)

Lemma offset_line_returns (line : string) (seconds : Z) (fixed_line : string) :
  offset_line line seconds = ret fixed_line ->
  exists l, Spec.line_ok l = true /\ line = Spec.text l /\ fixed_line = shifted l seconds.
Proof.
  intros H.
  assert (W : Pat.well_formed line).
  { apply subtitle_line_match_iff. intros E. unfold offset_line in H.
    rewrite E in H. discriminate H. }
  destruct (offset_line_well_formed line seconds W) as (l & K & -> & E).
  exists l. splits; [assumption | reflexivity |].
  rewrite H in E. now injection E.
Qed.

Lemma yielded_from (lines : list string) (seconds : Z) (out : string) :
  In out (items (offset_subtitles lines seconds)) ->
  exists line, In line lines /\ offset_line line seconds = ret out /\
               Str.startswith out "-" = false.
Proof.
  induction lines as [|line lines IH]; cbn [offset_subtitles items]; [contradiction|].
  destruct (offset_line line seconds) as [e|fixed_line] eqn:E; [contradiction|].
  destruct (Str.startswith fixed_line "-") eqn:S.
  - intros H. destruct (IH H) as (l & Hl & R). exists l. split; [now right | exact R].
  - cbn [yield_first items]. intros [<- | H].
    + exists line. splits; [now left | exact E | assumption].
    + destruct (IH H) as (l & Hl & R). exists l. split; [now right | exact R].
Qed.

Lemma canonical_rendered (t : Spec.timestamp) (sep : char) (content : string) :
  Spec.valid t -> is_separator sep = true ->
  Spec.canonical (rendered_line t sep (Spec.first_line content)) = true.
Proof.
  intros V Hsep. pose proof V as (Vh & Vm & Vs).
  unfold Spec.canonical. rewrite (rendered_line_ok t sep _ V Hsep).
  unfold rendered_line. cbn [Spec.hh Spec.mm Spec.ss Spec.content].
  rewrite (canonical_hour_format_02d _ Vh), !decimal_format_02d by lia.
  rewrite (proj1 (first_line_spec content)).
  rewrite !all_append, !all_ascii_digit_format_02d by lia.
  cbn [andb]. rewrite !andb_true_r.
  apply andb_true_iff. split; apply Z.leb_le; lia.
Qed.

Lemma canonical_text (l : Spec.line) :
  Spec.canonical l = true ->
  Spec.render (Spec.of_seconds (Spec.flattened (Spec.hh l) (Spec.mm l) (Spec.ss l))) ++
  String (Spec.sep l) (Spec.content l) = Spec.text l.
Proof.
  intros C. pose proof (canonical_ascii l C) as (Ah & Am & As).
  apply canonical_parts in C as (K & Ch & Lm & Ls & S).
  pose proof (line_ok_parts l K) as (Hh & Hm & Hs & _).
  pose proof (decimal_nonneg _ (is_digits_all _ Hh)) as Ph.
  pose proof (decimal_nonneg _ (is_digits_all _ (is_two_digits_digits _ Hm))) as Pm.
  pose proof (decimal_nonneg _ (is_digits_all _ (is_two_digits_digits _ Hs))) as Ps.
  unfold Spec.flattened.
  change (Spec.decimal (Spec.hh l) * 3600 + Spec.decimal (Spec.mm l) * 60 +
          Spec.decimal (Spec.ss l))
    with (Spec.seconds_of (Spec.Timestamp (Spec.decimal (Spec.hh l))
                             (Spec.decimal (Spec.mm l)) (Spec.decimal (Spec.ss l)))).
  rewrite of_seconds_seconds_of by (unfold Spec.valid; cbn; lia).
  unfold Spec.render. cbn [Spec.hour Spec.minute Spec.second].
  rewrite (format_02d_canonical_hour _ Ah Ch).
  rewrite (format_02d_two_digits _ Am), (format_02d_two_digits _ As).
  unfold Spec.text. now rewrite !append_assoc.
Qed.

Lemma canonical_fixed (l : Spec.line) :
  Spec.canonical l = true -> offset_line (Spec.text l) 0 = ret (Spec.text l).
Proof.
  intros C. pose proof (canonical_parts l C) as (K & _ & _ & _ & S).
  rewrite (offset_line_shaped l 0 K). apply f_equal.
  unfold shifted, Spec.total. rewrite Z.add_0_r, (first_line_single _ S).
  now apply canonical_text.
Qed.

Lemma yielded_canonical (lines : list string) (seconds : Z) (out : string) :
  In out (items (offset_subtitles lines seconds)) ->
  exists l, Spec.canonical l = true /\ out = Spec.text l.
Proof.
  intros H. apply yielded_from in H as (line & _ & R & S).
  apply offset_line_returns in R as (l & K & -> & ->).
  rewrite startswith_shifted in S. apply Z.ltb_ge in S.
  pose proof (line_ok_parts l K) as (_ & _ & _ & Hsep).
  rewrite shifted_rendered. eexists. split; [|reflexivity].
  now apply canonical_rendered; [apply valid_of_seconds|].
Qed.

(** X9.  Whatever lines go in, every line the generator yields is written
    the way the program writes lines: it is well formed, its hour has
    two digits or more with no leading zero, its minutes and seconds are
    at most 59, it has no line feed; so [offset_line] with offset 0 gives
    it back as it is. *)
Theorem offset_subtitles_canonical (lines : list string) (seconds : Z) (out : string) :
  In out (items (offset_subtitles lines seconds)) ->
  (exists l, Spec.canonical l = true /\ out = Spec.text l) /\
  offset_line out 0 = ret out.
Proof.
  intros H. destruct (yielded_canonical lines seconds out H) as (l & C & ->).
  split; [now exists l | now apply canonical_fixed].
Qed.

Lemma offset_subtitles_canonical_witness :
  (exists l, Spec.canonical l = true /\ "01:40:39:text" = Spec.text l) /\
  offset_line "01:40:39:text" 0 = ret "01:40:39:text".
Proof.
  apply (offset_subtitles_canonical ["00:99:99:text"] 0 "01:40:39:text").
  left. reflexivity.
Defined.

(** X10.  Running the generator with offset 0 over what it yielded yields the
    same lines again, and raises nothing. *)
Theorem offset_subtitles_again (lines : list string) (seconds : Z) :
  offset_subtitles (items (offset_subtitles lines seconds)) 0 =
    Yielded (items (offset_subtitles lines seconds)) None.
Proof.
  assert (G : forall outs : list string,
            (forall out, In out outs ->
               offset_line out 0 = ret out /\ Str.startswith out "-" = false) ->
            offset_subtitles outs 0 = Yielded outs None).
  { induction outs as [|out outs IH]; intros H; cbn [offset_subtitles]; [reflexivity|].
    destruct (H out (or_introl eq_refl)) as [E S]. rewrite E. unfold ret.
    rewrite S, IH by (intros o Ho; apply H; now right). reflexivity. }
  apply G. intros out H.
  destruct (yielded_canonical lines seconds out H) as (l & C & E).
  split; [rewrite E; now apply canonical_fixed|].
  apply yielded_from in H as (_ & _ & _ & S). exact S.
Qed.

(** ** More on one timestamp *)




(** ** Lines as a file has them *)

Lemma take_while_dot_ended (s : string) :
  Spec.single_line s = true -> Spec.first_line (s ++ LF) = s.
Proof. intros H. apply (take_while_append is_dot s LF H). reflexivity. Qed.

Lemma offset_line_ended_shaped (l : Spec.line) (seconds : Z) :
  Spec.line_ok l = true -> Spec.single_line (Spec.content l) = true ->
  offset_line (ended (Spec.text l)) seconds = ret (shifted l seconds).
Proof.
  intros K S.
  assert (E : ended (Spec.text l) =
              Spec.text (Spec.Line (Spec.hh l) (Spec.mm l) (Spec.ss l) (Spec.sep l)
                           (Spec.content l ++ LF))).
  { unfold ended, Spec.text. cbn [Spec.hh Spec.mm Spec.ss Spec.sep Spec.content].
    now rewrite !append_assoc. }
  rewrite E, offset_line_shaped by exact K.
  unfold shifted, Spec.total. cbn [Spec.hh Spec.mm Spec.ss Spec.sep Spec.content].
  now rewrite (take_while_dot_ended _ S), (first_line_single _ S).
Qed.

(** X12.  The line feed that ends a line of a file is not part of what
    [offset_line] returns: the line is shifted as if it had none. *)
Theorem offset_line_ended (l : Spec.line) (seconds : Z) :
  Spec.line_ok l = true -> Spec.single_line (Spec.content l) = true ->
  offset_line (ended (Spec.text l)) seconds = offset_line (Spec.text l) seconds.
Proof.
  intros K S. rewrite (offset_line_ended_shaped l seconds K S).
  symmetry. now apply offset_line_shaped.
Qed.

Lemma offset_line_ended_witness :
  offset_line ("00:26:18:I'm a liar, a hypocrite." ++ LF) 5 =
  offset_line "00:26:18:I'm a liar, a hypocrite." 5.
Proof.
  exact (offset_line_ended (Spec.Line "00" "26" "18" ":" "I'm a liar, a hypocrite.") 5
           eq_refl eq_refl).
Defined.

Lemma readlines_ended (x rest : string) :
  Spec.single_line x = true -> readlines (ended x ++ rest) = ended x :: readlines rest.
Proof.
  unfold ended, Spec.single_line.
  induction x as [|c x IH]; cbn [Str.all append readlines]; intros H; [reflexivity|].
  apply andb_true_iff in H as [Hc Hx]. unfold is_dot in Hc.
  apply negb_true_iff in Hc. rewrite Hc, (IH Hx). reflexivity.
Qed.

Lemma readlines_unlines (xs : list string) :
  Forall (fun x => Spec.single_line x = true) xs ->
  readlines (unlines xs) = map ended xs.
Proof.
  induction 1 as [|x xs Hx _ IH]; cbn [unlines map]; [reflexivity|].
  rewrite <- append_assoc. fold (ended x). now rewrite readlines_ended, IH.
Qed.

Lemma digit_is_dot (c : char) : is_digit c = true -> is_dot c = true.
Proof.
  intros H. unfold is_dot. destruct (char_eqb_spec c "010") as [->|N]; [|reflexivity].
  vm_compute in H. discriminate H.
Qed.

Lemma all_digit_dot (s : string) : Str.all is_digit s = true -> Str.all is_dot s = true.
Proof.
  induction s as [|c s IH]; cbn [Str.all]; [reflexivity|]. intros H.
  apply andb_true_iff in H as [Hc Hs]. now rewrite (digit_is_dot c Hc), (IH Hs).
Qed.

Lemma single_line_text (l : Spec.line) :
  Spec.line_ok l = true -> Spec.single_line (Spec.content l) = true ->
  Spec.single_line (Spec.text l) = true.
Proof.
  intros K S. apply line_ok_parts in K as (Hh & Hm & Hs & Hsep).
  apply is_digits_all, all_digit_dot in Hh.
  apply is_two_digits_digits, is_digits_all, all_digit_dot in Hm, Hs.
  unfold Spec.single_line, Spec.text in *.
  rewrite !all_append, Hh, Hm, Hs. cbn [Str.all andb]. rewrite S.
  apply is_separator_spec in Hsep. destruct Hsep as [-> | ->]; reflexivity.
Qed.

(** ** The command line *)

Lemma print_all_world (name : string) (items : list string) (w : world) :
  stdout (print_all name items w) = stdout w /\
  forall n, files (print_all name items w) n =
            if Str.eqb n name
            then option_map (fun t => t ++ unlines items) (files w n)
            else files w n.
Proof.
  revert w. induction items as [|x items IH]; intros w; cbn [print_all unlines].
  - split; [reflexivity|]. intros n. destruct (Str.eqb n name); [|reflexivity].
    destruct (files w n); cbn [option_map]; [|reflexivity]. now rewrite append_nil_r.
  - destruct (IH (print_to name x w)) as [E1 E2]. split; [exact E1|].
    intros n. rewrite E2. cbn [print_to files].
    destruct (Str.eqb n name); [|reflexivity].
    destruct (files w n); cbn [option_map]; [|reflexivity].
    now rewrite !append_assoc.
Qed.

Lemma print_usage_world (w : world) :
  files (print_usage w) = files w.
Proof. reflexivity. Qed.

(** What a run with three arguments does once the offset is read, the
    subtitles are there and the output is not. *)
Lemma main_run (prog_name o i out : string) (w : world) (v : Z) (text : string) :
  total_seconds o = ret v -> files w i = Some text -> files w out = None ->
  let y := offset_subtitles (readlines text) v in
  snd (main prog_name [o; i; out] w) =
    match raised y with Some e => Uncaught e | None => Returned end /\
  stdout (fst (main prog_name [o; i; out] w)) = stdout w /\
  forall n, files (fst (main prog_name [o; i; out] w)) n =
            if Str.eqb n out then Some (unlines (items y)) else files w n.
Proof.
  intros Ho Hi Hout y. unfold main. cbn [List.length Nat.eqb negb nth].
  rewrite Ho. unfold ret. rewrite Hi, Hout. fold y.
  destruct (print_all_world out (items y) (create out w)) as [E1 E2].
  assert (F : forall n,
            files (print_all out (items y) (create out w)) n =
            if Str.eqb n out then Some (unlines (items y)) else files w n).
  { intros n. rewrite E2. cbn [create files]. now destruct (Str.eqb n out). }
  destruct (raised y); cbn [fst snd]; splits; auto.
Qed.

Lemma three_arguments (args : list string) :
  List.length args = 3%nat ->
  args = [nth 0 args ""; nth 1 args ""; nth 2 args ""].
Proof.
  destruct args as [|a [|b [|c [|d args]]]]; try discriminate. reflexivity.
Qed.

(** X13.  [main] never changes or removes a file that is there, its input
    among them, and the one file it may make is the one its third
    argument names. *)
Theorem main_keeps_files (prog_name : string) (args : list string) (w : world)
    (n : string) :
  (files w n <> None \/ n <> nth 2 args "") ->
  files (fst (main prog_name args w)) n = files w n.
Proof.
  intros H. unfold main. cbn zeta.
  destruct (negb (List.length args =? 3)%nat); [reflexivity|].
  destruct (total_seconds (nth 0 args "")) as [e|v]; [reflexivity|].
  destruct (files w (nth 1 args "")) as [text|]; [|reflexivity].
  destruct (files w (nth 2 args "")) as [old|] eqn:Eout; [reflexivity|].
  assert (F : files (print_all (nth 2 args "")
                       (items (offset_subtitles (readlines text) v))
                       (create (nth 2 args "") w)) n = files w n).
  { rewrite (proj2 (print_all_world _ _ _)). cbn [create files].
    destruct (str_eqb_spec n (nth 2 args "")) as [->|N]; [|reflexivity].
    destruct H as [H|H]; congruence. }
  destruct (raised (offset_subtitles (readlines text) v)); exact F.
Qed.

Lemma main_keeps_files_witness :
  files (fst (main "offset_tmp_subs" ["5"; "in.txt"; "in.txt"]
                (one_file "in.txt" ("00:00:10=Translation & sync" ++ LF)))) "in.txt" =
    Some ("00:00:10=Translation & sync" ++ LF).
Proof.
  apply (main_keeps_files "offset_tmp_subs" ["5"; "in.txt"; "in.txt"]
           (one_file "in.txt" ("00:00:10=Translation & sync" ++ LF)) "in.txt").
  left. discriminate.
Defined.

(** X14.  [main] leaves with status 1 exactly when it is not given three
    arguments; then it looks at none of them, not even to read the
    offset, touches no file, and prints the count it found and then the
    four lines of the usage, each ended by a line feed. *)
Theorem main_exit_iff (prog_name : string) (args : list string) (w : world) :
  ((exists code, snd (main prog_name args w) = SystemExit code) <->
   List.length args <> 3%nat) /\
  (List.length args <> 3%nat ->
   snd (main prog_name args w) = SystemExit 1 /\
   files (fst (main prog_name args w)) = files w /\
   stdout (fst (main prog_name args w)) =
     stdout w ++
     "offset_tmp_subs: Wrong number of arguments. Required 3, but found " ++
     str_nat (Z.of_nat (List.length args)) ++ LF ++
     "usage: offset_tmp_subs OFFSET SUBTITLE_FILE OUTPUT_FILE" ++ LF ++
     "Delay or hasten subtitles in MTP format by OFFSET number of seconds." ++ LF ++
     "OFFSET can be a signed number of seconds or a time string similar" ++ LF ++
     "to: -01:30, +02:00, or 01:23:45." ++ LF).
Proof.
  unfold main. cbn zeta. destruct (List.length args =? 3)%nat eqn:E; cbn [negb].
  - apply Nat.eqb_eq in E. split; [|intros N; contradiction].
    split; [|intros N; contradiction].
    intros [code H]. exfalso.
    destruct (total_seconds (nth 0 args "")) as [e|v]; [discriminate H|].
    destruct (files w (nth 1 args "")) as [text|]; [|discriminate H].
    destruct (files w (nth 2 args "")) as [old|]; [discriminate H|].
    destruct (raised (offset_subtitles (readlines text) v)); discriminate H.
  - apply Nat.eqb_neq in E. split.
    + split; [intros _; exact E | intros _; now exists 1].
    + intros _. splits; [reflexivity | reflexivity |].
      unfold print_usage, print. cbn [fst stdout files].
      rewrite !append_assoc. reflexivity.
Qed.

Lemma main_exit_iff_witness :
  snd (main "offset_tmp_subs" ["not an offset"; "in.txt"] (one_file "in.txt" "")) =
    SystemExit 1 /\
  stdout (fst (main "offset_tmp_subs" ["not an offset"; "in.txt"]
                 (one_file "in.txt" ""))) =
    "offset_tmp_subs: Wrong number of arguments. Required 3, but found 2" ++ LF ++
    "usage: offset_tmp_subs OFFSET SUBTITLE_FILE OUTPUT_FILE" ++ LF ++
    "Delay or hasten subtitles in MTP format by OFFSET number of seconds." ++ LF ++
    "OFFSET can be a signed number of seconds or a time string similar" ++ LF ++
    "to: -01:30, +02:00, or 01:23:45." ++ LF.
Proof.
  destruct (proj2 (main_exit_iff "offset_tmp_subs" ["not an offset"; "in.txt"]
                     (one_file "in.txt" "")) ltac:(discriminate)) as (E & _ & P).
  split; [exact E | exact P].
Defined.

(** X15.  With three arguments the checks come in this order: the offset is
    read before any file is opened, the subtitles are opened before the
    output, and the output is refused when a file of that name is there;
    a run that fails at one of them leaves the files and the standard
    output as they were.  So the output can never be the input.  An
    offset is of a grammar with any decimal digits of Unicode for
    digits. *)
Theorem main_refuses (prog_name o i out : string) (w : world) :
  (~ Pat.accepted o ->
   main prog_name [o; i; out] w = (w, Uncaught (ValueError o))) /\
  (Pat.accepted o -> files w i = None ->
   main prog_name [o; i; out] w = (w, UncaughtOS (FileNotFoundError i))) /\
  (Pat.accepted o -> files w i <> None -> files w out <> None ->
   main prog_name [o; i; out] w = (w, UncaughtOS (FileExistsError out))).
Proof.
  unfold main. cbn [List.length Nat.eqb negb nth]. splits.
  - intros N. now rewrite (total_seconds_rejects o N).
  - intros [v A] Hi. rewrite (total_seconds_any o v A). unfold ret. now rewrite Hi.
  - intros [v A] Hi Hout. rewrite (total_seconds_any o v A). unfold ret.
    destruct (files w i); [|congruence]. destruct (files w out); [reflexivity | congruence].
Qed.

Lemma main_refuses_witness :
  main "offset_tmp_subs" ["5"; "in.txt"; "in.txt"] (one_file "in.txt" "") =
    (one_file "in.txt" "", UncaughtOS (FileExistsError "in.txt")) /\
  main "offset_tmp_subs" ["1:30"; "none.txt"; "in.txt"] (one_file "in.txt" "") =
    (one_file "in.txt" "", Uncaught (ValueError "1:30")).
Proof.
  split.
  - apply (proj2 (proj2 (main_refuses "offset_tmp_subs" "5" "in.txt" "in.txt"
                           (one_file "in.txt" "")))).
    + exists 5. apply (Pat.seconds_only Spec.Unsigned "5"). reflexivity.
    + discriminate.
    + discriminate.
  - apply (proj1 (main_refuses "offset_tmp_subs" "1:30" "none.txt" "in.txt"
                    (one_file "in.txt" ""))).
    intros [v A]. apply total_seconds_any in A. discriminate A.
Defined.

Lemma raised_none_iff (lines : list string) (seconds : Z) :
  raised (offset_subtitles lines seconds) = None <-> Forall Pat.well_formed lines.
Proof.
  split.
  - induction lines as [|line lines IH]; cbn [offset_subtitles]; [constructor|].
    destruct (offset_line line seconds) as [e|fixed_line] eqn:E; [discriminate|].
    intros H. constructor.
    + destruct (offset_line_returns line seconds fixed_line E) as (l & K & -> & _).
      now apply text_well_formed.
    + apply IH. now destruct (Str.startswith fixed_line "-").
  - intros W. destruct (offset_lines_return lines seconds W) as [fixed E].
    now rewrite (offset_subtitles_results lines fixed seconds E).
Qed.

(** X16.  [main] returns exactly when it has three arguments, the first is
    an offset of one of the grammars, the second names a file that is
    there, the third a file that is not, and every line of the subtitles
    begins with a timestamp and a separator; a digit of the offset or
    of a timestamp is any decimal digit of Unicode. *)
Theorem main_returns_iff (prog_name : string) (args : list string) (w : world) :
  snd (main prog_name args w) = Returned <->
  exists o i out text,
    args = [o; i; out] /\ Pat.accepted o /\ files w i = Some text /\
    files w out = None /\ Forall Pat.well_formed (readlines text).
Proof.
  split.
  - intros H. unfold main in H. cbn zeta in H.
    destruct (List.length args =? 3)%nat eqn:L; cbn [negb] in H; [|discriminate H].
    apply Nat.eqb_eq, three_arguments in L.
    destruct (total_seconds (nth 0 args "")) as [e|v] eqn:Ho; [discriminate H|].
    destruct (files w (nth 1 args "")) as [text|] eqn:Hi; [|discriminate H].
    destruct (files w (nth 2 args "")) as [old|] eqn:Hout; [discriminate H|].
    destruct (raised (offset_subtitles (readlines text) v)) eqn:R; [discriminate H|].
    exists (nth 0 args ""), (nth 1 args ""), (nth 2 args ""), text.
    splits; try assumption.
    + exists v. now apply total_seconds_returns.
    + now apply (raised_none_iff (readlines text) v).
  - intros (o & i & out & text & -> & [v A] & Hi & Hout & W).
    destruct (main_run prog_name o i out w v text (total_seconds_any o v A) Hi Hout)
      as (E & _). rewrite E.
    now rewrite (proj2 (raised_none_iff (readlines text) v) W).
Qed.

Lemma main_returns_iff_witness :
  snd (main "offset_tmp_subs" ["-20"; "in.txt"; "out.txt"]
         (one_file "in.txt" ("00:00:10=Translation & sync" ++ LF))) = Returned.
Proof.
  apply main_returns_iff.
  exists "-20", "in.txt", "out.txt", ("00:00:10=Translation & sync" ++ LF).
  splits; try reflexivity.
  - exists (-20). apply (Pat.seconds_only Spec.Negative "20"). reflexivity.
  - repeat (apply Forall_cons;
            [apply subtitle_line_match_iff; vm_compute; discriminate|]).
    apply Forall_nil.
Defined.

(** X17.  A line that does not begin with a timestamp and a separator, a
    digit being any decimal digit of Unicode, leaves an output file cut
    short: the file has been made, holds the shifted lines that came
    before that line, each ended by a line feed, and the exception of
    that line ends the run. *)
Theorem main_cut_short (prog_name o i out : string) (w : world) (v : Z)
    (text : string) (good : list string) (bad : string) (rest : list string) :
  total_seconds o = ret v -> files w i = Some text -> files w out = None ->
  readlines text = (good ++ bad :: rest)%list ->
  Forall Pat.well_formed good -> ~ Pat.well_formed bad ->
  snd (main prog_name [o; i; out] w) = Uncaught AttributeError /\
  exists fixed : list string,
    map (fun line => offset_line line v) good = map ret fixed /\
    files (fst (main prog_name [o; i; out] w)) out =
      Some (unlines (filter (fun f => negb (Str.startswith f "-")) fixed)).
Proof.
  intros Ho Hi Hout L W N.
  destruct (main_run prog_name o i out w v text Ho Hi Hout) as (E & _ & F).
  destruct (offset_lines_return good v W) as [fixed Ef].
  rewrite L, (offset_subtitles_after good (bad :: rest) fixed v Ef) in E, F.
  cbn [offset_subtitles] in E, F. rewrite (offset_line_raises bad v N) in E, F.
  cbn [raise raised items] in E, F. rewrite app_nil_r in F.
  split; [exact E|].
  exists fixed. split; [exact Ef|]. now rewrite F, str_eqb_refl.
Qed.

Lemma main_cut_short_witness :
  snd (main "offset_tmp_subs" ["5"; "in.txt"; "out.txt"]
         (one_file "in.txt" ("00:00:10=Translation" ++ LF ++ "no timestamp" ++ LF))) =
    Uncaught AttributeError /\
  exists fixed : list string,
    map (fun line => offset_line line 5) ["00:00:10=Translation" ++ LF] = map ret fixed /\
    files (fst (main "offset_tmp_subs" ["5"; "in.txt"; "out.txt"]
                  (one_file "in.txt" ("00:00:10=Translation" ++ LF ++ "no timestamp" ++ LF))))
          "out.txt" =
      Some (unlines (filter (fun f => negb (Str.startswith f "-")) fixed)).
Proof.
  apply (main_cut_short "offset_tmp_subs" "5" "in.txt" "out.txt"
           (one_file "in.txt" ("00:00:10=Translation" ++ LF ++ "no timestamp" ++ LF))
           5 ("00:00:10=Translation" ++ LF ++ "no timestamp" ++ LF)
           ["00:00:10=Translation" ++ LF] ("no timestamp" ++ LF) []);
    try reflexivity.
  - repeat (apply Forall_cons;
            [apply subtitle_line_match_iff; vm_compute; discriminate|]).
    apply Forall_nil.
  - intros W. apply subtitle_line_match_iff in W. apply W. reflexivity.
Defined.

Lemma offset_subtitles_ended (ls : list Spec.line) (seconds : Z) :
  forallb Spec.line_ok ls = true ->
  forallb (fun l => Spec.single_line (Spec.content l)) ls = true ->
  offset_subtitles (map ended (map Spec.text ls)) seconds =
    Yielded (map (fun l => shifted l seconds)
               (filter (fun l => 0 <=? Spec.total l seconds) ls)) None.
Proof.
  induction ls as [|l ls IH]; cbn [forallb map filter offset_subtitles]; [reflexivity|].
  intros K S. apply andb_true_iff in K as [Kl K]. apply andb_true_iff in S as [Sl S].
  rewrite (offset_line_ended_shaped l seconds Kl Sl).
  unfold ret. rewrite startswith_shifted, (IH K S).
  destruct (Spec.total l seconds <? 0) eqn:L.
  - apply Z.ltb_lt in L. destruct (0 <=? Spec.total l seconds) eqn:G; [|reflexivity].
    apply Z.leb_le in G. lia.
  - apply Z.ltb_ge in L. destruct (0 <=? Spec.total l seconds) eqn:G; [reflexivity|].
    apply Z.leb_gt in G. lia.
Qed.

Lemma single_line_texts (ls : list Spec.line) :
  forallb Spec.line_ok ls = true ->
  forallb (fun l => Spec.single_line (Spec.content l)) ls = true ->
  Forall (fun x => Spec.single_line x = true) (map Spec.text ls).
Proof.
  induction ls as [|l ls IH]; cbn [forallb map]; [constructor|].
  intros K S. apply andb_true_iff in K as [Kl K]. apply andb_true_iff in S as [Sl S].
  constructor; [now apply single_line_text | now apply IH].
Qed.

Lemma main_file (prog_name o i out : string) (w : world) (v : Z)
    (ls : list Spec.line) :
  total_seconds o = ret v ->
  files w i = Some (unlines (map Spec.text ls)) -> files w out = None ->
  forallb Spec.line_ok ls = true ->
  forallb (fun l => Spec.single_line (Spec.content l)) ls = true ->
  snd (main prog_name [o; i; out] w) = Returned /\
  (forall n, n <> out -> files (fst (main prog_name [o; i; out] w)) n = files w n) /\
  files (fst (main prog_name [o; i; out] w)) out =
    Some (unlines (map (fun l => shifted l v)
                     (filter (fun l => 0 <=? Spec.total l v) ls))).
Proof.
  intros Ho Hi Hout K S.
  destruct (main_run prog_name o i out w v _ Ho Hi Hout) as (E & _ & F).
  rewrite (readlines_unlines _ (single_line_texts ls K S)) in E, F.
  rewrite (offset_subtitles_ended ls v K S) in E, F. cbn [raised items] in E, F.
  splits; [exact E | | now rewrite F, str_eqb_refl].
  intros n N. rewrite F. apply str_eqb_neq in N. now rewrite N.
Qed.

(** X18.  From end to end: for a file of well-formed lines, each ended by a
    line feed, [main] makes the output file and writes to it, in order
    and each ended by a line feed, the lines whose new total is not
    negative, with the timestamp of that total and the separator and
    content they had. *)
Theorem main_shifts_file (prog_name o i out : string) (w : world) (v : Z)
    (ls : list Spec.line) :
  total_seconds o = ret v ->
  files w i = Some (unlines (map Spec.text ls)) -> files w out = None ->
  forallb Spec.line_ok ls = true ->
  forallb (fun l => Spec.single_line (Spec.content l)) ls = true ->
  snd (main prog_name [o; i; out] w) = Returned /\
  files (fst (main prog_name [o; i; out] w)) out =
    Some (unlines
            (map (fun l => Spec.render (Spec.of_seconds (Spec.total l v)) ++
                           String (Spec.sep l) (Spec.content l))
                 (filter (fun l => 0 <=? Spec.total l v) ls))).
Proof.
  intros Ho Hi Hout K S.
  destruct (main_file prog_name o i out w v ls Ho Hi Hout K S) as (E & _ & F).
  split; [exact E|]. rewrite F. do 2 f_equal.
  apply map_ext_in. intros l Hl. apply filter_In in Hl as [Hl _].
  unfold shifted. rewrite first_line_single; [reflexivity|].
  rewrite forallb_forall in S. now apply S.
Qed.

Lemma main_shifts_file_witness :
  snd (main "offset_tmp_subs" ["-20"; "in.txt"; "out.txt"]
         (one_file "in.txt"
            ("00:00:10=Translation & sync" ++ LF ++ "00:00:30=Long, long time ago" ++ LF))) =
    Returned /\
  files (fst (main "offset_tmp_subs" ["-20"; "in.txt"; "out.txt"]
                (one_file "in.txt"
                   ("00:00:10=Translation & sync" ++ LF ++
                    "00:00:30=Long, long time ago" ++ LF)))) "out.txt" =
    Some ("00:00:10=Long, long time ago" ++ LF).
Proof.
  exact (main_shifts_file "offset_tmp_subs" "-20" "in.txt" "out.txt"
           (one_file "in.txt"
              ("00:00:10=Translation & sync" ++ LF ++ "00:00:30=Long, long time ago" ++ LF))
           (-20)
           [Spec.Line "00" "00" "10" "=" "Translation & sync";
            Spec.Line "00" "00" "30" "=" "Long, long time ago"]
           eq_refl eq_refl eq_refl eq_refl eq_refl).
Defined.

Lemma canonical_all (ls : list Spec.line) :
  forallb Spec.canonical ls = true ->
  forallb Spec.line_ok ls = true /\
  forallb (fun l => Spec.single_line (Spec.content l)) ls = true.
Proof.
  induction ls as [|l ls IH]; cbn [forallb]; [auto|].
  intros H. apply andb_true_iff in H as [Hl H].
  apply canonical_parts in Hl as (K & _ & _ & _ & S).
  destruct (IH H) as [IK IS]. now rewrite K, S, IK, IS.
Qed.

(** X19.  An offset of value 0 copies a file that is written the way the
    program writes files: the output has the very text of the input. *)
Theorem main_zero_copies (prog_name o i out : string) (w : world)
    (ls : list Spec.line) :
  total_seconds o = ret 0 ->
  files w i = Some (unlines (map Spec.text ls)) -> files w out = None ->
  forallb Spec.canonical ls = true ->
  snd (main prog_name [o; i; out] w) = Returned /\
  files (fst (main prog_name [o; i; out] w)) out = files w i.
Proof.
  intros Ho Hi Hout C. destruct (canonical_all ls C) as [K S].
  destruct (main_file prog_name o i out w 0 ls Ho Hi Hout K S) as (E & _ & F).
  split; [exact E|]. rewrite F, Hi. do 2 f_equal. clear - C K.
  induction ls as [|l ls IH]; cbn [forallb filter map] in *; [reflexivity|].
  apply andb_true_iff in C as [Cl C]. apply andb_true_iff in K as [Kl K].
  pose proof (total_nonneg l 0 Kl ltac:(lia)) as P.
  destruct (0 <=? Spec.total l 0) eqn:G; [|apply Z.leb_gt in G; lia].
  cbn [map]. rewrite (IH C K). f_equal.
  pose proof (canonical_fixed l Cl) as Z0.
  rewrite (offset_line_shaped l 0 Kl) in Z0. now injection Z0.
Qed.

Lemma main_zero_copies_witness :
  files (fst (main "offset_tmp_subs" ["-0"; "in.txt"; "out.txt"]
                (one_file "in.txt"
                   ("00:26:18:I'm a liar, a hypocrite." ++ LF ++
                    "100:00:59=x" ++ LF)))) "out.txt" =
    Some ("00:26:18:I'm a liar, a hypocrite." ++ LF ++ "100:00:59=x" ++ LF).
Proof.
  exact (proj2 (main_zero_copies "offset_tmp_subs" "-0" "in.txt" "out.txt"
                  (one_file "in.txt"
                     ("00:26:18:I'm a liar, a hypocrite." ++ LF ++ "100:00:59=x" ++ LF))
                  [Spec.Line "00" "26" "18" ":" "I'm a liar, a hypocrite.";
                   Spec.Line "100" "00" "59" "=" "x"]
                  eq_refl eq_refl eq_refl eq_refl)).
Defined.

(** X20.  Shifting a file and then shifting the result back by the opposite
    offset gives the file again, when it is written the way the program
    writes files and the first shift takes no line below zero. *)
Theorem main_round_trip (prog_name o o' i out back : string) (w : world) (v : Z)
    (ls : list Spec.line) :
  total_seconds o = ret v -> total_seconds o' = ret (- v) ->
  files w i = Some (unlines (map Spec.text ls)) ->
  files w out = None -> files w back = None -> back <> out ->
  forallb Spec.canonical ls = true ->
  forallb (fun l => 0 <=? Spec.total l v) ls = true ->
  snd (main prog_name [o'; out; back] (fst (main prog_name [o; i; out] w))) = Returned /\
  files (fst (main prog_name [o'; out; back] (fst (main prog_name [o; i; out] w)))) back =
    files w i.
Proof.
  intros Ho Ho' Hi Hout Hback N C P. destruct (canonical_all ls C) as [K S].
  destruct (main_file prog_name o i out w v ls Ho Hi Hout K S) as (_ & Fr & F).
  set (w1 := fst (main prog_name [o; i; out] w)) in *.
  assert (B : files w1 back = None) by (rewrite (Fr back N); exact Hback).
  set (step := fun l => rendered_line (Spec.of_seconds (Spec.total l v)) (Spec.sep l)
                          (Spec.first_line (Spec.content l))).
  assert (F1 : files w1 out = Some (unlines (map Spec.text (map step ls)))).
  { rewrite F. do 2 f_equal. clear - P.
    induction ls as [|l ls IH]; cbn [forallb filter map] in *; [reflexivity|].
    apply andb_true_iff in P as [Pl P]. rewrite Pl. cbn [map].
    rewrite (IH P). f_equal. apply shifted_rendered. }
  assert (K1 : forallb Spec.line_ok (map step ls) = true /\
               forallb (fun l => Spec.single_line (Spec.content l)) (map step ls) = true).
  { clear - K P.
    induction ls as [|l ls IH]; cbn [forallb map] in *; [auto|].
    apply andb_true_iff in K as [Kl K].
    apply andb_true_iff in P as [Pl P]. apply Z.leb_le in Pl.
    destruct (IH P K) as [IK IS]. rewrite IK, IS.
    pose proof (line_ok_parts l Kl) as (_ & _ & _ & Hsep).
    change (step l) with (rendered_line (Spec.of_seconds (Spec.total l v)) (Spec.sep l)
                            (Spec.first_line (Spec.content l))).
    rewrite (rendered_line_ok _ _ _ (valid_of_seconds _ Pl) Hsep).
    unfold rendered_line. cbn [Spec.content].
    now rewrite (proj1 (first_line_spec (Spec.content l))). }
  destruct K1 as [K1 S1].
  destruct (main_file prog_name o' out back w1 (- v) (map step ls)
              Ho' F1 B K1 S1) as (E2 & _ & F2).
  split; [exact E2|]. rewrite F2, Hi. do 2 f_equal. clear - C P.
  induction ls as [|l ls IH]; cbn [forallb filter map] in *; [reflexivity|].
  apply andb_true_iff in C as [Cl C]. apply andb_true_iff in P as [Pl P].
  apply Z.leb_le in Pl.
  pose proof (canonical_parts l Cl) as (Kl & _ & _ & _ & Sl).
  assert (T : Spec.total (step l) (- v) =
              Spec.flattened (Spec.hh l) (Spec.mm l) (Spec.ss l)).
  { unfold step. rewrite rendered_line_total by (now apply valid_of_seconds).
    rewrite seconds_of_of_seconds. unfold Spec.total. lia. }
  rewrite T.
  pose proof (total_nonneg l 0 Kl ltac:(lia)) as Q. unfold Spec.total in Q.
  rewrite Z.add_0_r in Q.
  destruct (0 <=? Spec.flattened (Spec.hh l) (Spec.mm l) (Spec.ss l)) eqn:G;
    [|apply Z.leb_gt in G; lia].
  cbn [map]. rewrite (IH C P). f_equal. unfold shifted. rewrite T.
  unfold step, rendered_line. cbn [Spec.sep Spec.content].
  rewrite first_line_first_line, (first_line_single _ Sl).
  now apply canonical_text.
Qed.

Lemma main_round_trip_witness :
  files (fst (main "offset_tmp_subs" ["-01:30"; "out.txt"; "back.txt"]
                (fst (main "offset_tmp_subs" ["+01:30"; "in.txt"; "out.txt"]
                        (one_file "in.txt"
                           ("00:59:18:I'm a liar, a hypocrite." ++ LF)))))) "back.txt" =
    Some ("00:59:18:I'm a liar, a hypocrite." ++ LF).
Proof.
  exact (proj2 (main_round_trip "offset_tmp_subs" "+01:30" "-01:30"
                  "in.txt" "out.txt" "back.txt"
                  (one_file "in.txt" ("00:59:18:I'm a liar, a hypocrite." ++ LF)) 90
                  [Spec.Line "00" "59" "18" ":" "I'm a liar, a hypocrite."]
                  eq_refl eq_refl eq_refl eq_refl eq_refl
                  ltac:(discriminate) eq_refl eq_refl)).
Defined.
